(** * SpecAnalyzer (src/core/spec-analyzer.ts): a shallow embedding

    The analyzer walks a parsed OpenAPI document, an arbitrary JSON value
    at run time, and fills a fresh [SpecAnalysis] object in seven phases.
    The embedding keeps that shape:

    - the document is a [json] value and every property access, truthiness
      test, [Object.entries] and optional chain is written with the
      JavaScript meaning it has on each kind of value;
    - a JavaScript exception is the [Fail] outcome of the [result] monad;
    - each phase takes the analysis object and returns the updated one;
    - returned models live in a [heap] of cells, so that the in-place
      writes of [analyzeWithContext] are writes to an address. *)

From Stdlib Require Import String Ascii ZArith List Bool Lia DecimalString.
From stdpp Require Import base list.
Import ListNotations.

Set Warnings "-register-all".

Local Open Scope Z_scope.
Local Open Scope string_scope.
Local Open Scope list_scope.

(** ** Outcomes *)

(** [TypeError] is the only exception the analyzer can raise (a property
    read on null or undefined, or a call of a method the value lacks).
    [OutsideModel] marks the single place where the JavaScript result
    depends on string-to-number coercion, which is not modelled. *)
Inductive failure : Type :=
| TypeError
| OutsideModel.

Inductive result (A : Type) : Type :=
| Ok (a : A)
| Fail (e : failure).

Arguments Ok {A} a.
Arguments Fail {A} e.

Definition bind {A B : Type} (m : result A) (k : A -> result B) : result B :=
  match m with
  | Ok a => k a
  | Fail e => Fail e
  end.

Notation "'let*' x ':=' m 'in' k" := (bind m (fun x => k))
  (at level 10, x pattern, m at level 100, k at level 200).

(** [for (const x of xs) { st = body(st, x) }] with a body that may throw. *)
Fixpoint foldM {S X : Type} (body : S -> X -> result S) (xs : list X) (st : S)
  : result S :=
  match xs with
  | [] => Ok st
  | x :: rest => let* st' := body st x in foldM body rest st'
  end.

(** [xs.some(p)]: stops at the first element whose test is truthy, so a
    later element that would throw is never visited. *)
Fixpoint someM {X : Type} (p : X -> result bool) (xs : list X) : result bool :=
  match xs with
  | [] => Ok false
  | x :: rest => let* b := p x in if b then Ok true else someM p rest
  end.

(** [xs.find(p)] with the same early exit. *)
Fixpoint findM {X : Type} (p : X -> result bool) (xs : list X)
  : result (option X) :=
  match xs with
  | [] => Ok None
  | x :: rest => let* b := p x in if b then Ok (Some x) else findM p rest
  end.

(** ** Strings

    Strings are ASCII strings; [toUpperCase] and [toLowerCase] are the
    ASCII case maps. *)

Definition toUpperChar (c : ascii) : ascii :=
  let n := nat_of_ascii c in
  if (97 <=? n)%nat && (n <=? 122)%nat then ascii_of_nat (n - 32) else c.

Definition toLowerChar (c : ascii) : ascii :=
  let n := nat_of_ascii c in
  if (65 <=? n)%nat && (n <=? 90)%nat then ascii_of_nat (n + 32) else c.

Fixpoint mapString (f : ascii -> ascii) (s : string) : string :=
  match s with
  | EmptyString => EmptyString
  | String c rest => String (f c) (mapString f rest)
  end.

Definition toUpperCase : string -> string := mapString toUpperChar.
Definition toLowerCase : string -> string := mapString toLowerChar.

Definition startsWith (pre s : string) : bool := String.prefix pre s.

(** [s.includes(needle)] *)
Fixpoint includes (needle s : string) : bool :=
  String.prefix needle s ||
  match s with
  | EmptyString => false
  | String _ rest => includes needle rest
  end.

Definition endsWith (suf s : string) : bool :=
  let n := String.length s in
  let k := String.length suf in
  (k <=? n)%nat && String.eqb (String.substring (n - k) k s) suf.

(** [s] without the prefix [pre], when it starts with it. *)
Fixpoint stripPrefix (pre s : string) : option string :=
  match pre, s with
  | EmptyString, _ => Some s
  | String a pre', String b s' =>
      if Ascii.eqb a b then stripPrefix pre' s' else None
  | String _ _, EmptyString => None
  end.

(** Longest prefix of [s] all of whose characters satisfy [keep]. *)
Fixpoint takeWhile (keep : ascii -> bool) (s : string) : string :=
  match s with
  | EmptyString => EmptyString
  | String c rest => if keep c then String c (takeWhile keep rest) else EmptyString
  end.

Definition string_in (s : string) (l : list string) : bool :=
  existsb (String.eqb s) l.

Definition nat_to_string (n : nat) : string :=
  NilEmpty.string_of_uint (Nat.to_uint n).

(** ** JSON values with their JavaScript reading *)

(** A parsed document. [JObj] lists the own properties in the order
    [Object.entries] enumerates them; a property read takes the first
    entry with the key. Numbers are integers. *)
Inductive json : Type :=
| JNull
| JBool (b : bool)
| JNum (n : Z)
| JStr (s : string)
| JArr (elems : list json)
| JObj (props : list (string * json)).

(** A JavaScript value: [None] is [undefined]. *)
Definition value : Type := option json.

Definition nullish (v : value) : bool :=
  match v with
  | None | Some JNull => true
  | _ => false
  end.

Definition truthy (v : value) : bool :=
  match v with
  | None | Some JNull => false
  | Some (JBool b) => b
  | Some (JNum n) => negb (Z.eqb n 0)
  | Some (JStr s) => negb (String.eqb s "")
  | Some (JArr _) | Some (JObj _) => true
  end.

Fixpoint assoc {V : Type} (k : string) (kvs : list (string * V)) : option V :=
  match kvs with
  | [] => None
  | (k', v) :: rest => if String.eqb k k' then Some v else assoc k rest
  end.

Definition has_key {V : Type} (k : string) (kvs : list (string * V)) : bool :=
  match assoc k kvs with
  | Some _ => true
  | None => false
  end.

(** Array index named by a property key: ["0"], or decimal digits that do
    not start with ["0"]. *)
Fixpoint digits_value (s : string) (acc : nat) : option nat :=
  match s with
  | EmptyString => Some acc
  | String c rest =>
      let n := nat_of_ascii c in
      if (48 <=? n)%nat && (n <=? 57)%nat
      then digits_value rest (10 * acc + (n - 48))%nat
      else None
  end.

Definition index_of_key (k : string) : option nat :=
  match k with
  | EmptyString => None
  | String "0" EmptyString => Some 0%nat
  | String "0" _ => None
  | _ => digits_value k 0%nat
  end.

Fixpoint string_nth (n : nat) (s : string) : option ascii :=
  match s, n with
  | EmptyString, _ => None
  | String c _, O => Some c
  | String _ rest, S n' => string_nth n' rest
  end.

(** [j[k]] on a value that is not null: own properties of an object,
    [length] and the indices of an array or a string, nothing on a number
    or a boolean. *)
Definition prop (j : json) (k : string) : value :=
  match j with
  | JObj props => assoc k props
  | JArr elems =>
      if String.eqb k "length" then Some (JNum (Z.of_nat (List.length elems)))
      else match index_of_key k with
           | Some i => nth_error elems i
           | None => None
           end
  | JStr s =>
      if String.eqb k "length" then Some (JNum (Z.of_nat (String.length s)))
      else match index_of_key k with
           | Some i => match string_nth i s with
                       | Some c => Some (JStr (String c EmptyString))
                       | None => None
                       end
           | None => None
           end
  | JNull | JBool _ | JNum _ => None
  end.

(** [v === s] for a string literal [s]. *)
Definition is_string (s : string) (v : value) : bool :=
  match v with
  | Some (JStr s') => String.eqb s' s
  | _ => false
  end.

(** [v.k]: throws on null and undefined. *)
Definition get (v : value) (k : string) : result value :=
  match v with
  | None | Some JNull => Fail TypeError
  | Some j => Ok (prop j k)
  end.

(** [v?.k] and [v?.[k]]: undefined on null and undefined. *)
Definition get_opt (v : value) (k : string) : value :=
  match v with
  | None | Some JNull => None
  | Some j => prop j k
  end.

(** [v || d] *)
Definition or_else (v : value) (d : json) : json :=
  match v with
  | Some j => if truthy v then j else d
  | None => d
  end.

Fixpoint indexed_from {X : Type} (i : nat) (xs : list X) : list (string * X) :=
  match xs with
  | [] => []
  | x :: rest => (nat_to_string i, x) :: indexed_from (S i) rest
  end.

Fixpoint chars (s : string) : list json :=
  match s with
  | EmptyString => []
  | String c rest => JStr (String c EmptyString) :: chars rest
  end.

(** [Object.entries(j)] for a value that is not null. *)
Definition entries (j : json) : list (string * json) :=
  match j with
  | JObj props => props
  | JArr elems => indexed_from 0 elems
  | JStr s => indexed_from 0 (chars s)
  | JNull | JBool _ | JNum _ => []
  end.

(** [Object.entries(j)]: throws on null. *)
Definition Object_entries (j : json) : result (list (string * json)) :=
  match j with
  | JNull => Fail TypeError
  | _ => Ok (entries j)
  end.

(** [s?.toLowerCase()]: undefined on null and undefined, a TypeError on a
    value that is not a string. *)
Definition toLowerCase_opt (v : value) : result (option string) :=
  match v with
  | None | Some JNull => Ok None
  | Some (JStr s) => Ok (Some (toLowerCase s))
  | Some _ => Fail TypeError
  end.

(** ** The analysis model (src/types/analysis.ts) *)

(** A JavaScript number as the complexity score can hold it. *)
Inductive number : Type :=
| Num (z : Z)
| NaN.

(** [isAction] is [undefined] when no disjunct of [isActionEndpoint]
    yields a boolean, hence the [option]. *)
Record AnalyzedEndpoint : Type := {
  path : string;
  method : string;
  operation : json;
  isAction : option bool;
  isResource : bool;
  complexity : number
}.

Record AnalyzedResource : Type := {
  res_name : string;
  res_schema : json;
  isCore : bool;
  res_relationships : list string
}.

Record WorkflowStep : Type := {
  action : string;
  step_endpoint : option string;
  step_description : option string
}.

(** [wf_type] is the string the code stores; the declared union is
    [declared_workflow_types]. *)
Record WorkflowPattern : Type := {
  wf_name : string;
  wf_type : string;
  steps : list WorkflowStep
}.

Definition declared_workflow_types : list string :=
  ["crud"; "auth"; "pagination"; "multipart"; "async"; "custom"].

Inductive RelationshipType : Type :=
| has_one
| has_many
| belongs_to
| many_to_many
| unknown.

Record ResourceRelationship : Type := {
  rel_from : string;
  rel_to : string;
  rel_type : RelationshipType
}.

(** [err_description] is [response.description || ''], any truthy JSON
    value or the empty string. *)
Record ErrorPattern : Type := {
  statusCode : string;
  err_endpoint : string;
  err_description : json;
  recoverable : option bool
}.

(** The flags the analyzer assigns; the optional ones are [None] until
    set. *)
Record APICapabilities : Type := {
  hasPagination : bool;
  hasBatchOperations : bool;
  hasWebhooks : bool;
  hasAsyncOperations : bool;
  hasAuthentication : bool;
  hasRateLimiting : bool;
  requiresStrictValidation : option bool;
  hasTestMode : option bool
}.

Record SpecAnalysis : Type := {
  hasTools : bool;
  hasResources : bool;
  hasPrompts : bool;
  requiresSampling : option bool;
  requiresContextManagement : option bool;
  requiresErrorIntelligence : option bool;
  endpoints : list AnalyzedEndpoint;
  resources : list AnalyzedResource;
  workflows : list WorkflowPattern;
  relationships : list ResourceRelationship;
  errorPatterns : list ErrorPattern;
  capabilities : APICapabilities
}.

(** Field assignments on the analysis object. *)
Definition set_hasTools (b : bool) (a : SpecAnalysis) : SpecAnalysis :=
  {| hasTools := b; hasResources := hasResources a; hasPrompts := hasPrompts a;
     requiresSampling := requiresSampling a;
     requiresContextManagement := requiresContextManagement a;
     requiresErrorIntelligence := requiresErrorIntelligence a;
     endpoints := endpoints a; resources := resources a;
     workflows := workflows a; relationships := relationships a;
     errorPatterns := errorPatterns a; capabilities := capabilities a |}.

Definition set_hasResources (b : bool) (a : SpecAnalysis) : SpecAnalysis :=
  {| hasTools := hasTools a; hasResources := b; hasPrompts := hasPrompts a;
     requiresSampling := requiresSampling a;
     requiresContextManagement := requiresContextManagement a;
     requiresErrorIntelligence := requiresErrorIntelligence a;
     endpoints := endpoints a; resources := resources a;
     workflows := workflows a; relationships := relationships a;
     errorPatterns := errorPatterns a; capabilities := capabilities a |}.

Definition set_hasPrompts (b : bool) (a : SpecAnalysis) : SpecAnalysis :=
  {| hasTools := hasTools a; hasResources := hasResources a; hasPrompts := b;
     requiresSampling := requiresSampling a;
     requiresContextManagement := requiresContextManagement a;
     requiresErrorIntelligence := requiresErrorIntelligence a;
     endpoints := endpoints a; resources := resources a;
     workflows := workflows a; relationships := relationships a;
     errorPatterns := errorPatterns a; capabilities := capabilities a |}.

Definition set_requiresSampling (b : bool) (a : SpecAnalysis) : SpecAnalysis :=
  {| hasTools := hasTools a; hasResources := hasResources a;
     hasPrompts := hasPrompts a;
     requiresSampling := Some b;
     requiresContextManagement := requiresContextManagement a;
     requiresErrorIntelligence := requiresErrorIntelligence a;
     endpoints := endpoints a; resources := resources a;
     workflows := workflows a; relationships := relationships a;
     errorPatterns := errorPatterns a; capabilities := capabilities a |}.

Definition set_requiresContextManagement (b : bool) (a : SpecAnalysis)
  : SpecAnalysis :=
  {| hasTools := hasTools a; hasResources := hasResources a;
     hasPrompts := hasPrompts a;
     requiresSampling := requiresSampling a;
     requiresContextManagement := Some b;
     requiresErrorIntelligence := requiresErrorIntelligence a;
     endpoints := endpoints a; resources := resources a;
     workflows := workflows a; relationships := relationships a;
     errorPatterns := errorPatterns a; capabilities := capabilities a |}.

Definition set_requiresErrorIntelligence (b : bool) (a : SpecAnalysis)
  : SpecAnalysis :=
  {| hasTools := hasTools a; hasResources := hasResources a;
     hasPrompts := hasPrompts a;
     requiresSampling := requiresSampling a;
     requiresContextManagement := requiresContextManagement a;
     requiresErrorIntelligence := Some b;
     endpoints := endpoints a; resources := resources a;
     workflows := workflows a; relationships := relationships a;
     errorPatterns := errorPatterns a; capabilities := capabilities a |}.

Definition set_endpoints (l : list AnalyzedEndpoint) (a : SpecAnalysis)
  : SpecAnalysis :=
  {| hasTools := hasTools a; hasResources := hasResources a;
     hasPrompts := hasPrompts a;
     requiresSampling := requiresSampling a;
     requiresContextManagement := requiresContextManagement a;
     requiresErrorIntelligence := requiresErrorIntelligence a;
     endpoints := l; resources := resources a;
     workflows := workflows a; relationships := relationships a;
     errorPatterns := errorPatterns a; capabilities := capabilities a |}.

Definition set_resources (l : list AnalyzedResource) (a : SpecAnalysis)
  : SpecAnalysis :=
  {| hasTools := hasTools a; hasResources := hasResources a;
     hasPrompts := hasPrompts a;
     requiresSampling := requiresSampling a;
     requiresContextManagement := requiresContextManagement a;
     requiresErrorIntelligence := requiresErrorIntelligence a;
     endpoints := endpoints a; resources := l;
     workflows := workflows a; relationships := relationships a;
     errorPatterns := errorPatterns a; capabilities := capabilities a |}.

Definition set_workflows (l : list WorkflowPattern) (a : SpecAnalysis)
  : SpecAnalysis :=
  {| hasTools := hasTools a; hasResources := hasResources a;
     hasPrompts := hasPrompts a;
     requiresSampling := requiresSampling a;
     requiresContextManagement := requiresContextManagement a;
     requiresErrorIntelligence := requiresErrorIntelligence a;
     endpoints := endpoints a; resources := resources a;
     workflows := l; relationships := relationships a;
     errorPatterns := errorPatterns a; capabilities := capabilities a |}.

Definition set_relationships (l : list ResourceRelationship) (a : SpecAnalysis)
  : SpecAnalysis :=
  {| hasTools := hasTools a; hasResources := hasResources a;
     hasPrompts := hasPrompts a;
     requiresSampling := requiresSampling a;
     requiresContextManagement := requiresContextManagement a;
     requiresErrorIntelligence := requiresErrorIntelligence a;
     endpoints := endpoints a; resources := resources a;
     workflows := workflows a; relationships := l;
     errorPatterns := errorPatterns a; capabilities := capabilities a |}.

Definition set_errorPatterns (l : list ErrorPattern) (a : SpecAnalysis)
  : SpecAnalysis :=
  {| hasTools := hasTools a; hasResources := hasResources a;
     hasPrompts := hasPrompts a;
     requiresSampling := requiresSampling a;
     requiresContextManagement := requiresContextManagement a;
     requiresErrorIntelligence := requiresErrorIntelligence a;
     endpoints := endpoints a; resources := resources a;
     workflows := workflows a; relationships := relationships a;
     errorPatterns := l; capabilities := capabilities a |}.

Definition set_capabilities (c : APICapabilities) (a : SpecAnalysis)
  : SpecAnalysis :=
  {| hasTools := hasTools a; hasResources := hasResources a;
     hasPrompts := hasPrompts a;
     requiresSampling := requiresSampling a;
     requiresContextManagement := requiresContextManagement a;
     requiresErrorIntelligence := requiresErrorIntelligence a;
     endpoints := endpoints a; resources := resources a;
     workflows := workflows a; relationships := relationships a;
     errorPatterns := errorPatterns a; capabilities := c |}.

(** Writes to [analysis.capabilities]. *)
Definition set_requiresStrictValidation (b : bool) (c : APICapabilities)
  : APICapabilities :=
  {| hasPagination := hasPagination c;
     hasBatchOperations := hasBatchOperations c;
     hasWebhooks := hasWebhooks c;
     hasAsyncOperations := hasAsyncOperations c;
     hasAuthentication := hasAuthentication c;
     hasRateLimiting := hasRateLimiting c;
     requiresStrictValidation := Some b;
     hasTestMode := hasTestMode c |}.

Definition set_hasTestMode (b : bool) (c : APICapabilities) : APICapabilities :=
  {| hasPagination := hasPagination c;
     hasBatchOperations := hasBatchOperations c;
     hasWebhooks := hasWebhooks c;
     hasAsyncOperations := hasAsyncOperations c;
     hasAuthentication := hasAuthentication c;
     hasRateLimiting := hasRateLimiting c;
     requiresStrictValidation := requiresStrictValidation c;
     hasTestMode := Some b |}.

(** The object literal [analyze] starts from. *)
Definition initial_capabilities : APICapabilities :=
  {| hasPagination := false; hasBatchOperations := false; hasWebhooks := false;
     hasAsyncOperations := false; hasAuthentication := false;
     hasRateLimiting := false;
     requiresStrictValidation := None; hasTestMode := None |}.

Definition initial_analysis : SpecAnalysis :=
  {| hasTools := false; hasResources := false; hasPrompts := false;
     requiresSampling := None; requiresContextManagement := None;
     requiresErrorIntelligence := None;
     endpoints := []; resources := []; workflows := []; relationships := [];
     errorPatterns := []; capabilities := initial_capabilities |}.

(** ** Helper methods *)

(** [obj && typeof obj === 'object' && ('summary' in obj || 'description'
    in obj || 'responses' in obj)], read as a condition. An array is an
    object but owns none of the three keys. *)
Definition isOperation (obj : json) : bool :=
  match obj with
  | JObj props =>
      has_key "summary" props || has_key "description" props
      || has_key "responses" props
  | _ => false
  end.

(** [operation.summary?.toLowerCase()] *)
Definition summary_lower (operation : json) : result (option string) :=
  let* summary := get (Some operation) "summary" in
  toLowerCase_opt summary.

Definition isActionEndpoint (method : string) (operation : json)
  : result (option bool) :=
  if string_in (toUpperCase method) ["POST"; "PUT"; "PATCH"; "DELETE"]
  then Ok (Some true)
  else
    let* summary := summary_lower operation in
    Ok (match summary with
        | None => None
        | Some s =>
            Some (includes "create" s || includes "update" s
                  || includes "delete" s)
        end).

Definition hasSideEffects (operation : json) : result (option bool) :=
  let* summary := summary_lower operation in
  Ok (match summary with
      | None => None
      | Some s =>
          Some (includes "trigger" s || includes "send" s
                || includes "execute" s)
      end).

(** Truthiness of a value that is a boolean or undefined. *)
Definition is_true (b : option bool) : bool :=
  match b with
  | Some true => true
  | _ => false
  end.

Definition isResourceEndpoint (method : string) (operation : json)
  : result bool :=
  if String.eqb (toUpperCase method) "GET"
  then let* effects := hasSideEffects operation in Ok (negb (is_true effects))
  else Ok false.

(** The number [x / 3] divides when [x] is the [length] read off
    [operation.parameters || []]. A string or an array there goes through
    string-to-number parsing. *)
Definition ToNumber (v : value) : result number :=
  match v with
  | None => Ok NaN
  | Some JNull => Ok (Num 0)
  | Some (JBool b) => Ok (Num (if b then 1 else 0))
  | Some (JNum n) => Ok (Num n)
  | Some (JObj _) => Ok NaN
  | Some (JStr _) | Some (JArr _) => Fail OutsideModel
  end.

Definition floor_div3 (x : number) : number :=
  match x with
  | Num n => Num (n / 3)
  | NaN => NaN
  end.

Definition add (x y : number) : number :=
  match x, y with
  | Num a, Num b => Num (a + b)
  | _, _ => NaN
  end.

(** [x > k] on numbers: false on NaN. *)
Definition gt (x : number) (k : Z) : bool :=
  match x with
  | Num n => Z.ltb k n
  | NaN => false
  end.

(** [Object.keys(j).length] *)
Definition keys_length (j : json) : nat := List.length (entries j).

(** [requestBody.content?.['application/json']?.schema] *)
Definition getRequestBodySchema (requestBody : value) : result value :=
  let* content := get requestBody "content" in
  Ok (get_opt (get_opt content "application/json") "schema").

Definition calculateComplexity (operation : json) : result number :=
  let complexity := Num 1 in
  let* parameters := get (Some operation) "parameters" in
  let* paramCount := ToNumber (prop (or_else parameters (JArr [])) "length") in
  let complexity := add complexity (floor_div3 paramCount) in
  let* requestBody := get (Some operation) "requestBody" in
  let* complexity :=
    if truthy requestBody then
      let complexity := add complexity (Num 1) in
      let* schema := getRequestBodySchema requestBody in
      let properties := get_opt schema "properties" in
      if truthy properties
         && (5 <? keys_length (or_else properties (JObj [])))%nat
      then Ok (add complexity (Num 1))
      else Ok complexity
    else Ok complexity in
  let* responses := get (Some operation) "responses" in
  let responseCount := keys_length (or_else responses (JObj [])) in
  if (3 <? responseCount)%nat
  then Ok (add complexity (Num 1))
  else Ok complexity.

Definition isCoreResource (name : string) (schema : json) : bool :=
  let corePatterns := ["user"; "account"; "organization"; "project"; "product"] in
  existsb (fun pattern => includes pattern (toLowerCase name)) corePatterns.

Definition is_line_terminator (c : ascii) : bool :=
  Ascii.eqb c "010" || Ascii.eqb c "013".

(** [ref.match(/#\/components\/schemas\/(.+)/)] on a string: the leftmost
    occurrence of the prefix that is followed by a character other than a
    line terminator; the group runs to the next line terminator. *)
Fixpoint match_schema_ref (ref : string) : option string :=
  let here :=
    match stripPrefix "#/components/schemas/" ref with
    | Some rest =>
        match takeWhile (fun c => negb (is_line_terminator c)) rest with
        | EmptyString => None
        | group => Some group
        end
    | None => None
    end in
  match here with
  | Some group => Some group
  | None =>
      match ref with
      | EmptyString => None
      | String _ rest => match_schema_ref rest
      end
  end.

(** [extractRefName(ref)]: [ref.match] exists on strings only. *)
Definition extractRefName (ref : value) : result (option string) :=
  match ref with
  | Some (JStr s) => Ok (match_schema_ref s)
  | _ => Fail TypeError
  end.

(** [[...new Set(l)]]: first occurrences, in order. *)
Fixpoint unique (l : list string) : list string :=
  match l with
  | [] => []
  | x :: rest => x :: List.filter (fun y => negb (String.eqb y x)) (unique rest)
  end.

(** [if (refName && refName !== name) relationships.push(refName)] *)
Definition push_ref (name : string) (refName : option string)
  (relationships : list string) : list string :=
  match refName with
  | Some r =>
      if negb (String.eqb r "") && negb (String.eqb r name)
      then relationships ++ [r]
      else relationships
  | None => relationships
  end.

(** Body of the loop over [Object.entries(schema.properties)]. *)
Definition scanProperty (name : string) (relationships : list string)
  (entry : string * json) : result (list string) :=
  let '(propName, propSchema) := entry in
  let* ref := get (Some propSchema) "$ref" in
  let* relationships :=
    if truthy ref
    then let* refName := extractRefName ref in
         Ok (push_ref name refName relationships)
    else Ok relationships in
  let* type := get (Some propSchema) "type" in
  if is_string "array" type then
    let* items := get (Some propSchema) "items" in
    let itemsRef := get_opt items "$ref" in
    if truthy itemsRef
    then let* refName := extractRefName itemsRef in
         Ok (push_ref name refName relationships)
    else Ok relationships
  else Ok relationships.

Definition findSchemaRelationships (name : string) (schema : json)
  : result (list string) :=
  let* properties := get (Some schema) "properties" in
  let* relationships :=
    if truthy properties
    then foldM (scanProperty name) (entries (or_else properties (JObj []))) []
    else Ok [] in
  Ok (unique relationships).

(** [v?.includes(x)]: a substring test on a string, a membership test on
    an array, undefined on null and undefined, a TypeError elsewhere. *)
Definition includes_opt (v : value) (x : string) : result (option bool) :=
  match v with
  | None | Some JNull => Ok None
  | Some (JStr s) => Ok (Some (includes x s))
  | Some (JArr elems) =>
      Ok (Some (existsb (fun e => match e with
                                  | JStr s => String.eqb s x
                                  | _ => false
                                  end) elems))
  | Some _ => Fail TypeError
  end.

(** The test of the [find] in [determineRelationshipType]. *)
Definition refersTo (relatedResource : string) (entry : string * json)
  : result bool :=
  let '(_, prop) := entry in
  let* ref := get (Some prop) "$ref" in
  let* direct := includes_opt ref relatedResource in
  if is_true direct then Ok true
  else
    let* items := get (Some prop) "items" in
    let* viaItems := includes_opt (get_opt items "$ref") relatedResource in
    Ok (is_true viaItems).

Definition determineRelationshipType (schema : json) (relatedResource : string)
  : result RelationshipType :=
  let* properties := get (Some schema) "properties" in
  let* found :=
    findM (refersTo relatedResource) (entries (or_else properties (JObj []))) in
  match found with
  | None => Ok unknown
  | Some (propName, _) =>
      if String.eqb propName "" then Ok unknown
      else if endsWith "Id" propName || endsWith "_id" propName
      then Ok belongs_to
      else if endsWith "s" propName || endsWith "List" propName
      then Ok has_many
      else Ok has_one
  end.

(** [endpoint.path.match(/^\/([^\/]+)/)]: the group, when the match
    succeeds. *)
Definition resourceMatch (path : string) : option string :=
  match stripPrefix "/" path with
  | Some rest =>
      match takeWhile (fun c => negb (Ascii.eqb c "/")) rest with
      | EmptyString => None
      | group => Some group
      end
  | None => None
  end.

(** [resourcePaths.get(resource).push(endpoint)] on the insertion-ordered
    [Map], after the [set(resource, [])] of a new key. *)
Fixpoint group_push (resource : string) (endpoint : AnalyzedEndpoint)
  (resourcePaths : list (string * list AnalyzedEndpoint))
  : list (string * list AnalyzedEndpoint) :=
  match resourcePaths with
  | [] => [(resource, [endpoint])]
  | (r, es) :: rest =>
      if String.eqb resource r then (r, es ++ [endpoint]) :: rest
      else (r, es) :: group_push resource endpoint rest
  end.

Definition groupByResource (endpoints : list AnalyzedEndpoint)
  : list (string * list AnalyzedEndpoint) :=
  fold_left (fun resourcePaths endpoint =>
               match resourceMatch (path endpoint) with
               | Some resource => group_push resource endpoint resourcePaths
               | None => resourcePaths
               end) endpoints [].

Definition step_at (a e : string) : WorkflowStep :=
  {| action := a; step_endpoint := Some e; step_description := None |}.

Definition step_of (a d : string) : WorkflowStep :=
  {| action := a; step_endpoint := None; step_description := Some d |}.

Definition crudWorkflow (resource : string) : WorkflowPattern :=
  {| wf_name := String.append resource "_crud";
     wf_type := "crud";
     steps :=
       [ step_at "list" (String.append "GET /" resource);
         step_at "create" (String.append "POST /" resource);
         step_at "read" (String.append "GET /" (String.append resource "/{id}"));
         step_at "update" (String.append "PUT /" (String.append resource "/{id}"));
         step_at "delete"
           (String.append "DELETE /" (String.append resource "/{id}")) ] |}.

Definition detectCRUDPatterns (endpoints : list AnalyzedEndpoint)
  : list WorkflowPattern :=
  flat_map (fun '(resource, endpoints) =>
              let methods := map method endpoints in
              if string_in "GET" methods && string_in "POST" methods
                 && string_in "PUT" methods && string_in "DELETE" methods
              then [crudWorkflow resource]
              else [])
           (groupByResource endpoints).

Definition hasAuthenticationFlow (endpoints : list AnalyzedEndpoint) : bool :=
  existsb (fun e => includes "auth" (path e) || includes "login" (path e)
                    || includes "token" (path e)) endpoints.

Definition buildAuthWorkflow (endpoints : list AnalyzedEndpoint)
  : list WorkflowStep :=
  [ step_of "authenticate" "Obtain credentials";
    step_of "validate" "Validate credentials";
    step_of "authorize" "Get access token";
    step_of "refresh" "Refresh token if needed" ].

(** The test of the [some] in [hasPaginationParameters]:
    [p.name.toLowerCase()] throws when [p] is null or [p.name] is not a
    string. *)
Definition isPaginationParameter (p : json) : result bool :=
  let* name := get (Some p) "name" in
  match name with
  | Some (JStr s) =>
      Ok (string_in (toLowerCase s) ["page"; "limit"; "offset"; "cursor"])
  | _ => Fail TypeError
  end.

(** [params.some(...)] exists on arrays only. *)
Definition hasPaginationParameters (operation : json) : result bool :=
  let* parameters := get (Some operation) "parameters" in
  match or_else parameters (JArr []) with
  | JArr params => someM isPaginationParameter params
  | _ => Fail TypeError
  end.

Definition hasPaginationPattern (endpoints : list AnalyzedEndpoint)
  : result bool :=
  someM (fun e => hasPaginationParameters (operation e)) endpoints.

Definition buildPaginationWorkflow (endpoints : list AnalyzedEndpoint)
  : list WorkflowStep :=
  [ step_of "initial_request" "Fetch first page";
    step_of "check_more" "Check if more pages exist";
    step_of "fetch_next" "Fetch next page";
    step_of "aggregate" "Combine results" ].

Definition hasFileUploadPattern (endpoints : list AnalyzedEndpoint)
  : result bool :=
  someM (fun e =>
           let* requestBody := get (Some (operation e)) "requestBody" in
           Ok (truthy (get_opt (get_opt requestBody "content")
                               "multipart/form-data")))
        endpoints.

Definition buildFileUploadWorkflow (endpoints : list AnalyzedEndpoint)
  : list WorkflowStep :=
  [ step_of "prepare" "Prepare file for upload";
    step_of "validate" "Validate file requirements";
    step_of "upload" "Upload file";
    step_of "verify" "Verify upload success" ].

Definition isRecoverableError (statusCode : string) (response : json)
  : result (option bool) :=
  if string_in statusCode ["429"; "503"; "504"] then Ok (Some true)
  else
    let* description := get (Some response) "description" in
    let* lower := toLowerCase_opt description in
    Ok (match lower with
        | None => None
        | Some s => Some (includes "retry" s)
        end).

(** ** The seven phases *)

(** Body of the inner loop of [analyzePaths]. *)
Definition scanOperation (path : string) (analysis : SpecAnalysis)
  (entry : string * json) : result SpecAnalysis :=
  let '(method, operation) := entry in
  if isOperation operation then
    let* isAction := isActionEndpoint method operation in
    let* isResource := isResourceEndpoint method operation in
    let* complexity := calculateComplexity operation in
    let endpoint :=
      {| path := path; method := toUpperCase method; operation := operation;
         isAction := isAction; isResource := isResource;
         complexity := complexity |} in
    let analysis := set_endpoints (endpoints analysis ++ [endpoint]) analysis in
    if is_true isAction || gt complexity 2
    then Ok (set_hasTools true analysis)
    else Ok analysis
  else Ok analysis.

Definition scanPathItem (analysis : SpecAnalysis) (entry : string * json)
  : result SpecAnalysis :=
  let '(path, pathItem) := entry in
  let* operations := Object_entries pathItem in
  foldM (scanOperation path) operations analysis.

Definition analyzePaths (spec : json) (analysis : SpecAnalysis)
  : result SpecAnalysis :=
  let* paths := get (Some spec) "paths" in
  foldM scanPathItem (entries (or_else paths (JObj []))) analysis.

(** Body of the loop of [analyzeSchemas]. *)
Definition scanSchema (analysis : SpecAnalysis) (entry : string * json)
  : result SpecAnalysis :=
  let '(name, schema) := entry in
  let* related := findSchemaRelationships name schema in
  let resource :=
    {| res_name := name; res_schema := schema;
       isCore := isCoreResource name schema;
       res_relationships := related |} in
  Ok (set_hasResources true
        (set_resources (resources analysis ++ [resource]) analysis)).

(** [this.spec.components?.schemas || {}] *)
Definition schemas_of (spec : json) : result json :=
  let* components := get (Some spec) "components" in
  Ok (or_else (get_opt components "schemas") (JObj [])).

Definition analyzeSchemas (spec : json) (analysis : SpecAnalysis)
  : result SpecAnalysis :=
  let* schemas := schemas_of spec in
  foldM scanSchema (entries schemas) analysis.

Definition push_workflow (w : WorkflowPattern) (analysis : SpecAnalysis)
  : SpecAnalysis :=
  set_workflows (workflows analysis ++ [w]) analysis.

Definition detectWorkflows (analysis : SpecAnalysis) : result SpecAnalysis :=
  let crudPatterns := detectCRUDPatterns (endpoints analysis) in
  let analysis := set_workflows (workflows analysis ++ crudPatterns) analysis in
  let analysis :=
    if hasAuthenticationFlow (endpoints analysis)
    then push_workflow
           {| wf_name := "authentication"; wf_type := "auth";
              steps := buildAuthWorkflow (endpoints analysis) |} analysis
    else analysis in
  let* paginated := hasPaginationPattern (endpoints analysis) in
  let analysis :=
    if paginated
    then push_workflow
           {| wf_name := "pagination"; wf_type := "navigation";
              steps := buildPaginationWorkflow (endpoints analysis) |} analysis
    else analysis in
  let* uploads := hasFileUploadPattern (endpoints analysis) in
  let analysis :=
    if uploads
    then push_workflow
           {| wf_name := "fileUpload"; wf_type := "multipart";
              steps := buildFileUploadWorkflow (endpoints analysis) |} analysis
    else analysis in
  if (0 <? List.length (workflows analysis))%nat
  then Ok (set_hasPrompts true analysis)
  else Ok analysis.

(** Body of the inner loop of [analyzeRelationships]. *)
Definition relate (resource : AnalyzedResource) (analysis : SpecAnalysis)
  (relatedResource : string) : result SpecAnalysis :=
  let* type := determineRelationshipType (res_schema resource) relatedResource in
  Ok (set_relationships
        (relationships analysis
         ++ [{| rel_from := res_name resource; rel_to := relatedResource;
                rel_type := type |}])
        analysis).

Definition relateResource (analysis : SpecAnalysis) (resource : AnalyzedResource)
  : result SpecAnalysis :=
  foldM (relate resource) (res_relationships resource) analysis.

Definition analyzeRelationships (analysis : SpecAnalysis) : result SpecAnalysis :=
  foldM relateResource (resources analysis) analysis.

(** Body of the inner loop of [detectErrorPatterns]. *)
Definition scanResponse (endpoint : AnalyzedEndpoint) (analysis : SpecAnalysis)
  (entry : string * json) : result SpecAnalysis :=
  let '(statusCode, response) := entry in
  if startsWith "4" statusCode || startsWith "5" statusCode then
    let* description := get (Some response) "description" in
    let* recoverable := isRecoverableError statusCode response in
    Ok (set_errorPatterns
          (errorPatterns analysis
           ++ [{| statusCode := statusCode;
                  err_endpoint :=
                    String.append (method endpoint)
                                  (String.append " " (path endpoint));
                  err_description := or_else description (JStr "");
                  recoverable := recoverable |}])
          analysis)
  else Ok analysis.

Definition scanEndpointErrors (analysis : SpecAnalysis)
  (endpoint : AnalyzedEndpoint) : result SpecAnalysis :=
  let* responses := get (Some (operation endpoint)) "responses" in
  foldM (scanResponse endpoint) (entries (or_else responses (JObj []))) analysis.

Definition detectErrorPatterns (analysis : SpecAnalysis) : result SpecAnalysis :=
  foldM scanEndpointErrors (endpoints analysis) analysis.

(** The test of the inner [some] of the rate-limit scan. *)
Definition hasRateLimitHeader (r : json) : result bool :=
  let* headers := get (Some r) "headers" in
  Ok (truthy (get_opt headers "X-RateLimit-Limit")
      || truthy (get_opt headers "RateLimit-Limit")).

Definition is_defined (v : value) : bool :=
  match v with
  | Some _ => true
  | None => false
  end.

(** The six assignments are made in this order; the two optional flags are
    left as they are. *)
Definition analyzeCapabilities (spec : json) (analysis : SpecAnalysis)
  : result SpecAnalysis :=
  let es := endpoints analysis in
  let* pagination := someM (fun e => hasPaginationParameters (operation e)) es in
  let batch :=
    existsb (fun e => includes "batch" (path e) || includes "bulk" (path e)) es in
  let* specWebhooks := get (Some spec) "webhooks" in
  let webhooks :=
    truthy specWebhooks || existsb (fun e => includes "webhook" (path e)) es in
  let* async :=
    someM (fun e =>
             let* responses := get (Some (operation e)) "responses" in
             Ok (is_defined (get_opt responses "202"))) es in
  let* components := get (Some spec) "components" in
  let authentication := truthy (get_opt components "securitySchemes") in
  let* rateLimiting :=
    someM (fun e =>
             let* responses := get (Some (operation e)) "responses" in
             someM hasRateLimitHeader
                   (map snd (entries (or_else responses (JObj [])))))
          es in
  Ok (set_capabilities
        {| hasPagination := pagination;
           hasBatchOperations := batch;
           hasWebhooks := webhooks;
           hasAsyncOperations := async;
           hasAuthentication := authentication;
           hasRateLimiting := rateLimiting;
           requiresStrictValidation :=
             requiresStrictValidation (capabilities analysis);
           hasTestMode := hasTestMode (capabilities analysis) |}
        analysis).

Definition determineMCPFeatures (analysis : SpecAnalysis) : SpecAnalysis :=
  let analysis :=
    if (2 <? List.length (workflows analysis))%nat
       || hasAsyncOperations (capabilities analysis)
    then set_requiresSampling true analysis
    else analysis in
  let analysis :=
    if (3 <? List.length (relationships analysis))%nat
    then set_requiresContextManagement true analysis
    else analysis in
  if (5 <? List.length (errorPatterns analysis))%nat
  then set_requiresErrorIntelligence true analysis
  else analysis.

(** [analyze()]: the phases run on the fresh object, in this order. *)
Definition analyze (spec : json) : result SpecAnalysis :=
  let analysis := initial_analysis in
  let* analysis := analyzePaths spec analysis in
  let* analysis := analyzeSchemas spec analysis in
  let* analysis := detectWorkflows analysis in
  let* analysis := analyzeRelationships analysis in
  let* analysis := detectErrorPatterns analysis in
  let* analysis := analyzeCapabilities spec analysis in
  Ok (determineMCPFeatures analysis).

(** ** Returned models as objects

    A model returned to a caller is an object the caller holds by
    reference. The heap lists the models returned so far; an address is
    an index into it. The arrays and the capabilities object of a model
    are created by the object literal in [analyze] and referenced from
    that model only, so a cell holds them by value. *)

Abbreviation addr := nat (only parsing).
Abbreviation heap := (list SpecAnalysis) (only parsing).

(** A call of [analyze()]: the filled object is new. An exception leaves
    nothing reachable behind. *)
Definition analyze_call (spec : json) (h : heap) : result addr * heap :=
  match analyze spec with
  | Ok analysis => (Ok (List.length h), h ++ [analysis])
  | Fail e => (Fail e, h)
  end.

(** [baseAnalysis.capabilities.f = true], a write through the reference. *)
Definition write_capabilities (a : addr)
  (f : APICapabilities -> APICapabilities) (h : heap) : heap :=
  alter (fun analysis => set_capabilities (f (capabilities analysis)) analysis) a h.

(** [context.environment === 'production'], once [context] is read. *)
Definition is_production (environment : value) : bool :=
  is_string "production" environment.

(** [r.name.includes('test')]: throws when [r] is null or [r.name] is
    neither a string nor an array. *)
Definition isTestRoot (r : json) : result bool :=
  let* name := get (Some r) "name" in
  match name with
  | Some (JStr s) => Ok (includes "test" s)
  | Some (JArr elems) =>
      Ok (existsb (fun e => match e with
                            | JStr s => String.eqb s "test"
                            | _ => false
                            end) elems)
  | _ => Fail TypeError
  end.

(** [context.roots?.some(...)], read as a condition. *)
Definition hasTestRoot (context : json) : result bool :=
  let* roots := get (Some context) "roots" in
  match roots with
  | None | Some JNull => Ok false
  | Some (JArr rs) => someM isTestRoot rs
  | Some _ => Fail TypeError
  end.

Definition analyzeWithContext (context : json) (spec : json) (h : heap)
  : result addr * heap :=
  match analyze_call spec h with
  | (Fail e, h) => (Fail e, h)
  | (Ok baseAnalysis, h) =>
      match get (Some context) "environment" with
      | Fail e => (Fail e, h)
      | Ok environment =>
          let h :=
            if is_production environment
            then write_capabilities baseAnalysis
                   (set_requiresStrictValidation true) h
            else h in
          match hasTestRoot context with
          | Fail e => (Fail e, h)
          | Ok test =>
              let h :=
                if test
                then write_capabilities baseAnalysis (set_hasTestMode true) h
                else h in
              (Ok baseAnalysis, h)
          end
      end
  end.

(** ** Vocabulary of the statements *)

(** [Object.keys(operation.responses || {}).length] *)
Definition responseCount (operation : json) : nat :=
  keys_length (or_else (prop operation "responses") (JObj [])).

(** The declared type of [Operation.parameters]: absent, or an array. *)
Definition parameters_typed (operation : json) : Prop :=
  prop operation "parameters" = None
  \/ exists params, prop operation "parameters" = Some (JArr params).

(** The verbs the scanner is said to recognize. *)
Definition recognized_methods : list string :=
  ["GET"; "POST"; "PUT"; "DELETE"; "PATCH"].

(** [e] is the record built for an operation-like entry [key] of a path
    item of [spec]. *)
Definition scanned_from (spec : json) (e : AnalyzedEndpoint) : Prop :=
  exists paths pathItem key,
    get (Some spec) "paths" = Ok paths
    /\ In (path e, pathItem) (entries (or_else paths (JObj [])))
    /\ In (key, operation e) (entries pathItem)
    /\ isOperation (operation e) = true
    /\ method e = toUpperCase key.

(** The named schemas of the document:
    [Object.entries(spec.components?.schemas || {})]. *)
Definition named_schemas (spec : json) : list (string * json) :=
  entries (or_else (get_opt (prop spec "components") "schemas") (JObj [])).

(** [target] is the name [extractRefName] reads off the reference pointer
    of a direct property of [schema], or of the items of an array-typed
    direct property. *)
Definition referenced_by (schema : json) (target : string) : Prop :=
  exists properties propName propSchema ref,
    prop schema "properties" = Some properties
    /\ In (propName, propSchema) (entries properties)
    /\ (prop propSchema "$ref" = Some (JStr ref)
        \/ (is_string "array" (prop propSchema "type") = true
            /\ get_opt (prop propSchema "items") "$ref" = Some (JStr ref)))
    /\ match_schema_ref ref = Some target.

(** [r] is the record built for a named schema of [spec]. *)
Definition resource_of (spec : json) (r : AnalyzedResource) : Prop :=
  In (res_name r, res_schema r) (named_schemas spec)
  /\ findSchemaRelationships (res_name r) (res_schema r)
     = Ok (res_relationships r).

(** A document that is an object, as opposed to null, a primitive or an
    array. *)
Definition is_object (spec : json) : bool :=
  match spec with
  | JObj _ => true
  | _ => false
  end.

(** [spec === null] *)
Definition json_is_null (spec : json) : bool :=
  match spec with
  | JNull => true
  | _ => false
  end.

(** The only exception a computation can end in is a TypeError. *)
Definition only_TypeError {A : Type} (m : result A) : Prop :=
  forall e, m = Fail e -> e = TypeError.

(** [m'] is [m] in every field but the two capability flags that
    [analyzeWithContext] may set. *)
Definition same_but_context_flags (m m' : SpecAnalysis) : Prop :=
  hasTools m' = hasTools m
  /\ hasResources m' = hasResources m
  /\ hasPrompts m' = hasPrompts m
  /\ requiresSampling m' = requiresSampling m
  /\ requiresContextManagement m' = requiresContextManagement m
  /\ requiresErrorIntelligence m' = requiresErrorIntelligence m
  /\ endpoints m' = endpoints m
  /\ resources m' = resources m
  /\ workflows m' = workflows m
  /\ relationships m' = relationships m
  /\ errorPatterns m' = errorPatterns m
  /\ hasPagination (capabilities m') = hasPagination (capabilities m)
  /\ hasBatchOperations (capabilities m') = hasBatchOperations (capabilities m)
  /\ hasWebhooks (capabilities m') = hasWebhooks (capabilities m)
  /\ hasAsyncOperations (capabilities m') = hasAsyncOperations (capabilities m)
  /\ hasAuthentication (capabilities m') = hasAuthentication (capabilities m)
  /\ hasRateLimiting (capabilities m') = hasRateLimiting (capabilities m).

(** A root as [Root] declares it: an object with a string name. *)
Definition typed_root (r : json) : bool :=
  match r with
  | JObj props =>
      match assoc "name" props with
      | Some (JStr _) => true
      | _ => false
      end
  | _ => false
  end.

(** A context snapshot as [APIContext] declares it: an object whose roots
    are an array of roots. *)
Definition typed_context (context : json) : Prop :=
  exists props rs,
    context = JObj props
    /\ assoc "roots" props = Some (JArr rs)
    /\ forallb typed_root rs = true.

Definition roots_of (context : json) : list json :=
  match prop context "roots" with
  | Some (JArr rs) => rs
  | _ => []
  end.

(** The root's name contains "test". *)
Definition named_test (r : json) : bool :=
  match prop r "name" with
  | Some (JStr s) => includes "test" s
  | _ => false
  end.

(** The workflows of the model that are named [pagination]. *)
Definition pagination_workflows (m : SpecAnalysis) : list WorkflowPattern :=
  List.filter (fun w => String.eqb (wf_name w) "pagination") (workflows m).

(** What [detectWorkflows] appends to the workflows, given the outcome of
    the pagination and upload tests. *)
Definition emitted_workflows (es : list AnalyzedEndpoint)
  (paginated uploads : bool) : list WorkflowPattern :=
  detectCRUDPatterns es
  ++ (if hasAuthenticationFlow es
      then [{| wf_name := "authentication"; wf_type := "auth";
               steps := buildAuthWorkflow es |}]
      else [])
  ++ (if paginated
      then [{| wf_name := "pagination"; wf_type := "navigation";
               steps := buildPaginationWorkflow es |}]
      else [])
  ++ (if uploads
      then [{| wf_name := "fileUpload"; wf_type := "multipart";
               steps := buildFileUploadWorkflow es |}]
      else []).

(** ** Fields outside a phase *)

(** The fields [analyzePaths] never writes. *)
Definition besides_paths (a : SpecAnalysis) :=
  (resources a, workflows a, relationships a, errorPatterns a,
   hasResources a, hasPrompts a).

(** The fields [analyzeSchemas] never writes. *)
Definition besides_schemas (a : SpecAnalysis) :=
  (endpoints a, workflows a, relationships a, errorPatterns a,
   hasTools a, hasPrompts a).

(** The fields [detectWorkflows] never writes. *)
Definition besides_workflows (a : SpecAnalysis) :=
  (endpoints a, resources a, relationships a, errorPatterns a,
   hasTools a, hasResources a).

(** The fields [analyzeRelationships] never writes. *)
Definition besides_relationships (a : SpecAnalysis) :=
  (endpoints a, resources a, workflows a, errorPatterns a,
   hasTools a, hasResources a, hasPrompts a).

(** The fields [detectErrorPatterns] never writes. *)
Definition besides_errors (a : SpecAnalysis) :=
  (endpoints a, resources a, workflows a, relationships a,
   hasTools a, hasResources a, hasPrompts a).

(** The fields [analyzeCapabilities] and [determineMCPFeatures] never
    write. *)
Definition besides_flags (a : SpecAnalysis) :=
  (endpoints a, resources a, workflows a, relationships a, errorPatterns a,
   hasTools a, hasResources a, hasPrompts a).

(** ** Sample documents *)

Definition okResponse : json := JObj [("description", JStr "ok")].

Definition idParameter : json := JObj [("name", JStr "id"); ("in", JStr "path")].

(** Three parameters and four response entries. *)
Definition op_four_responses : json :=
  JObj [("parameters", JArr [idParameter; idParameter; idParameter]);
        ("responses", JObj [("200", okResponse); ("400", okResponse);
                            ("404", okResponse); ("500", okResponse)])].

(** The same parameters and a single response entry. *)
Definition op_one_response : json :=
  JObj [("parameters", JArr [idParameter; idParameter; idParameter]);
        ("responses", JObj [("200", okResponse)])].

(** A path item with an [options] operation. *)
Definition options_doc : json :=
  JObj [("paths",
         JObj [("/status",
                JObj [("options", JObj [("responses", JObj [])])])])].

(** One schema, whose only reference names a schema that is not there. *)
Definition dangling_doc : json :=
  JObj [("paths", JObj []);
        ("components",
         JObj [("schemas",
                JObj [("Order",
                       JObj [("properties",
                              JObj [("customer",
                                     JObj [("$ref",
                                            JStr "#/components/schemas/Customer")])])])])])].

(** Two schemas that refer to each other and to themselves. *)
Definition linked_doc : json :=
  JObj [("components",
         JObj [("schemas",
                JObj [("User",
                       JObj [("properties",
                              JObj [("self", JObj [("$ref", JStr "#/components/schemas/User")]);
                                    ("teams",
                                     JObj [("type", JStr "array");
                                           ("items",
                                            JObj [("$ref", JStr "#/components/schemas/Team")])])])]);
                      ("Team",
                       JObj [("properties",
                              JObj [("ownerId", JObj [("$ref", JStr "#/components/schemas/User")])])])])])].

(** A GET operation whose only parameter is a reference object, which
    [Operation.parameters] allows: [Array<Parameter | Reference>]. *)
Definition reference_parameter_doc : json :=
  JObj [("paths",
         JObj [("/items",
                JObj [("get",
                       JObj [("responses", JObj [("200", okResponse)]);
                             ("parameters",
                              JArr [JObj [("$ref",
                                           JStr "#/components/parameters/Page")]])])])])].

(** A GET operation with a [page] parameter. *)
Definition paginated_doc : json :=
  JObj [("paths",
         JObj [("/items",
                JObj [("get",
                       JObj [("responses", JObj [("200", okResponse)]);
                             ("parameters",
                              JArr [JObj [("name", JStr "page");
                                          ("in", JStr "query")]])])])])].

(** An object document with no paths section. *)
Definition pathless_doc : json :=
  JObj [("openapi", JStr "3.0.0");
        ("info", JObj [("title", JStr "t"); ("version", JStr "1")])].

(** A production context with a test root. *)
Definition production_context : json :=
  JObj [("environment", JStr "production");
        ("roots",
         JArr [JObj [("uri", JStr "file:///srv/api"); ("name", JStr "api")];
               JObj [("uri", JStr "file:///srv/test-data");
                     ("name", JStr "test-data")]])].


(** ** Vocabulary of the further statements *)

(** [e] is the record [scanOperation] builds for the entry [key], with
    value [op], of the path item at [p]. *)
Definition endpoint_for (p key : string) (op : json) (e : AnalyzedEndpoint)
  : Prop :=
  path e = p
  /\ method e = toUpperCase key
  /\ operation e = op
  /\ isActionEndpoint key op = Ok (isAction e)
  /\ isResourceEndpoint key op = Ok (isResource e)
  /\ calculateComplexity op = Ok (complexity e).

(** The operation-like entries of the path items of the document, in the
    order the two loops of [analyzePaths] visit them. *)
Definition operation_entries (spec : json) : list (string * string * json) :=
  flat_map (fun '(p, pathItem) =>
              map (fun '(key, op) => (p, key, op))
                  (List.filter (fun entry => isOperation (snd entry))
                               (entries pathItem)))
           (entries (or_else (prop spec "paths") (JObj []))).

(** The test that sets [hasTools]:
    [endpoint.isAction || endpoint.complexity > 2]. *)
Definition tool_like (e : AnalyzedEndpoint) : bool :=
  is_true (isAction e) || gt (complexity e) 2.

(** The summary of the operation contains [word], whatever the case. *)
Definition summary_mentions (word : string) (op : json) : bool :=
  match prop op "summary" with
  | Some (JStr s) => includes word (toLowerCase s)
  | _ => false
  end.

(** One schema made the subject of a POST and of a GET whose summary
    announces a side effect. *)
Definition orders_doc : json :=
  JObj [("paths",
         JObj [("/orders",
                JObj [("summary", JStr "Orders");
                      ("post", JObj [("responses", JObj [("201", okResponse)])]);
                      ("get", JObj [("summary", JStr "Trigger a re-index");
                                    ("responses", JObj [("200", okResponse)])]);
                      ("parameters", JArr [])])])].

(** Every character of [s] satisfies [f]. *)
Fixpoint string_forall (f : ascii -> bool) (s : string) : bool :=
  match s with
  | EmptyString => true
  | String c rest => f c && string_forall f rest
  end.

(** The pointer to the named schema. *)
Definition schema_pointer (name : string) : string :=
  String.append "#/components/schemas/" name.

(** The type [determineRelationshipType] reads off a property name. *)
Definition type_of_property_name (propName : string) : RelationshipType :=
  if String.eqb propName "" then unknown
  else if endsWith "Id" propName || endsWith "_id" propName then belongs_to
  else if endsWith "s" propName || endsWith "List" propName then has_many
  else has_one.

(** [r] is the record [scanSchema] builds for the schema [name]. *)
Definition resource_for (name : string) (schema : json) (r : AnalyzedResource)
  : Prop :=
  res_name r = name
  /\ res_schema r = schema
  /\ isCore r = isCoreResource name schema
  /\ findSchemaRelationships name schema = Ok (res_relationships r).

(** The pairs the relationship records are built from: each resource with
    each name of its relationship list. *)
Definition related_pairs (rs : list AnalyzedResource) : list (string * string) :=
  flat_map (fun res => map (fun t => (res_name res, t)) (res_relationships res))
           rs.

(** The endpoint belongs to the group of [resource]: the first segment of
    its path is [resource]. *)
Definition in_group (resource : string) (e : AnalyzedEndpoint) : bool :=
  match resourceMatch (path e) with
  | Some r => String.eqb r resource
  | None => false
  end.

Definition group_of (resource : string) (es : list AnalyzedEndpoint)
  : list AnalyzedEndpoint :=
  List.filter (in_group resource) es.

(** The test [detectCRUDPatterns] makes on the methods of a group. *)
Definition covers_crud (group : list AnalyzedEndpoint) : bool :=
  string_in "GET" (map method group) && string_in "POST" (map method group)
  && string_in "PUT" (map method group)
  && string_in "DELETE" (map method group).

(** The body of the loop that fills the [Map] in [detectCRUDPatterns]. *)
Definition group_step (resourcePaths : list (string * list AnalyzedEndpoint))
  (endpoint : AnalyzedEndpoint) : list (string * list AnalyzedEndpoint) :=
  match resourceMatch (path endpoint) with
  | Some resource => group_push resource endpoint resourcePaths
  | None => resourcePaths
  end.

(** The keys of [g] are distinct and each key maps to the endpoints of its
    group among [es], in order. *)
Definition groups_of (es : list AnalyzedEndpoint)
  (g : list (string * list AnalyzedEndpoint)) : Prop :=
  List.NoDup (map fst g)
  /\ forall r, assoc r g = match group_of r es with
                           | [] => None
                           | group => Some group
                           end.

(** The workflows of the model with the given name. *)
Definition workflows_named (name : string) (m : SpecAnalysis)
  : list WorkflowPattern :=
  List.filter (fun w => String.eqb (wf_name w) name) (workflows m).

(** The test of the authentication workflow, on one endpoint. *)
Definition auth_path (e : AnalyzedEndpoint) : bool :=
  includes "auth" (path e) || includes "login" (path e)
  || includes "token" (path e).

(** [e.operation.requestBody?.content?.['multipart/form-data']], read as a
    condition, for an operation that is not null. *)
Definition declares_multipart (e : AnalyzedEndpoint) : bool :=
  truthy (get_opt (get_opt (prop (operation e) "requestBody") "content")
                  "multipart/form-data").

(** The operation has a parameter array with a parameter whose name, in
    lower case, is one of the four pagination names. *)
Definition has_pagination_parameter (op : json) : Prop :=
  exists params p s,
    or_else (prop op "parameters") (JArr []) = JArr params
    /\ In p params
    /\ prop p "name" = Some (JStr s)
    /\ In (toLowerCase s) ["page"; "limit"; "offset"; "cursor"].

(** The widgets of the specification: two paths that together carry the
    four methods, and a login path. *)
Definition widgets_doc : json :=
  let op := JObj [("responses", JObj [("200", okResponse)])] in
  JObj [("paths",
         JObj [("/widgets", JObj [("get", op); ("post", op)]);
               ("/widgets/{id}",
                JObj [("get", op); ("put", op); ("delete", op)]);
               ("/login", JObj [("post", op)])])].

(** The three advisory flags of the model. *)
Definition optional_flags (a : SpecAnalysis) :=
  (requiresSampling a, requiresContextManagement a,
   requiresErrorIntelligence a).

(** What the five phases before [analyzeCapabilities] never write. *)
Definition besides_scans (a : SpecAnalysis) :=
  (optional_flags a, capabilities a).

(** The operation declares a 202 response:
    [e.operation.responses?.['202'] !== undefined]. *)
Definition declares_202 (e : AnalyzedEndpoint) : bool :=
  is_defined (get_opt (prop (operation e) "responses") "202").

(** The response carries one of the two rate-limit headers. *)
Definition rate_limited_response (r : json) : bool :=
  truthy (get_opt (prop r "headers") "X-RateLimit-Limit")
  || truthy (get_opt (prop r "headers") "RateLimit-Limit").

Definition declares_rate_limit (e : AnalyzedEndpoint) : bool :=
  existsb rate_limited_response
          (map snd (entries (or_else (prop (operation e) "responses")
                                     (JObj [])))).

(** An accepted upload answered with 202, behind an empty set of security
    schemes. *)
Definition uploads_doc : json :=
  JObj [("paths",
         JObj [("/bulk/files",
                JObj [("post",
                       JObj [("requestBody",
                              JObj [("content",
                                     JObj [("multipart/form-data",
                                            JObj [])])]);
                             ("parameters",
                              JArr [JObj [("name", JStr "Cursor")]]);
                             ("responses",
                              JObj [("202", okResponse);
                                    ("429",
                                     JObj [("headers",
                                            JObj [("X-RateLimit-Limit",
                                                   JObj [])])]);
                                    ("500",
                                     JObj [("description",
                                            JStr "Please RETRY later")])])])])]);
        ("components", JObj [("securitySchemes", JObj [])])].

(** [statusCode.startsWith('4') || statusCode.startsWith('5')] *)
Definition is_error_status (code : string) : bool :=
  startsWith "4" code || startsWith "5" code.

(** The error responses of the endpoints, in the order the two loops of
    [detectErrorPatterns] visit them. *)
Definition error_entries (es : list AnalyzedEndpoint)
  : list (AnalyzedEndpoint * string * json) :=
  flat_map (fun e =>
              map (fun '(code, response) => (e, code, response))
                  (List.filter (fun entry => is_error_status (fst entry))
                               (entries (or_else (prop (operation e) "responses")
                                                 (JObj [])))))
           es.

(** What [isRecoverableError] returns when it returns. *)
Definition recoverable_of (code : string) (response : json) : option bool :=
  if string_in code ["429"; "503"; "504"] then Some true
  else match prop response "description" with
       | Some (JStr s) => Some (includes "retry" (toLowerCase s))
       | _ => None
       end.

(** The error pattern [scanResponse] builds for the response [response],
    declared under [code] by the endpoint [e]. *)
Definition error_pattern_of (e : AnalyzedEndpoint) (code : string)
  (response : json) : ErrorPattern :=
  {| statusCode := code;
     err_endpoint := String.append (method e) (String.append " " (path e));
     err_description := or_else (prop response "description") (JStr "");
     recoverable := recoverable_of code response |}.

(** The number of declared parameters of a typed operation. *)
Definition parameter_count (op : json) : Z :=
  match prop op "parameters" with
  | Some (JArr params) => Z.of_nat (List.length params)
  | _ => 0
  end.

(** A path item left empty, as a YAML document yields it. *)
Definition empty_item_doc : json :=
  JObj [("paths", JObj [("/health", JNull)])].

(** An operation whose parameters are given as a count. *)
Definition counted_parameters_op : json :=
  JObj [("parameters", JNum 5); ("responses", JObj [("200", okResponse)])].

(** ** Documents typed as the interfaces declare them *)

(** Absent, null or a string. *)
Definition optional_string (v : value) : bool :=
  match v with
  | None | Some JNull | Some (JStr _) => true
  | _ => false
  end.

(** A parameter object with a string name. *)
Definition named_parameter (p : json) : bool :=
  match prop p "name" with
  | Some (JStr _) => true
  | _ => false
  end.

(** Absent, or an array of named parameters. *)
Definition typed_parameters (v : value) : bool :=
  match v with
  | None => true
  | Some (JArr ps) => forallb named_parameter ps
  | _ => false
  end.

(** A response object whose description, when present, is a string. *)
Definition typed_response (r : json) : bool :=
  match r with
  | JObj _ => optional_string (prop r "description")
  | _ => false
  end.

Definition typed_responses (v : value) : bool :=
  match v with
  | None => true
  | Some (JObj rs) => forallb (fun entry => typed_response (snd entry)) rs
  | _ => false
  end.

Definition typed_operation (op : json) : bool :=
  match op with
  | JObj _ =>
      optional_string (prop op "summary")
      && typed_parameters (prop op "parameters")
      && typed_responses (prop op "responses")
  | _ => false
  end.

(** A path item object; its entries that are not operation-like (a
    summary, shared parameters) are free. *)
Definition typed_path_item (item : json) : bool :=
  match item with
  | JObj kvs =>
      forallb (fun entry => negb (isOperation (snd entry))
                            || typed_operation (snd entry)) kvs
  | _ => false
  end.

Definition typed_paths (v : value) : bool :=
  match v with
  | None => true
  | Some (JObj items) => forallb (fun entry => typed_path_item (snd entry)) items
  | _ => false
  end.

(** A property schema object whose reference pointers, its own and that of
    its items, are strings when present. *)
Definition typed_property (p : json) : bool :=
  match p with
  | JObj _ =>
      optional_string (prop p "$ref")
      && optional_string (get_opt (prop p "items") "$ref")
  | _ => false
  end.

Definition typed_schema (s : json) : bool :=
  match s with
  | JObj _ =>
      match prop s "properties" with
      | None => true
      | Some (JObj props) =>
          forallb (fun entry => typed_property (snd entry)) props
      | _ => false
      end
  | _ => false
  end.

Definition typed_schemas (v : value) : bool :=
  match v with
  | None => true
  | Some (JObj ss) => forallb (fun entry => typed_schema (snd entry)) ss
  | _ => false
  end.

(** A document object whose paths and schemas, when present, are typed;
    every other section is free. *)
Definition typed_document (spec : json) : bool :=
  match spec with
  | JObj _ =>
      typed_paths (prop spec "paths")
      && typed_schemas (get_opt (prop spec "components") "schemas")
  | _ => false
  end.

(** ** Roots as a client may send them *)

(** A root whose name is a string without "test". *)
Definition plain_root (r : json) : bool :=
  match prop r "name" with
  | Some (JStr s) => negb (includes "test" s)
  | _ => false
  end.

(** A context whose second root has no name. *)
Definition nameless_root_context : json :=
  JObj [("environment", JStr "local");
        ("roots",
         JArr [JObj [("uri", JStr "file:///srv/api"); ("name", JStr "api")];
               JObj [("uri", JStr "file:///srv/data")];
               JObj [("uri", JStr "file:///srv/test");
                     ("name", JStr "test")]])].

(** ** The context manager (core/context-manager.ts)

    The part of the context that produces what [analyzeWithContext]
    reads, and the operation history. *)
Module ContextManager.

Record Root : Type := {
  uri : string;
  name : string
}.

(** The fields of [APIContext] that the functions below read or write;
    [metadata] is the insertion-ordered [Map]. *)
Record APIContext : Type := {
  environment : string;
  roots : list Root;
  metadata : list (string * json);
  operationHistory : list string
}.

(** [createDefaultContext()], for these fields. *)
Definition createDefaultContext : APIContext :=
  {| environment := "unknown"; roots := []; metadata := [];
     operationHistory := [] |}.

(** [history.slice(-k)]: the last [k] entries, all of them when there
    are fewer. *)
Definition slice_last {X : Type} (k : nat) (l : list X) : list X :=
  skipn (List.length l - k) l.

(** [trackOperation(operation)], on the history of the current
    context. *)
Definition trackOperation (history : list string) (operation : string)
  : list string :=
  let history := history ++ [operation] in
  if (100 <? List.length history)%nat then slice_last 50 history
  else history.

(** The [Set] built by the first loop of [detectEnvironment]. *)
Definition environments (context : APIContext) : list json :=
  map snd (List.filter (fun entry => endsWith "_env" (fst entry))
                       (metadata context)).

(** [environments.has(name)] *)
Definition has (name : string) (envs : list json) : bool :=
  existsb (fun v => is_string name (Some v)) envs.

Definition detectEnvironment (context : APIContext) : APIContext :=
  let envs := environments context in
  {| environment :=
       if has "production" envs then "production"
       else if has "staging" envs then "staging"
       else if has "development" envs then "development"
       else if existsb (fun r => startsWith "file://" (uri r))
                       (roots context)
       then "local"
       else "unknown";
     roots := roots context;
     metadata := metadata context;
     operationHistory := operationHistory context |}.

(** The context object as [analyzeWithContext] sees it: the two
    properties it reads. *)
Definition context_value (context : APIContext) : json :=
  JObj [("environment", JStr (environment context));
        ("roots",
         JArr (map (fun r => JObj [("uri", JStr (uri r));
                                   ("name", JStr (name r))])
                   (roots context)))].

(** A staging root recorded before a production root. *)
Definition two_environments : APIContext :=
  {| environment := "unknown";
     roots := [{| uri := "https://api-staging.example.com";
                  name := "staging" |};
               {| uri := "https://api.example.com"; name := "live" |}];
     metadata := [("https://api-staging.example.com_env", JStr "staging");
                  ("specPath", JStr "/srv/openapi.yaml");
                  ("https://api.example.com_env", JStr "production")];
     operationHistory := [] |}.

End ContextManager.

(** * Properties *)

(** ** The monad and the loops *)

Lemma bind_Ok {A B : Type} (m : result A) (k : A -> result B) (b : B) :
  bind m k = Ok b -> exists a, m = Ok a /\ k a = Ok b.
Proof.
  destruct m as [a|e]; simpl; intros H; [eauto | discriminate].
Qed.

(** Splits a hypothesis [bind m k = Ok _] and the conditionals around
    results. *)
Ltac inv_bind :=
  repeat match goal with
         | H : bind ?m _ = Ok _ |- _ =>
             let a := fresh "x" in
             let E := fresh "E" in
             apply bind_Ok in H; destruct H as (a & E & H)
         | H : Ok _ = Ok _ |- _ => injection H as H; try subst
         | H : Fail _ = Ok _ |- _ => discriminate H
         | H : (if ?c then _ else _) = Ok _ |- _ =>
             let E := fresh "C" in destruct c eqn:E
         | H : (let '(_, _) := ?p in _) = Ok _ |- _ => destruct p
         end.

(** A property that every iteration keeps holds after the loop. *)
Lemma foldM_invariant {S X : Type} (P : S -> Prop) (body : S -> X -> result S)
  (xs : list X) :
  (forall s x s', In x xs -> P s -> body s x = Ok s' -> P s') ->
  forall st st', foldM body xs st = Ok st' -> P st -> P st'.
Proof.
  induction xs as [|x rest IH]; intros Hbody st st' Hrun Hst; simpl in Hrun.
  - injection Hrun as <-. exact Hst.
  - apply bind_Ok in Hrun. destruct Hrun as (s1 & Hx & Hrest).
    apply (IH (fun s y s' Hy => Hbody s y s' (or_intror Hy)) s1 st' Hrest).
    apply (Hbody st x s1); [left; reflexivity | exact Hst | exact Hx].
Qed.

(** A field no iteration writes is unchanged by the loop. *)
Lemma foldM_frame {S X T : Type} (f : S -> T) (body : S -> X -> result S)
  (xs : list X) :
  (forall s x s', body s x = Ok s' -> f s' = f s) ->
  forall st st', foldM body xs st = Ok st' -> f st' = f st.
Proof.
  intros Hbody st st' Hrun.
  apply (foldM_invariant (fun s => f s = f st) body xs) with (st := st);
    [| exact Hrun | reflexivity].
  intros s x s' _ Hs Hx. rewrite (Hbody s x s' Hx). exact Hs.
Qed.

(** ** Complexity *)

Lemma get_not_null (j : json) (k : string) :
  j <> JNull -> get (Some j) k = Ok (prop j k).
Proof. destruct j; simpl; congruence. Qed.

Lemma get_truthy (v : value) (k : string) :
  truthy v = true -> exists w, get v k = Ok w.
Proof.
  destruct v as [j|]; [|discriminate].
  destruct j; simpl; try discriminate; eauto.
Qed.

(** C9. An operation with more than three response entries scores exactly
    one more than an operation with the same parameters and request body
    and at most three response entries, and every score is an integer that
    is at least 1; operations are objects whose [parameters], when present,
    is an array, as [Operation] declares. *)
Theorem complexity_response_bonus (operation : json) :
  operation <> JNull ->
  parameters_typed operation ->
  (exists c, calculateComplexity operation = Ok (Num c) /\ 1 <= c)
  /\ (forall operation',
        operation' <> JNull ->
        prop operation' "parameters" = prop operation "parameters" ->
        prop operation' "requestBody" = prop operation "requestBody" ->
        (3 < responseCount operation)%nat ->
        (responseCount operation' <= 3)%nat ->
        exists c,
          calculateComplexity operation' = Ok (Num c)
          /\ calculateComplexity operation = Ok (Num (c + 1))).
Proof.
  intros Hnn Htyped.
  assert (Hshape : exists b, 1 <= b /\
             forall op,
               op <> JNull ->
               prop op "parameters" = prop operation "parameters" ->
               prop op "requestBody" = prop operation "requestBody" ->
               calculateComplexity op =
                 Ok (Num (if (3 <? responseCount op)%nat then b + 1 else b))).
  { assert (Hcount : exists n,
               ToNumber (prop (or_else (prop operation "parameters") (JArr []))
                              "length") = Ok (Num n) /\ 0 <= n).
    { destruct Htyped as [-> | [params ->]]; simpl.
      - exists 0. split; [reflexivity | lia].
      - exists (Z.of_nat (List.length params)). split; [reflexivity | lia]. }
    destruct Hcount as (n & Hcount & Hn).
    assert (Hdiv : 0 <= n / 3) by (apply Z.div_pos; lia).
    destruct (truthy (prop operation "requestBody")) eqn:Hbody.
    - destruct (get_truthy _ "content" Hbody) as (content & Hcontent).
      destruct (truthy (get_opt (get_opt (get_opt content "application/json")
                                         "schema") "properties")
                && (5 <? keys_length
                           (or_else (get_opt (get_opt (get_opt content
                                        "application/json") "schema")
                                        "properties") (JObj [])))%nat)
        eqn:Hbig.
      + exists (1 + n / 3 + 1 + 1). split; [lia|].
        intros op Hop Hp Hb. unfold calculateComplexity, responseCount.
        rewrite !(get_not_null op) by exact Hop. rewrite Hp, Hb. simpl bind.
        rewrite Hcount. simpl bind. rewrite Hbody.
        unfold getRequestBodySchema. rewrite Hcontent. simpl bind.
        rewrite Hbig. simpl bind.
        destruct (3 <? _)%nat; reflexivity.
      + exists (1 + n / 3 + 1). split; [lia|].
        intros op Hop Hp Hb. unfold calculateComplexity, responseCount.
        rewrite !(get_not_null op) by exact Hop. rewrite Hp, Hb. simpl bind.
        rewrite Hcount. simpl bind. rewrite Hbody.
        unfold getRequestBodySchema. rewrite Hcontent. simpl bind.
        rewrite Hbig. simpl bind.
        destruct (3 <? _)%nat; reflexivity.
    - exists (1 + n / 3). split; [lia|].
      intros op Hop Hp Hb. unfold calculateComplexity, responseCount.
      rewrite !(get_not_null op) by exact Hop. rewrite Hp, Hb. simpl bind.
      rewrite Hcount. simpl bind. rewrite Hbody. simpl bind.
      destruct (3 <? _)%nat; reflexivity. }
  destruct Hshape as (b & Hb1 & Hshape).
  split.
  - rewrite (Hshape operation Hnn eq_refl eq_refl).
    destruct (3 <? responseCount operation)%nat; eexists; split;
      try reflexivity; lia.
  - intros op' Hnn' Hp Hb Hmore Hfew.
    rewrite (Hshape operation Hnn eq_refl eq_refl), (Hshape op' Hnn' Hp Hb).
    exists b.
    apply Nat.ltb_lt in Hmore. rewrite Hmore.
    assert (Hfew' : (3 <? responseCount op')%nat = false)
      by (apply Nat.ltb_ge; exact Hfew).
    rewrite Hfew'. split; reflexivity.
Qed.

Lemma complexity_response_bonus_witness :
  (exists c, calculateComplexity op_four_responses = Ok (Num c) /\ 1 <= c)
  /\ exists c,
       calculateComplexity op_one_response = Ok (Num c)
       /\ calculateComplexity op_four_responses = Ok (Num (c + 1)).
Proof.
  destruct (complexity_response_bonus op_four_responses
              ltac:(discriminate) (or_intror (ex_intro _ _ eq_refl)))
    as [Hscore Hbonus].
  split; [exact Hscore|].
  apply (Hbonus op_one_response);
    [discriminate | reflexivity | reflexivity | vm_compute; lia
    | vm_compute; lia].
Defined.

(** ** What each phase leaves alone *)

Lemma analyze_stages (spec : json) (m : SpecAnalysis) :
  analyze spec = Ok m ->
  exists a1 a2 a3 a4 a5 a6,
    analyzePaths spec initial_analysis = Ok a1
    /\ analyzeSchemas spec a1 = Ok a2
    /\ detectWorkflows a2 = Ok a3
    /\ analyzeRelationships a3 = Ok a4
    /\ detectErrorPatterns a4 = Ok a5
    /\ analyzeCapabilities spec a5 = Ok a6
    /\ m = determineMCPFeatures a6.
Proof.
  unfold analyze. intros H. inv_bind.
  repeat eexists; eassumption.
Qed.

Lemma analyzePaths_frame (spec : json) (a a' : SpecAnalysis) :
  analyzePaths spec a = Ok a' -> besides_paths a' = besides_paths a.
Proof.
  unfold analyzePaths. intros H. inv_bind.
  apply (foldM_frame besides_paths) in H; [exact H|].
  intros s [p pathItem] s' Hitem. unfold scanPathItem in Hitem. inv_bind.
  apply (foldM_frame besides_paths) in Hitem; [exact Hitem|].
  intros t [meth op] t' Hop. unfold scanOperation in Hop. inv_bind; reflexivity.
Qed.

Lemma analyzeSchemas_frame (spec : json) (a a' : SpecAnalysis) :
  analyzeSchemas spec a = Ok a' -> besides_schemas a' = besides_schemas a.
Proof.
  unfold analyzeSchemas. intros H. inv_bind.
  apply (foldM_frame besides_schemas) in H; [exact H|].
  intros s [name schema] s' Hs. unfold scanSchema in Hs. inv_bind. reflexivity.
Qed.

Lemma detectWorkflows_frame (a a' : SpecAnalysis) :
  detectWorkflows a = Ok a' -> besides_workflows a' = besides_workflows a.
Proof.
  unfold detectWorkflows. intros H. inv_bind;
    repeat match goal with
           | |- context [if ?c then _ else _] => destruct c
           end; reflexivity.
Qed.

Lemma analyzeRelationships_frame (a a' : SpecAnalysis) :
  analyzeRelationships a = Ok a' ->
  besides_relationships a' = besides_relationships a.
Proof.
  unfold analyzeRelationships. generalize (resources a) as rs. intros rs H.
  apply (foldM_frame besides_relationships) in H; [exact H|].
  intros s r s' Hr. unfold relateResource in Hr.
  apply (foldM_frame besides_relationships) in Hr; [exact Hr|].
  intros t related t' Ht. unfold relate in Ht. inv_bind. reflexivity.
Qed.

Lemma detectErrorPatterns_frame (a a' : SpecAnalysis) :
  detectErrorPatterns a = Ok a' -> besides_errors a' = besides_errors a.
Proof.
  unfold detectErrorPatterns. generalize (endpoints a) as es. intros es H.
  apply (foldM_frame besides_errors) in H; [exact H|].
  intros s e s' He. unfold scanEndpointErrors in He. inv_bind.
  apply (foldM_frame besides_errors) in He; [exact He|].
  intros t [code response] t' Ht. unfold scanResponse in Ht.
  inv_bind; reflexivity.
Qed.

Lemma analyzeCapabilities_frame (spec : json) (a a' : SpecAnalysis) :
  analyzeCapabilities spec a = Ok a' -> besides_flags a' = besides_flags a.
Proof.
  unfold analyzeCapabilities. intros H. inv_bind. reflexivity.
Qed.

Lemma determineMCPFeatures_frame (a : SpecAnalysis) :
  besides_flags (determineMCPFeatures a) = besides_flags a.
Proof.
  unfold determineMCPFeatures.
  repeat match goal with
         | |- context [if ?c then _ else _] => destruct c
         end; reflexivity.
Qed.

(** Brings the stages of a successful [analyze] and what each leaves
    alone into the context. *)
Ltac split_frame F :=
  unfold besides_paths, besides_schemas, besides_workflows,
    besides_relationships, besides_errors, besides_flags in F;
  injection F; clear F; intros.

Ltac analyze_facts H :=
  let F := fresh "F" in
  apply analyze_stages in H;
  destruct H as (?a1 & ?a2 & ?a3 & ?a4 & ?a5 & ?a6 &
                 ?Hpaths & ?Hschemas & ?Hflows & ?Hrels & ?Herrs & ?Hcaps & ?Hm);
  match goal with
  | H1 : analyzePaths _ _ = Ok _, H2 : analyzeSchemas _ _ = Ok _,
    H3 : detectWorkflows _ = Ok _, H4 : analyzeRelationships _ = Ok _,
    H5 : detectErrorPatterns _ = Ok _, H6 : analyzeCapabilities _ _ = Ok ?a,
    H7 : _ = determineMCPFeatures ?a |- _ =>
      pose proof (analyzePaths_frame _ _ _ H1) as F; split_frame F;
      pose proof (analyzeSchemas_frame _ _ _ H2) as F; split_frame F;
      pose proof (detectWorkflows_frame _ _ H3) as F; split_frame F;
      pose proof (analyzeRelationships_frame _ _ H4) as F; split_frame F;
      pose proof (detectErrorPatterns_frame _ _ H5) as F; split_frame F;
      pose proof (analyzeCapabilities_frame _ _ _ H6) as F; split_frame F;
      pose proof (determineMCPFeatures_frame a) as F; rewrite <- H7 in F;
      split_frame F
  end;
  simpl in *.

(** ** Endpoints *)

Lemma analyzePaths_scanned (spec : json) (a a' : SpecAnalysis) :
  analyzePaths spec a = Ok a' ->
  Forall (scanned_from spec) (endpoints a) ->
  Forall (scanned_from spec) (endpoints a').
Proof.
  unfold analyzePaths. intros H Ha. inv_bind.
  revert H Ha.
  apply (foldM_invariant (fun t => Forall (scanned_from spec) (endpoints t))).
  intros s [p pathItem] s' Hin Hs Hitem. unfold scanPathItem in Hitem.
  inv_bind.
  match goal with
  | Hent : Object_entries pathItem = Ok ?ops |- _ =>
      assert (Hentries : ops = entries pathItem)
        by (destruct pathItem; simpl in Hent; try discriminate Hent;
            injection Hent as <-; reflexivity);
      subst ops
  end.
  revert Hitem Hs.
  apply (foldM_invariant (fun t => Forall (scanned_from spec) (endpoints t))).
  intros t [key op] t' Hkey Ht Hop. unfold scanOperation in Hop.
  assert (Hnew : isOperation op = true ->
                 forall act res c,
                   scanned_from spec
                     {| path := p; method := toUpperCase key; operation := op;
                        isAction := act; isResource := res; complexity := c |}).
  { intros Hisop act res c. exists x, pathItem, key. simpl. auto. }
  inv_bind; simpl; try exact Ht;
    (apply Forall_app; split; [exact Ht | constructor; [auto | constructor]]).
Qed.

(** C3, as the code has it. Every endpoint of the model comes from an entry
    of a path item whose value is an object with a summary, a description
    or a responses key, and its method is that entry's key in upper case;
    an entry whose value is not such an object yields no endpoint. The key
    is not compared with the verb set. *)
Theorem endpoints_from_operation_entries (spec : json) (m : SpecAnalysis)
  (e : AnalyzedEndpoint) :
  analyze spec = Ok m ->
  In e (endpoints m) ->
  scanned_from spec e.
Proof.
  intros H He. analyze_facts H.
  assert (Hall : Forall (scanned_from spec) (endpoints a1)).
  { apply (analyzePaths_scanned spec initial_analysis a1 Hpaths). constructor. }
  rewrite List.Forall_forall in Hall. apply Hall.
  replace (endpoints a1) with (endpoints m) by congruence. exact He.
Qed.

Lemma endpoints_from_operation_entries_witness :
  exists e, scanned_from options_doc e /\ method e = "OPTIONS".
Proof.
  eexists. split.
  - eapply (endpoints_from_operation_entries options_doc);
      [vm_compute; reflexivity | left; reflexivity].
  - reflexivity.
Defined.

(** C3 as stated fails: an [options] operation becomes an endpoint whose
    method is outside the verb set. *)
Lemma unrecognized_method_emitted :
  exists m e,
    analyze options_doc = Ok m
    /\ In e (endpoints m)
    /\ ~ In (method e) recognized_methods.
Proof.
  eexists. eexists. split; [vm_compute; reflexivity|].
  split; [left; reflexivity|].
  simpl. intros [H|[H|[H|[H|[H|[]]]]]]; discriminate H.
Qed.

(** ** Resources *)

Lemma In_unique (x : string) (l : list string) : In x (unique l) -> In x l.
Proof.
  induction l as [|y rest IH]; simpl; [tauto|].
  intros [H|H]; [left; exact H | right].
  apply filter_In in H. tauto.
Qed.

Lemma extractRefName_Some (ref : value) (name : string) :
  extractRefName ref = Ok (Some name) ->
  exists s, ref = Some (JStr s) /\ match_schema_ref s = Some name.
Proof.
  destruct ref as [[| | |s| |]|]; simpl; try discriminate.
  intros H. injection H as H. eauto.
Qed.

Lemma In_push_ref (name : string) (refName : option string)
  (relationships : list string) (t : string) :
  In t (push_ref name refName relationships) ->
  In t relationships \/ (refName = Some t /\ t <> name).
Proof.
  unfold push_ref. destruct refName as [r|]; [|tauto].
  destruct (negb (String.eqb r "") && negb (String.eqb r name)) eqn:Hkeep;
    [|tauto].
  intros H. apply in_app_or in H. destruct H as [H|[H|[]]]; [tauto|].
  subst r. right. split; [reflexivity|].
  apply andb_prop in Hkeep. destruct Hkeep as [_ Hne].
  apply negb_true_iff in Hne. apply String.eqb_neq in Hne. exact Hne.
Qed.

Lemma findSchemaRelationships_sound (name : string) (schema : json)
  (related : list string) :
  findSchemaRelationships name schema = Ok related ->
  forall t, In t related -> t <> name /\ referenced_by schema t.
Proof.
  unfold findSchemaRelationships. intros H t Ht. inv_bind.
  - apply In_unique in Ht.
    assert (Hschema : exists properties,
               prop schema "properties" = Some properties
               /\ or_else x (JObj []) = properties).
    { assert (Hx : prop schema "properties" = x)
        by (destruct schema; unfold get in E; try discriminate E;
            injection E as <-; reflexivity).
      destruct x as [j|]; [|discriminate C].
      exists j. split; [exact Hx|]. unfold or_else. rewrite C. reflexivity. }
    destruct Hschema as (properties & Hprops & Hor). rewrite Hor in E0.
    revert t Ht. apply List.Forall_forall.
    refine (foldM_invariant
              (fun l => Forall (fun t => t <> name /\ referenced_by schema t) l)
              (scanProperty name) (entries properties) _ [] x0 E0 _);
      [|constructor].
    intros acc [propName propSchema] acc' Hin Hacc Hstep.
    rewrite List.Forall_forall in Hacc. apply List.Forall_forall.
    assert (Hpush : forall ref l,
               (prop propSchema "$ref" = Some (JStr ref)
                \/ (is_string "array" (prop propSchema "type") = true
                    /\ get_opt (prop propSchema "items") "$ref"
                       = Some (JStr ref))) ->
               (forall t, In t l -> t <> name /\ referenced_by schema t) ->
               forall t, In t (push_ref name (match_schema_ref ref) l) ->
                         t <> name /\ referenced_by schema t).
    { intros ref l Href Hl u Hu.
      apply In_push_ref in Hu. destruct Hu as [Hu|[Hm Hne]]; [auto|].
      split; [exact Hne|].
      exists properties, propName, propSchema, ref. auto. }
    unfold scanProperty in Hstep.
    assert (Hnn : propSchema <> JNull).
    { intros ->. simpl in Hstep. discriminate Hstep. }
    rewrite !(get_not_null propSchema) in Hstep by exact Hnn.
    simpl bind in Hstep.
    apply bind_Ok in Hstep. destruct Hstep as (l1 & Hl1 & Hstep).
    assert (Hfirst : forall t, In t l1 -> t <> name /\ referenced_by schema t).
    { destruct (truthy (prop propSchema "$ref")).
      - apply bind_Ok in Hl1. destruct Hl1 as (refName & Hext & Hl1).
        injection Hl1 as <-.
        destruct (prop propSchema "$ref") as [[| | |s| |]|] eqn:Hr;
          simpl in Hext; try discriminate Hext.
        injection Hext as <-. apply (Hpush s); auto.
      - injection Hl1 as <-. exact Hacc. }
    destruct (is_string "array" (prop propSchema "type")) eqn:Harr;
      [|injection Hstep as <-; exact Hfirst].
    destruct (truthy (get_opt (prop propSchema "items") "$ref")) eqn:Hit;
      [|injection Hstep as <-; exact Hfirst].
    apply bind_Ok in Hstep. destruct Hstep as (refName & Hext & Hstep).
    injection Hstep as <-.
    destruct (get_opt (prop propSchema "items") "$ref")
      as [[| | |s| |]|] eqn:Hr; simpl in Hext; try discriminate Hext.
    injection Hext as <-. apply (Hpush s); auto.
  - simpl in Ht. destruct Ht.
Qed.

Lemma schemas_of_entries (spec schemas : json) :
  schemas_of spec = Ok schemas -> entries schemas = named_schemas spec.
Proof.
  unfold schemas_of, named_schemas. intros H. inv_bind.
  destruct spec; unfold get in E; try discriminate E; injection E as <-;
    reflexivity.
Qed.

Lemma analyzeSchemas_resources (spec : json) (a a' : SpecAnalysis) :
  analyzeSchemas spec a = Ok a' ->
  Forall (resource_of spec) (resources a) ->
  Forall (resource_of spec) (resources a').
Proof.
  unfold analyzeSchemas. intros H. apply bind_Ok in H.
  destruct H as (schemas & Hschemas & H).
  rewrite (schemas_of_entries _ _ Hschemas) in H. revert H.
  apply (foldM_invariant (fun s => Forall (resource_of spec) (resources s))).
  intros s [name schema] s' Hin Hs Hstep. unfold scanSchema in Hstep.
  inv_bind. simpl. apply Forall_app. split; [exact Hs|].
  constructor; [|constructor]. split; simpl; assumption.
Qed.

Lemma scanSchema_keeps_flag (xs : list (string * json)) (a a' : SpecAnalysis) :
  foldM scanSchema xs a = Ok a' ->
  hasResources a = true -> hasResources a' = true.
Proof.
  apply (foldM_invariant (fun s => hasResources s = true)).
  intros s [name schema] s' _ _ Hstep. unfold scanSchema in Hstep.
  inv_bind. reflexivity.
Qed.

Lemma analyzeSchemas_hasResources (spec : json) (a a' : SpecAnalysis) :
  analyzeSchemas spec a = Ok a' ->
  hasResources a = false ->
  (hasResources a' = true <-> named_schemas spec <> []).
Proof.
  unfold analyzeSchemas. intros H Ha. apply bind_Ok in H.
  destruct H as (schemas & Hschemas & H).
  rewrite (schemas_of_entries _ _ Hschemas) in H.
  destruct (named_schemas spec) as [|[name schema] rest]; simpl in H.
  - injection H as <-. rewrite Ha. split; [discriminate | congruence].
  - split; [discriminate|]. intros _.
    apply bind_Ok in H. destruct H as (s1 & Hfirst & Hrest).
    apply (scanSchema_keeps_flag _ _ _ Hrest).
    unfold scanSchema in Hfirst. inv_bind. reflexivity.
Qed.

(** ** Relationships *)

Lemma analyzeRelationships_sound (a a' : SpecAnalysis)
  (r : ResourceRelationship) :
  analyzeRelationships a = Ok a' ->
  In r (relationships a') ->
  In r (relationships a)
  \/ exists res,
       In res (resources a)
       /\ rel_from r = res_name res
       /\ In (rel_to r) (res_relationships res).
Proof.
  unfold analyzeRelationships. intros H. revert r.
  pose (P := fun s : SpecAnalysis =>
               forall r, In r (relationships s) ->
                 In r (relationships a)
                 \/ exists res,
                      In res (resources a)
                      /\ rel_from r = res_name res
                      /\ In (rel_to r) (res_relationships res)).
  apply (foldM_invariant P relateResource (resources a)) with (st := a);
    [| exact H | intros r Hr; left; exact Hr].
  intros s res s' Hres Hs Hstep. unfold relateResource in Hstep.
  revert Hstep Hs.
  apply (foldM_invariant P (relate res) (res_relationships res)).
  intros t related t' Hrelated Ht Hone. unfold relate in Hone. inv_bind.
  intros r Hr. simpl in Hr. apply in_app_or in Hr.
  destruct Hr as [Hr|[<-|[]]]; [apply Ht; exact Hr|].
  right. exists res. simpl. auto.
Qed.

Lemma analyze_resources (spec : json) (m : SpecAnalysis) :
  analyze spec = Ok m -> Forall (resource_of spec) (resources m).
Proof.
  intros H. analyze_facts H.
  replace (resources m) with (resources a2) by congruence.
  apply (analyzeSchemas_resources spec a1 a2 Hschemas).
  replace (resources a1) with (@nil AnalyzedResource) by congruence.
  constructor.
Qed.

Lemma analyze_relationships (spec : json) (m : SpecAnalysis)
  (r : ResourceRelationship) :
  analyze spec = Ok m ->
  In r (relationships m) ->
  exists res,
    resource_of spec res
    /\ rel_from r = res_name res
    /\ In (rel_to r) (res_relationships res).
Proof.
  intros H Hr. pose proof (analyze_resources spec m H) as Hres.
  analyze_facts H.
  replace (relationships m) with (relationships a4) in Hr by congruence.
  destruct (analyzeRelationships_sound a3 a4 r Hrels Hr)
    as [Hold | (res & Hin & Hfrom & Hto)].
  - replace (relationships a3) with (@nil ResourceRelationship) in Hold
      by congruence.
    destruct Hold.
  - exists res. split; [|auto].
    rewrite List.Forall_forall in Hres. apply Hres. congruence.
Qed.

(** C8. No relationship of the model links a schema to itself, and no
    resource lists its own name among its relationships. *)
Theorem no_self_relationship (spec : json) (m : SpecAnalysis) :
  analyze spec = Ok m ->
  (forall r, In r (relationships m) -> rel_from r <> rel_to r)
  /\ (forall res, In res (resources m) ->
        ~ In (res_name res) (res_relationships res)).
Proof.
  intros H. split.
  - intros r Hr.
    destruct (analyze_relationships spec m r H Hr)
      as (res & [_ Hfind] & Hfrom & Hto).
    destruct (findSchemaRelationships_sound _ _ _ Hfind _ Hto) as [Hne _].
    congruence.
  - intros res Hres Hself.
    pose proof (analyze_resources spec m H) as Hall.
    rewrite List.Forall_forall in Hall.
    destruct (Hall res Hres) as [_ Hfind].
    destruct (findSchemaRelationships_sound _ _ _ Hfind _ Hself) as [Hne _].
    congruence.
Qed.

Lemma no_self_relationship_witness :
  exists m,
    analyze linked_doc = Ok m
    /\ List.length (relationships m) = 2%nat
    /\ (forall r, In r (relationships m) -> rel_from r <> rel_to r)
    /\ (forall res, In res (resources m) ->
          ~ In (res_name res) (res_relationships res)).
Proof.
  eexists. split; [vm_compute; reflexivity|].
  split; [reflexivity|].
  apply (no_self_relationship linked_doc). vm_compute. reflexivity.
Defined.

(** C5, as the code has it. Every relationship of the model starts at a
    named schema of the document, and its target is the name read off a
    reference pointer, direct or through array items, of one of that
    schema's direct properties; a pointer that does not match
    [#/components/schemas/<name>] yields no relationship. The target is
    not looked up in the schema set. *)
Theorem relationships_from_references (spec : json) (m : SpecAnalysis)
  (r : ResourceRelationship) :
  analyze spec = Ok m ->
  In r (relationships m) ->
  exists schema,
    In (rel_from r, schema) (named_schemas spec)
    /\ referenced_by schema (rel_to r).
Proof.
  intros H Hr.
  destruct (analyze_relationships spec m r H Hr)
    as (res & [Hnamed Hfind] & Hfrom & Hto).
  exists (res_schema res). split; [rewrite Hfrom; exact Hnamed|].
  apply (findSchemaRelationships_sound _ _ _ Hfind _ Hto).
Qed.

Lemma relationships_from_references_witness :
  exists schema,
    In ("Order", schema) (named_schemas dangling_doc)
    /\ referenced_by schema "Customer".
Proof.
  eapply (relationships_from_references dangling_doc _
            {| rel_from := "Order"; rel_to := "Customer"; rel_type := has_one |});
    [vm_compute; reflexivity | left; reflexivity].
Defined.

(** C5 as stated fails: the target of a relationship need not be a schema
    of the document. *)
Lemma dangling_target_kept :
  exists m r,
    analyze dangling_doc = Ok m
    /\ In r (relationships m)
    /\ ~ In (rel_to r) (map fst (named_schemas dangling_doc)).
Proof.
  eexists. eexists. split; [vm_compute; reflexivity|].
  split; [left; reflexivity|].
  simpl. intros [H|[]]. discriminate H.
Qed.

(** C10. The model's [hasResources] flag is true exactly when the
    document's schema section has at least one named schema. *)
Theorem hasResources_iff_schemas (spec : json) (m : SpecAnalysis) :
  analyze spec = Ok m ->
  (hasResources m = true <-> named_schemas spec <> []).
Proof.
  intros H. analyze_facts H.
  replace (hasResources m) with (hasResources a2) by congruence.
  apply (analyzeSchemas_hasResources spec a1 a2 Hschemas). congruence.
Qed.

Lemma hasResources_iff_schemas_witness :
  exists m,
    analyze dangling_doc = Ok m
    /\ (hasResources m = true <-> named_schemas dangling_doc <> []).
Proof.
  eexists. split; [vm_compute; reflexivity|].
  apply (hasResources_iff_schemas dangling_doc). vm_compute. reflexivity.
Defined.

(** ** Exceptions *)

(** C1, at a document the code rejects. A parameter given as a reference
    object has no name, and [p.name.toLowerCase()] throws on it: [analyze]
    ends in a TypeError instead of returning a model. *)
Theorem reference_parameter_throws :
  analyze reference_parameter_doc = Fail TypeError.
Proof. vm_compute. reflexivity. Qed.

(** C4, at a document with one [page] parameter. The one workflow emitted
    is named [pagination] and has the four steps, but its type is
    [navigation], which is not a declared workflow type. *)
Theorem pagination_workflow_type :
  exists m w,
    analyze paginated_doc = Ok m
    /\ workflows m = [w]
    /\ wf_name w = "pagination"
    /\ map action (steps w)
       = ["initial_request"; "check_more"; "fetch_next"; "aggregate"]
    /\ wf_type w = "navigation"
    /\ ~ In (wf_type w) declared_workflow_types.
Proof.
  eexists. eexists. split; [vm_compute; reflexivity|].
  repeat (split; [reflexivity|]).
  simpl. intros [H|[H|[H|[H|[H|[H|[]]]]]]]; discriminate H.
Qed.

(** The unguarded read: a parameter without a string name makes the
    pagination test throw, while an absent summary does not. *)
Lemma isPaginationParameter_unnamed (p : json) :
  (forall s, prop p "name" <> Some (JStr s)) ->
  isPaginationParameter p = Fail TypeError.
Proof.
  intros Hname. unfold isPaginationParameter.
  destruct p; simpl; try reflexivity;
    match goal with
    | |- context [match ?v with _ => _ end] =>
        destruct v as [[| | |s| |]|] eqn:Hv; try reflexivity
    end;
    exfalso; apply (Hname s); simpl; exact Hv.
Qed.

Lemma summary_lower_absent (operation : json) :
  operation <> JNull -> prop operation "summary" = None ->
  summary_lower operation = Ok None.
Proof.
  intros Hnn Hs. unfold summary_lower.
  rewrite (get_not_null operation "summary" Hnn), Hs. reflexivity.
Qed.

(** ** Workflows *)

Lemma crud_name_not_pagination (resource : string) :
  String.eqb (String.append resource "_crud") "pagination" = false.
Proof.
  apply String.eqb_neq. intros H.
  repeat (destruct resource as [|? resource];
          [discriminate H | simpl in H; injection H as _ H]).
  destruct resource; simpl in H; discriminate H.
Qed.

Lemma detectCRUDPatterns_not_pagination (es : list AnalyzedEndpoint) :
  List.filter (fun w => String.eqb (wf_name w) "pagination")
              (detectCRUDPatterns es) = [].
Proof.
  unfold detectCRUDPatterns.
  induction (groupByResource es) as [|[resource group] rest IH];
    [reflexivity|].
  simpl. rewrite List.filter_app, IH, app_nil_r.
  destruct (string_in "GET" (map method group)
            && string_in "POST" (map method group)
            && string_in "PUT" (map method group)
            && string_in "DELETE" (map method group)); [|reflexivity].
  simpl. rewrite crud_name_not_pagination. reflexivity.
Qed.

Lemma detectWorkflows_emits (a a' : SpecAnalysis) :
  detectWorkflows a = Ok a' ->
  exists paginated uploads,
    hasPaginationPattern (endpoints a) = Ok paginated
    /\ workflows a'
       = workflows a ++ emitted_workflows (endpoints a) paginated uploads.
Proof.
  unfold detectWorkflows, emitted_workflows, push_workflow. intros H.
  destruct a as [tools res prompts samp ctx errs es rs ws rels eps caps].
  cbn [endpoints workflows set_workflows] in *.
  destruct (hasAuthenticationFlow es);
    cbn [endpoints workflows set_workflows] in H;
    (apply bind_Ok in H; destruct H as (paginated & Hpag & H);
     exists paginated;
     destruct paginated;
     cbn [endpoints workflows set_workflows] in H;
     apply bind_Ok in H; destruct H as (uploads & Hup & H);
     exists uploads; (split; [exact Hpag|]);
     destruct uploads;
     cbn [endpoints workflows set_workflows] in H;
     match type of H with
     | (if ?c then _ else _) = _ => destruct c
     end;
     injection H as <-; cbn [workflows set_workflows set_hasPrompts];
     rewrite <- ?app_assoc; simpl; rewrite ?app_nil_r; reflexivity).
Qed.

(** In every model the workflows named [pagination] are exactly one when
    the pagination test succeeds and none otherwise, and that one has type
    [navigation]. *)
Lemma pagination_workflow_shape (spec : json) (m : SpecAnalysis) :
  analyze spec = Ok m ->
  exists paginated,
    hasPaginationPattern (endpoints m) = Ok paginated
    /\ pagination_workflows m
       = if paginated
         then [{| wf_name := "pagination"; wf_type := "navigation";
                  steps := buildPaginationWorkflow (endpoints m) |}]
         else [].
Proof.
  intros H. analyze_facts H.
  destruct (detectWorkflows_emits a2 a3 Hflows) as (paginated & uploads & Hpag & Hw).
  exists paginated.
  replace (endpoints m) with (endpoints a2) by congruence.
  split; [exact Hpag|].
  unfold pagination_workflows.
  replace (workflows m) with (workflows a3) by congruence.
  rewrite Hw.
  replace (workflows a2) with (@nil WorkflowPattern) by congruence.
  unfold emitted_workflows. simpl.
  rewrite !List.filter_app, detectCRUDPatterns_not_pagination.
  destruct (hasAuthenticationFlow (endpoints a2)), paginated, uploads;
    reflexivity.
Qed.

Lemma only_Ok {A : Type} (a : A) : only_TypeError (Ok a).
Proof. intros e H. discriminate H. Qed.

Lemma only_Fail {A : Type} : only_TypeError (@Fail A TypeError).
Proof. intros e H. injection H as <-. reflexivity. Qed.

Lemma only_bind {A B : Type} (m : result A) (k : A -> result B) :
  only_TypeError m -> (forall a, m = Ok a -> only_TypeError (k a)) ->
  only_TypeError (bind m k).
Proof.
  intros Hm Hk e. destruct m as [a|e']; simpl.
  - apply (Hk a eq_refl).
  - intros H. injection H as <-. apply Hm. reflexivity.
Qed.

Lemma only_foldM {S X : Type} (body : S -> X -> result S) (xs : list X) :
  (forall s x, only_TypeError (body s x)) ->
  forall st, only_TypeError (foldM body xs st).
Proof.
  intros Hbody. induction xs as [|x rest IH]; intros st; simpl.
  - apply only_Ok.
  - apply only_bind; [apply Hbody | intros s _; apply IH].
Qed.

Lemma only_someM {X : Type} (p : X -> result bool) (xs : list X) :
  (forall x, only_TypeError (p x)) -> only_TypeError (someM p xs).
Proof.
  intros Hp. induction xs as [|x rest IH]; simpl.
  - apply only_Ok.
  - apply only_bind; [apply Hp|]. intros [|] _; [apply only_Ok | exact IH].
Qed.

Lemma only_findM {X : Type} (p : X -> result bool) (xs : list X) :
  (forall x, only_TypeError (p x)) -> only_TypeError (findM p xs).
Proof.
  intros Hp. induction xs as [|x rest IH]; simpl.
  - apply only_Ok.
  - apply only_bind; [apply Hp|]. intros [|] _; [apply only_Ok | exact IH].
Qed.

Lemma only_get (v : value) (k : string) : only_TypeError (get v k).
Proof. destruct v as [[]|]; simpl; try apply only_Ok; apply only_Fail. Qed.

Lemma only_extractRefName (ref : value) : only_TypeError (extractRefName ref).
Proof.
  destruct ref as [[]|]; simpl; try apply only_Ok; apply only_Fail.
Qed.

Lemma only_includes_opt (v : value) (x : string) :
  only_TypeError (includes_opt v x).
Proof. destruct v as [[]|]; simpl; try apply only_Ok; apply only_Fail. Qed.

Lemma only_toLowerCase_opt (v : value) : only_TypeError (toLowerCase_opt v).
Proof. destruct v as [[]|]; simpl; try apply only_Ok; apply only_Fail. Qed.

(** Decomposes a computation built from the operations above. *)
Ltac only_tac :=
  repeat first
    [ apply only_Ok
    | apply only_Fail
    | apply only_get
    | apply only_extractRefName
    | apply only_includes_opt
    | apply only_toLowerCase_opt
    | apply only_bind; [| intros ? _]
    | apply only_foldM; intros
    | apply only_someM; intros
    | apply only_findM; intros
    | match goal with
      | |- only_TypeError (if ?c then _ else _) => destruct c
      | |- only_TypeError (match ?x with Some _ => _ | None => _ end) =>
          destruct x
      | |- only_TypeError (let '(_, _) := ?p in _) => destruct p
      | |- only_TypeError (match ?x with
                           | JNull => _ | JBool _ => _ | JNum _ => _
                           | JStr _ => _ | JArr _ => _ | JObj _ => _
                           end) => destruct x
      end ].

Lemma only_analyzeSchemas (spec : json) (a : SpecAnalysis) :
  only_TypeError (analyzeSchemas spec a).
Proof.
  unfold analyzeSchemas, schemas_of, scanSchema, findSchemaRelationships,
    scanProperty. only_tac.
Qed.

Lemma only_analyzeRelationships (a : SpecAnalysis) :
  only_TypeError (analyzeRelationships a).
Proof.
  unfold analyzeRelationships, relateResource, relate,
    determineRelationshipType. only_tac.
  unfold refersTo. only_tac.
Qed.

(** ** A document without paths *)

Lemma analyzePaths_no_paths (spec : json) (a : SpecAnalysis) :
  spec <> JNull -> prop spec "paths" = None -> analyzePaths spec a = Ok a.
Proof.
  intros Hnn Hp. unfold analyzePaths.
  rewrite (get_not_null spec "paths" Hnn), Hp. reflexivity.
Qed.

Lemma detectWorkflows_no_endpoints (a : SpecAnalysis) :
  endpoints a = [] -> workflows a = [] ->
  exists a', detectWorkflows a = Ok a'
             /\ workflows a' = [] /\ hasPrompts a' = hasPrompts a.
Proof.
  intros He Hw. destruct a. simpl in He, Hw. subst.
  eexists. split; [reflexivity|]. split; reflexivity.
Qed.

Lemma detectErrorPatterns_no_endpoints (a : SpecAnalysis) :
  endpoints a = [] -> detectErrorPatterns a = Ok a.
Proof. intros He. unfold detectErrorPatterns. rewrite He. reflexivity. Qed.

Lemma analyzeCapabilities_no_endpoints (spec : json) (a : SpecAnalysis) :
  spec <> JNull -> endpoints a = [] ->
  exists a', analyzeCapabilities spec a = Ok a'.
Proof.
  intros Hnn He. unfold analyzeCapabilities.
  rewrite He, !(get_not_null spec) by exact Hnn. simpl. eauto.
Qed.

Lemma only_analyze_no_paths (spec : json) :
  prop spec "paths" = None -> only_TypeError (analyze spec).
Proof.
  intros Hp. destruct (json_is_null spec) eqn:Hnull.
  - destruct spec; try discriminate Hnull. apply only_Fail.
  - assert (Hnn : spec <> JNull) by (intros ->; discriminate Hnull).
    unfold analyze. rewrite (analyzePaths_no_paths spec _ Hnn Hp). simpl bind.
    apply only_bind; [apply only_analyzeSchemas | intros a2 Ea2].
    pose proof (analyzeSchemas_frame _ _ _ Ea2) as F. split_frame F.
    simpl in *.
    destruct (detectWorkflows_no_endpoints a2) as (a3 & Ea3 & _); auto.
    rewrite Ea3. simpl bind.
    pose proof (detectWorkflows_frame _ _ Ea3) as F. split_frame F.
    apply only_bind; [apply only_analyzeRelationships | intros a4 Ea4].
    pose proof (analyzeRelationships_frame _ _ Ea4) as F. split_frame F.
    assert (He4 : endpoints a4 = []) by congruence.
    rewrite (detectErrorPatterns_no_endpoints a4 He4). simpl bind.
    destruct (analyzeCapabilities_no_endpoints spec a4 Hnn He4) as (a6 & Ea6).
    rewrite Ea6. apply only_Ok.
Qed.

(** C2, as the code has it. For a document that is not an object, or
    that has no paths section, there is no error of its own: the absent
    paths count as an empty collection, and [analyze] either returns a
    model or throws the generic TypeError. A model it returns has no
    endpoints, workflows or error patterns and has [hasTools] and
    [hasPrompts] false; a document that is a primitive or an array returns
    the empty model; the null document throws the TypeError. *)
Theorem missing_paths_as_empty (spec : json) :
  is_object spec = false \/ prop spec "paths" = None ->
  match analyze spec with
  | Ok m =>
      endpoints m = [] /\ workflows m = [] /\ errorPatterns m = []
      /\ hasTools m = false /\ hasPrompts m = false
  | Fail e => e = TypeError
  end
  /\ (is_object spec = false -> spec <> JNull ->
      analyze spec = Ok initial_analysis)
  /\ (spec = JNull -> analyze spec = Fail TypeError).
Proof.
  intros Hdoc.
  assert (Hp : prop spec "paths" = None).
  { destruct Hdoc as [Hobj|Hp]; [|exact Hp].
    destruct spec; try discriminate Hobj; reflexivity. }
  split; [|split].
  - destruct (analyze spec) as [m|e] eqn:Ha;
      [|apply (only_analyze_no_paths spec Hp e Ha)].
    assert (Hnn : spec <> JNull) by (intros ->; discriminate Ha).
    analyze_facts Ha.
    rewrite (analyzePaths_no_paths spec _ Hnn Hp) in Hpaths.
    injection Hpaths as <-. simpl in *.
    assert (He2 : endpoints a2 = []) by congruence.
    assert (Hw2 : workflows a2 = []) by congruence.
    destruct (detectWorkflows_no_endpoints a2 He2 Hw2) as (a3' & Ea3 & Hw3 & Hp3).
    rewrite Ea3 in Hflows. injection Hflows as <-.
    assert (He4 : endpoints a4 = []) by congruence.
    rewrite (detectErrorPatterns_no_endpoints a4 He4) in Herrs.
    injection Herrs as <-.
    repeat split; congruence.
  - intros Hobj Hnn.
    destruct spec; try discriminate Hobj; try congruence; reflexivity.
  - intros ->. reflexivity.
Qed.

Lemma missing_paths_as_empty_witness :
  match analyze pathless_doc with
  | Ok m =>
      endpoints m = [] /\ workflows m = [] /\ errorPatterns m = []
      /\ hasTools m = false /\ hasPrompts m = false
  | Fail e => e = TypeError
  end
  /\ (is_object pathless_doc = false -> pathless_doc <> JNull ->
      analyze pathless_doc = Ok initial_analysis)
  /\ (pathless_doc = JNull -> analyze pathless_doc = Fail TypeError).
Proof.
  apply (missing_paths_as_empty pathless_doc). right. reflexivity.
Defined.

(** C2 as stated fails: an object without a paths section, and a number,
    are analyzed without an error. *)
Lemma missing_paths_accepted :
  is_object pathless_doc = true
  /\ prop pathless_doc "paths" = None
  /\ analyze pathless_doc = Ok initial_analysis
  /\ is_object (JNum 7) = false
  /\ analyze (JNum 7) = Ok initial_analysis.
Proof. repeat split; vm_compute; reflexivity. Qed.

(** ** Calls and returned objects *)

Lemma analyze_call_frame (spec : json) (h : heap) (a0 : addr)
  (m0 : SpecAnalysis) :
  h !! a0 = Some m0 -> (analyze_call spec h).2 !! a0 = Some m0.
Proof.
  intros H. unfold analyze_call. destruct (analyze spec); simpl; [|exact H].
  apply lookup_app_l_Some. exact H.
Qed.

Lemma write_capabilities_frame (a a0 : addr)
  (f : APICapabilities -> APICapabilities) (h : heap) :
  a0 <> a -> write_capabilities a f h !! a0 = h !! a0.
Proof.
  intros Hne. unfold write_capabilities. apply list_lookup_alter_ne.
  congruence.
Qed.

Lemma write_capabilities_at (a : addr)
  (f : APICapabilities -> APICapabilities) (h : heap) (m : SpecAnalysis) :
  h !! a = Some m ->
  write_capabilities a f h !! a = Some (set_capabilities (f (capabilities m)) m).
Proof.
  intros H. unfold write_capabilities. rewrite list_lookup_alter_eq, H.
  reflexivity.
Qed.

Lemma hasTestRoot_typed (context : json) :
  typed_context context ->
  hasTestRoot context = Ok (existsb named_test (roots_of context)).
Proof.
  intros (props & rs & -> & Hroots & Htyped).
  unfold hasTestRoot, roots_of. simpl. rewrite Hroots. simpl.
  clear Hroots. induction rs as [|r rest IH]; [reflexivity|].
  simpl in Htyped. apply andb_prop in Htyped. destruct Htyped as [Hr Hrest].
  simpl. destruct r as [| | | | |ps]; try discriminate Hr.
  unfold isTestRoot, named_test. simpl. simpl in Hr.
  destruct (assoc "name" ps) as [[| | |s| |]|]; try discriminate Hr.
  simpl. destruct (includes "test" s); [reflexivity | apply IH; exact Hrest].
Qed.

(** C6. A call of [analyzeWithContext] leaves every model returned
    earlier as it was, as a call of [analyze] does. The object it returns
    holds the model [analyze] computes for the same document in every
    field but two: [requiresStrictValidation] is true when the
    environment is "production" and [hasTestMode] is true when the root
    scan finds a name containing "test", and each is as in the base model
    otherwise. For a context as [APIContext] declares it the root scan is
    the search for such a name among the roots, and the call returns
    whenever [analyze] does. *)
Theorem analyzeWithContext_overlay (context spec : json) (h : heap) :
  (forall a0 m0, h !! a0 = Some m0 ->
     (analyze_call spec h).2 !! a0 = Some m0
     /\ (analyzeWithContext context spec h).2 !! a0 = Some m0)
  /\ (forall a h', analyzeWithContext context spec h = (Ok a, h') ->
        exists m m' test,
          analyze spec = Ok m
          /\ hasTestRoot context = Ok test
          /\ h' !! a = Some m'
          /\ same_but_context_flags m m'
          /\ requiresStrictValidation (capabilities m')
             = (if is_production (prop context "environment")
                then Some true
                else requiresStrictValidation (capabilities m))
          /\ hasTestMode (capabilities m')
             = (if test then Some true else hasTestMode (capabilities m)))
  /\ (typed_context context ->
      hasTestRoot context = Ok (existsb named_test (roots_of context))
      /\ forall m, analyze spec = Ok m ->
           exists a h', analyzeWithContext context spec h = (Ok a, h')).
Proof.
  split; [|split].
  - intros a0 m0 H0. split; [apply analyze_call_frame; exact H0|].
    unfold analyzeWithContext, analyze_call.
    destruct (analyze spec) as [m|e]; [|exact H0].
    assert (Hne : a0 <> List.length h).
    { apply lookup_lt_Some in H0. lia. }
    assert (H1 : (h ++ [m]) !! a0 = Some m0)
      by (apply lookup_app_l_Some; exact H0).
    destruct (get (Some context) "environment") as [env|e]; [|exact H1].
    destruct (hasTestRoot context) as [test|e];
      destruct (is_production env); try destruct test; simpl;
      rewrite ?write_capabilities_frame by exact Hne; exact H1.
  - intros a h' Hcall. unfold analyzeWithContext, analyze_call in Hcall.
    destruct (analyze spec) as [m|e]; [|discriminate Hcall].
    destruct (get (Some context) "environment") as [env|e] eqn:Henv;
      [|discriminate Hcall].
    destruct (hasTestRoot context) as [test|e]; [|discriminate Hcall].
    injection Hcall as <- <-.
    assert (Hctx : env = prop context "environment").
    { destruct context; unfold get in Henv; try discriminate Henv;
        injection Henv as <-; reflexivity. }
    subst env.
    assert (Hm : (h ++ [m]) !! List.length h = Some m)
      by (apply list_lookup_middle; reflexivity).
    set (strict := if is_production (prop context "environment")
                   then set_requiresStrictValidation true (capabilities m)
                   else capabilities m).
    exists m, (set_capabilities (if test then set_hasTestMode true strict
                                 else strict) m), test.
    split; [reflexivity|]. split; [reflexivity|]. split.
    + subst strict.
      destruct (is_production (prop context "environment")); destruct test;
        repeat (erewrite write_capabilities_at;
                [|first [exact Hm | apply write_capabilities_at; exact Hm]]);
        try rewrite Hm; destruct m; reflexivity.
    + subst strict.
      destruct (is_production (prop context "environment")); destruct test;
        (split; [repeat split | split; reflexivity]).
  - intros Htyped. split; [apply hasTestRoot_typed; exact Htyped|].
    intros m Hm. unfold analyzeWithContext, analyze_call. rewrite Hm.
    rewrite (hasTestRoot_typed context Htyped).
    destruct Htyped as (props & rs & -> & _). simpl. eauto.
Qed.

Lemma analyzeWithContext_overlay_witness :
  exists m m' h',
    analyze paginated_doc = Ok m
    /\ analyzeWithContext production_context paginated_doc [initial_analysis]
       = (Ok 1%nat, h')
    /\ h' !! 0%nat = Some initial_analysis
    /\ h' !! 1%nat = Some m'
    /\ same_but_context_flags m m'
    /\ requiresStrictValidation (capabilities m') = Some true
    /\ hasTestMode (capabilities m') = Some true.
Proof.
  destruct (analyzeWithContext_overlay production_context paginated_doc
              [initial_analysis]) as (Hframe & Hmodel & Htyped).
  destruct (Htyped (ex_intro _ _ (ex_intro _ _
                      (conj eq_refl (conj eq_refl eq_refl)))))
    as (Hscan & Hreturns).
  destruct (Hframe 0%nat initial_analysis eq_refl) as [_ Hkept].
  edestruct Hmodel
    as (m & m' & test & Hm & Htest & Hlook & Hsame & Hstrict & Hmode);
    [vm_compute; reflexivity|].
  rewrite Hscan in Htest. vm_compute in Htest. injection Htest as <-.
  exists m, m'. eexists.
  split; [exact Hm|]. split; [vm_compute; reflexivity|].
  split; [exact Hkept|]. split; [exact Hlook|]. split; [exact Hsame|].
  split; [exact Hstrict | exact Hmode].
Defined.

(** * Further properties of the analyzer *)

(** ** Loops that append *)

(** When every iteration appends to a list of the state, the loop appends
    the concatenation, one block per element. *)
Lemma foldM_collect {S X Y : Type} (proj : S -> list Y)
  (R : X -> list Y -> Prop) (body : S -> X -> result S) (xs : list X) :
  (forall s x s', In x xs -> body s x = Ok s' ->
                  exists ys, proj s' = proj s ++ ys /\ R x ys) ->
  forall st st', foldM body xs st = Ok st' ->
  exists yss, proj st' = proj st ++ concat yss /\ Forall2 R xs yss.
Proof.
  induction xs as [|x rest IH]; intros Hbody st st' Hrun; simpl in Hrun.
  - injection Hrun as <-. exists []. simpl. rewrite app_nil_r.
    split; [reflexivity | constructor].
  - apply bind_Ok in Hrun. destruct Hrun as (s1 & Hx & Hrest).
    destruct (Hbody st x s1 (or_introl eq_refl) Hx) as (ys & Hys & HR).
    destruct (IH (fun s y s' Hy => Hbody s y s' (or_intror Hy)) s1 st' Hrest)
      as (yss & Hyss & Hall).
    exists (ys :: yss). simpl. rewrite Hyss, Hys, <- app_assoc.
    split; [reflexivity | constructor; assumption].
Qed.

Lemma someM_true {X : Type} (p : X -> result bool) (xs : list X) :
  someM p xs = Ok true -> exists x, In x xs /\ p x = Ok true.
Proof.
  induction xs as [|x rest IH]; simpl; [discriminate|].
  intros H. apply bind_Ok in H. destruct H as ([|] & Hx & H).
  - exists x. auto.
  - destruct (IH H) as (y & Hy & Hpy). exists y. auto.
Qed.

Lemma someM_false {X : Type} (p : X -> result bool) (xs : list X) :
  someM p xs = Ok false -> forall x, In x xs -> p x = Ok false.
Proof.
  induction xs as [|x rest IH]; simpl; [intros _ y []|].
  intros H. apply bind_Ok in H. destruct H as ([|] & Hx & H);
    [discriminate H|].
  intros y [<-|Hy]; [exact Hx | apply IH; assumption].
Qed.

(** ** The scan of the paths *)

Lemma Object_entries_Ok (j : json) (l : list (string * json)) :
  Object_entries j = Ok l -> l = entries j.
Proof.
  destruct j; simpl; intros H; try discriminate H; injection H as <-;
    reflexivity.
Qed.

Lemma scanOperation_appends (p : string) (s s' : SpecAnalysis)
  (entry : string * json) :
  scanOperation p s entry = Ok s' ->
  exists es,
    endpoints s' = endpoints s ++ es
    /\ (if isOperation (snd entry)
        then exists e, es = [e] /\ endpoint_for p (fst entry) (snd entry) e
        else es = []).
Proof.
  destruct entry as [key op]. unfold scanOperation. simpl.
  destruct (isOperation op).
  - intros H.
    apply bind_Ok in H. destruct H as (act & Hact & H).
    apply bind_Ok in H. destruct H as (res & Hres & H).
    apply bind_Ok in H. destruct H as (c & Hc & H).
    eexists. split.
    + destruct (is_true act || gt c 2); injection H as <-; reflexivity.
    + eexists. split; [reflexivity|]. repeat split; simpl; assumption.
  - intros H. injection H as <-. exists []. rewrite app_nil_r. auto.
Qed.

Lemma Forall2_operation_blocks (p : string) (ops : list (string * json))
  (blocks : list (list AnalyzedEndpoint)) :
  Forall2 (fun entry es =>
             if isOperation (snd entry)
             then exists e, es = [e] /\ endpoint_for p (fst entry) (snd entry) e
             else es = []) ops blocks ->
  Forall2 (fun '(p', key, op) e => endpoint_for p' key op e)
          (map (fun '(key, op) => (p, key, op))
               (List.filter (fun entry => isOperation (snd entry)) ops))
          (concat blocks).
Proof.
  induction 1 as [|[key op] es ops' blocks' Hone _ IH]; simpl; [constructor|].
  simpl in Hone. destruct (isOperation op).
  - destruct Hone as (e & -> & He). simpl. constructor; assumption.
  - subst es. exact IH.
Qed.

Lemma Forall2_concat_blocks {X Y : Type} (f : X -> list (string * string * json))
  (R : string * string * json -> Y -> Prop) (xs : list X)
  (blocks : list (list Y)) :
  Forall2 (fun x ys => Forall2 R (f x) ys) xs blocks ->
  Forall2 R (flat_map f xs) (concat blocks).
Proof.
  induction 1 as [|x ys xs' blocks' Hone _ IH]; simpl; [constructor|].
  apply Forall2_app; assumption.
Qed.

(** The endpoints [analyzePaths] appends are the records of the
    operation-like entries, one for one and in order. *)
Lemma analyzePaths_appends (spec : json) (a a' : SpecAnalysis) :
  analyzePaths spec a = Ok a' ->
  exists es,
    endpoints a' = endpoints a ++ es
    /\ Forall2 (fun '(p, key, op) e => endpoint_for p key op e)
               (operation_entries spec) es.
Proof.
  unfold analyzePaths, operation_entries. intros H.
  apply bind_Ok in H. destruct H as (paths & Hpaths & H).
  assert (Hp : paths = prop spec "paths").
  { destruct spec; unfold get in Hpaths; try discriminate Hpaths;
      injection Hpaths as <-; reflexivity. }
  subst paths.
  apply (foldM_collect endpoints
           (fun entry es =>
              Forall2 (fun '(p, key, op) e => endpoint_for p key op e)
                      (map (fun '(key, op) => (fst entry, key, op))
                           (List.filter (fun en => isOperation (snd en))
                                        (entries (snd entry))))
                      es)) in H.
  - destruct H as (blocks & Hblocks & Hall).
    exists (concat blocks). split; [exact Hblocks|].
    apply Forall2_concat_blocks.
    clear -Hall. induction Hall as [|[p item] ys xs' bs' Hone _ IH];
      constructor; [exact Hone | exact IH].
  - intros s [p item] s' _ Hitem. unfold scanPathItem in Hitem.
    apply bind_Ok in Hitem. destruct Hitem as (ops & Hops & Hitem).
    apply Object_entries_Ok in Hops. subst ops.
    apply (foldM_collect endpoints
             (fun entry es =>
                if isOperation (snd entry)
                then exists e, es = [e]
                               /\ endpoint_for p (fst entry) (snd entry) e
                else es = [])) in Hitem.
    + destruct Hitem as (blocks & Hblocks & Hall).
      exists (concat blocks). split; [exact Hblocks|].
      apply Forall2_operation_blocks. exact Hall.
    + intros t entry t' _ Hop. apply (scanOperation_appends p t t' entry Hop).
Qed.

Lemma analyze_endpoints (spec : json) (m : SpecAnalysis) :
  analyze spec = Ok m ->
  Forall2 (fun '(p, key, op) e => endpoint_for p key op e)
          (operation_entries spec) (endpoints m).
Proof.
  intros H. analyze_facts H.
  destruct (analyzePaths_appends spec _ _ Hpaths) as (es & Hes & Hall).
  simpl in Hes. replace (endpoints m) with es by congruence. exact Hall.
Qed.

Lemma string_in_In (s : string) (l : list string) :
  string_in s l = true <-> In s l.
Proof.
  unfold string_in. rewrite existsb_exists. split.
  - intros (x & Hx & Heq). apply String.eqb_eq in Heq. subst. exact Hx.
  - intros H. exists s. split; [exact H | apply String.eqb_refl].
Qed.

Lemma Forall2_In_r {X Y : Type} (R : X -> Y -> Prop) (xs : list X)
  (ys : list Y) (y : Y) :
  Forall2 R xs ys -> In y ys -> exists x, In x xs /\ R x y.
Proof.
  induction 1 as [|x y' xs' ys' Hxy _ IH]; simpl; [intros []|].
  intros [<-|Hy]; [exists x; auto|].
  destruct (IH Hy) as (x' & Hx' & Hr). exists x'. auto.
Qed.

Lemma analyze_endpoint_for (spec : json) (m : SpecAnalysis)
  (e : AnalyzedEndpoint) :
  analyze spec = Ok m -> In e (endpoints m) ->
  exists p key op, In (p, key, op) (operation_entries spec)
                   /\ endpoint_for p key op e.
Proof.
  intros H He.
  destruct (Forall2_In_r _ _ _ e (analyze_endpoints spec m H) He)
    as ([[p key] op] & Hin & Hfor).
  exists p, key, op. auto.
Qed.

Lemma summary_lower_Ok (op : json) (r : option string) :
  summary_lower op = Ok r ->
  r = match prop op "summary" with
      | Some (JStr s) => Some (toLowerCase s)
      | _ => None
      end.
Proof.
  unfold summary_lower. intros H.
  apply bind_Ok in H. destruct H as (v & Hv & H).
  assert (Hp : v = prop op "summary").
  { destruct op; unfold get in Hv; try discriminate Hv;
      injection Hv as <-; reflexivity. }
  rewrite <- Hp. destruct v as [[| | |s| |]|]; simpl in H;
    try discriminate H; injection H as <-; reflexivity.
Qed.

(** X1. An endpoint of the model is action-like exactly when its method is
    POST, PUT, PATCH or DELETE or its summary contains "create", "update"
    or "delete" in any case; in particular every endpoint with one of the
    four methods is action-like. *)
Theorem action_endpoints (spec : json) (m : SpecAnalysis)
  (e : AnalyzedEndpoint) :
  analyze spec = Ok m ->
  In e (endpoints m) ->
  (is_true (isAction e) = true <->
   In (method e) ["POST"; "PUT"; "PATCH"; "DELETE"]
   \/ summary_mentions "create" (operation e) = true
   \/ summary_mentions "update" (operation e) = true
   \/ summary_mentions "delete" (operation e) = true).
Proof.
  intros H He.
  destruct (analyze_endpoint_for spec m e H He)
    as (p & key & op & _ & _ & Hmethod & Hop & Hact & _).
  rewrite Hmethod, Hop, <- string_in_In. unfold isActionEndpoint in Hact.
  destruct (string_in (toUpperCase key) ["POST"; "PUT"; "PATCH"; "DELETE"]).
  - injection Hact as <-. simpl. split; auto.
  - apply bind_Ok in Hact. destruct Hact as (low & Hlow & Hact).
    apply summary_lower_Ok in Hlow. injection Hact as <-.
    unfold summary_mentions. subst low.
    destruct (prop op "summary") as [[| | |s| |]|]; simpl;
      try (split; [discriminate | intros [F|[F|[F|F]]]; discriminate F]).
    destruct (includes "create" (toLowerCase s)),
             (includes "update" (toLowerCase s)),
             (includes "delete" (toLowerCase s)); simpl;
      (split; [intros F; try discriminate F; auto
              | intros [F|[F|[F|F]]]; try discriminate F; reflexivity]).
Qed.

Lemma action_endpoints_witness :
  exists m e,
    analyze orders_doc = Ok m /\ In e (endpoints m) /\ method e = "POST"
    /\ is_true (isAction e) = true.
Proof.
  eexists. eexists. split; [vm_compute; reflexivity|].
  split; [left; reflexivity|]. split; [reflexivity|].
  eapply (action_endpoints orders_doc);
    [vm_compute; reflexivity | left; reflexivity |].
  left. left. reflexivity.
Defined.

(** X2. An endpoint of the model is resource-like exactly when its method
    is GET and its summary contains none of "trigger", "send" and
    "execute", in any case. *)
Theorem resource_endpoints (spec : json) (m : SpecAnalysis)
  (e : AnalyzedEndpoint) :
  analyze spec = Ok m ->
  In e (endpoints m) ->
  (isResource e = true <->
   method e = "GET"
   /\ summary_mentions "trigger" (operation e) = false
   /\ summary_mentions "send" (operation e) = false
   /\ summary_mentions "execute" (operation e) = false).
Proof.
  intros H He.
  destruct (analyze_endpoint_for spec m e H He)
    as (p & key & op & _ & _ & Hmethod & Hop & _ & Hres & _).
  rewrite Hmethod, Hop. unfold isResourceEndpoint in Hres.
  destruct (String.eqb (toUpperCase key) "GET") eqn:Hget.
  - apply String.eqb_eq in Hget.
    apply bind_Ok in Hres. destruct Hres as (effects & Heff & Hres).
    unfold hasSideEffects in Heff.
    apply bind_Ok in Heff. destruct Heff as (low & Hlow & Heff).
    apply summary_lower_Ok in Hlow. injection Heff as <-.
    injection Hres as <-. unfold summary_mentions. subst low.
    destruct (prop op "summary") as [[| | |s| |]|]; simpl;
      try (split; [intros _; auto | reflexivity]).
    destruct (includes "trigger" (toLowerCase s)),
             (includes "send" (toLowerCase s)),
             (includes "execute" (toLowerCase s)); simpl;
      (split; [intros F; try discriminate F; auto
              | intros (_ & F1 & F2 & F3);
                try discriminate F1; try discriminate F2;
                try discriminate F3; reflexivity]).
  - injection Hres as <-. apply String.eqb_neq in Hget.
    split; [discriminate | intros [F _]; contradiction].
Qed.

Lemma resource_endpoints_witness :
  exists m e,
    analyze orders_doc = Ok m /\ In e (endpoints m) /\ method e = "GET"
    /\ isResource e = false.
Proof.
  eexists. eexists. split; [vm_compute; reflexivity|].
  split; [right; left; reflexivity|]. split; [reflexivity|].
  apply not_true_is_false. intros Hres.
  eapply (resource_endpoints orders_doc) in Hres;
    [| vm_compute; reflexivity | right; left; reflexivity].
  destruct Hres as (_ & Htrigger & _). vm_compute in Htrigger.
  discriminate Htrigger.
Defined.

Lemma analyzePaths_hasTools (spec : json) (a a' : SpecAnalysis) :
  analyzePaths spec a = Ok a' ->
  hasTools a = existsb tool_like (endpoints a) ->
  hasTools a' = existsb tool_like (endpoints a').
Proof.
  unfold analyzePaths. intros H. apply bind_Ok in H.
  destruct H as (paths & _ & H). revert H.
  apply (foldM_invariant
           (fun s => hasTools s = existsb tool_like (endpoints s))).
  intros s [p item] s' _ Hs Hitem. unfold scanPathItem in Hitem.
  apply bind_Ok in Hitem. destruct Hitem as (ops & _ & Hitem).
  revert Hitem Hs.
  apply (foldM_invariant
           (fun s => hasTools s = existsb tool_like (endpoints s))).
  intros t [key op] t' _ Ht Hop. unfold scanOperation in Hop.
  destruct (isOperation op); [|injection Hop as <-; exact Ht].
  apply bind_Ok in Hop. destruct Hop as (act & _ & Hop).
  apply bind_Ok in Hop. destruct Hop as (res & _ & Hop).
  apply bind_Ok in Hop. destruct Hop as (c & _ & Hop).
  destruct (is_true act || gt c 2) eqn:Htool; injection Hop as <-; simpl;
    rewrite existsb_app; simpl; unfold tool_like at 2; simpl;
    rewrite Htool, ?Ht, ?orb_true_r, ?orb_false_r; reflexivity.
Qed.

(** X3. [hasTools] is true exactly when some endpoint of the model is
    action-like or has a complexity above 2. *)
Theorem hasTools_iff_tool_like (spec : json) (m : SpecAnalysis) :
  analyze spec = Ok m ->
  (hasTools m = true <->
   exists e, In e (endpoints m) /\ tool_like e = true).
Proof.
  intros H. rewrite <- existsb_exists. analyze_facts H.
  pose proof (analyzePaths_hasTools spec _ _ Hpaths eq_refl) as Htools.
  replace (hasTools m) with (hasTools a1) by congruence.
  replace (endpoints m) with (endpoints a1) by congruence.
  rewrite Htools. reflexivity.
Qed.

Lemma hasTools_iff_tool_like_witness :
  exists m,
    analyze orders_doc = Ok m
    /\ (hasTools m = true <->
        exists e, In e (endpoints m) /\ tool_like e = true).
Proof.
  eexists. split; [vm_compute; reflexivity|].
  apply (hasTools_iff_tool_like orders_doc). vm_compute. reflexivity.
Defined.

(** X4. The endpoints of the model are the operation-like entries of the
    path items, one for one and in document order: each keeps its path and
    its operation, with the entry's key in upper case as method. *)
Theorem endpoints_in_document_order (spec : json) (m : SpecAnalysis) :
  analyze spec = Ok m ->
  map (fun e => (path e, method e, operation e)) (endpoints m)
  = map (fun '(p, key, op) => (p, toUpperCase key, op))
        (operation_entries spec).
Proof.
  intros H. pose proof (analyze_endpoints spec m H) as Hall.
  induction Hall as [|[[p key] op] e xs es Hone _ IH]; [reflexivity|].
  simpl. rewrite IH. destruct Hone as (-> & -> & -> & _). reflexivity.
Qed.

Lemma endpoints_in_document_order_witness :
  exists m,
    analyze orders_doc = Ok m
    /\ map (fun e => (path e, method e)) (endpoints m)
       = [("/orders", "POST"); ("/orders", "GET")].
Proof.
  eexists. split; [vm_compute; reflexivity|].
  pose proof (endpoints_in_document_order orders_doc _
                ltac:(vm_compute; reflexivity)) as Horder.
  apply (f_equal (map (fun t => (fst (fst t), snd (fst t))))) in Horder.
  rewrite map_map in Horder. simpl in Horder. exact Horder.
Defined.

(** ** Reference pointers *)

Lemma match_schema_ref_unfold (ref : string) :
  match_schema_ref ref =
  match
    match stripPrefix "#/components/schemas/" ref with
    | Some rest =>
        match takeWhile (fun c => negb (is_line_terminator c)) rest with
        | EmptyString => None
        | group => Some group
        end
    | None => None
    end
  with
  | Some group => Some group
  | None =>
      match ref with
      | EmptyString => None
      | String _ rest => match_schema_ref rest
      end
  end.
Proof. destruct ref; reflexivity. Qed.

Lemma stripPrefix_append (pre s : string) :
  stripPrefix pre (String.append pre s) = Some s.
Proof.
  induction pre as [|c pre IH]; simpl; [reflexivity|].
  rewrite Ascii.eqb_refl. exact IH.
Qed.

Lemma takeWhile_all (f : ascii -> bool) (s : string) :
  string_forall f s = true -> takeWhile f s = s.
Proof.
  induction s as [|c rest IH]; simpl; [reflexivity|].
  intros H. apply andb_prop in H. destruct H as [Hc Hrest].
  rewrite Hc, (IH Hrest). reflexivity.
Qed.

(** X5. Pointer round trip: for a name that is not empty and has no line
    break, [extractRefName] applied to "#/components/schemas/" followed by
    the name returns the name, slashes included. *)
Theorem extractRefName_pointer (name : string) :
  name <> "" ->
  string_forall (fun c => negb (is_line_terminator c)) name = true ->
  extractRefName (Some (JStr (schema_pointer name))) = Ok (Some name).
Proof.
  intros Hne Hline. unfold extractRefName, schema_pointer. f_equal.
  rewrite match_schema_ref_unfold, stripPrefix_append.
  rewrite (takeWhile_all _ _ Hline).
  destruct name; [contradiction Hne; reflexivity | reflexivity].
Qed.

Lemma extractRefName_pointer_witness :
  extractRefName (Some (JStr (schema_pointer "Pet/properties/owner")))
  = Ok (Some "Pet/properties/owner").
Proof.
  apply (extractRefName_pointer "Pet/properties/owner");
    [discriminate | reflexivity].
Defined.

Lemma includes_skip (t s : string) (c : ascii) :
  includes t s = true -> includes t (String c s) = true.
Proof. intros H. cbn [includes]. rewrite H. apply orb_true_r. Qed.

Lemma includes_prefix (t s : string) :
  String.prefix t s = true -> includes t s = true.
Proof. intros H. destruct s; cbn [includes]; rewrite H; reflexivity. Qed.

Lemma includes_after_prefix (pre s rest t : string) :
  stripPrefix pre s = Some rest -> includes t rest = true ->
  includes t s = true.
Proof.
  revert s. induction pre as [|c pre IH]; intros s; simpl.
  - intros H. injection H as <-. auto.
  - destruct s as [|b s]; [discriminate|].
    destruct (Ascii.eqb c b); [|discriminate].
    intros H Ht. apply includes_skip. apply (IH s H Ht).
Qed.

Lemma prefix_takeWhile (f : ascii -> bool) (s : string) :
  String.prefix (takeWhile f s) s = true.
Proof.
  induction s as [|c rest IH]; simpl; [reflexivity|].
  destruct (f c); simpl; [|reflexivity].
  destruct (ascii_dec c c); [exact IH | contradiction].
Qed.

(** The name read off a pointer is a piece of the pointer. *)
Lemma match_schema_ref_includes (ref name : string) :
  match_schema_ref ref = Some name -> includes name ref = true.
Proof.
  induction ref as [|c rest IH]; rewrite match_schema_ref_unfold.
  - simpl. discriminate.
  - destruct (stripPrefix "#/components/schemas/" (String c rest))
      as [tail|] eqn:Hstrip.
    + destruct (takeWhile (fun c0 => negb (is_line_terminator c0)) tail)
        as [|g group] eqn:Htake.
      * intros H. apply includes_skip. apply IH. exact H.
      * intros H. injection H as <-.
        apply (includes_after_prefix _ _ _ _ Hstrip).
        apply includes_prefix. rewrite <- Htake. apply prefix_takeWhile.
    + intros H. apply includes_skip. apply IH. exact H.
Qed.

(** ** Resources and relationship records *)

Lemma Forall2_singletons {X Y : Type} (Q : X -> Y -> Prop) (xs : list X)
  (yss : list (list Y)) :
  Forall2 (fun x ys => exists y, ys = [y] /\ Q x y) xs yss ->
  Forall2 Q xs (concat yss).
Proof.
  induction 1 as [|x ys xs' yss' (y & -> & Hy) _ IH]; simpl;
    constructor; assumption.
Qed.

Lemma analyzeSchemas_appends (spec : json) (a a' : SpecAnalysis) :
  analyzeSchemas spec a = Ok a' ->
  exists rs,
    resources a' = resources a ++ rs
    /\ Forall2 (fun entry r => resource_for (fst entry) (snd entry) r)
               (named_schemas spec) rs.
Proof.
  unfold analyzeSchemas. intros H. apply bind_Ok in H.
  destruct H as (schemas & Hschemas & H).
  rewrite (schemas_of_entries _ _ Hschemas) in H.
  apply (foldM_collect resources
           (fun entry rs =>
              exists r, rs = [r] /\ resource_for (fst entry) (snd entry) r))
    in H.
  - destruct H as (blocks & Hblocks & Hall).
    exists (concat blocks). split; [exact Hblocks|].
    apply Forall2_singletons. exact Hall.
  - intros s [name schema] s' _ Hstep. unfold scanSchema in Hstep.
    apply bind_Ok in Hstep. destruct Hstep as (related & Hrel & Hstep).
    injection Hstep as <-. simpl. eexists. split; [reflexivity|].
    eexists. split; [reflexivity|]. repeat split; simpl; auto.
Qed.

Lemma analyze_resources_exact (spec : json) (m : SpecAnalysis) :
  analyze spec = Ok m ->
  Forall2 (fun entry r => resource_for (fst entry) (snd entry) r)
          (named_schemas spec) (resources m).
Proof.
  intros H. analyze_facts H.
  destruct (analyzeSchemas_appends spec _ _ Hschemas) as (rs & Hrs & Hall).
  replace (resources m) with rs; [exact Hall|].
  replace (resources a1) with (@nil AnalyzedResource) in Hrs by congruence.
  simpl in Hrs. congruence.
Qed.

Lemma NoDup_unique (l : list string) : List.NoDup (unique l).
Proof.
  induction l as [|x rest IH]; simpl; constructor.
  - intros Hin. apply filter_In in Hin. destruct Hin as [_ Hne].
    rewrite String.eqb_refl in Hne. discriminate Hne.
  - apply List.NoDup_filter. exact IH.
Qed.

(** X6. The resources of the model are the named schemas of the document,
    one for one and in document order, each with its schema, and no
    resource lists the same related name twice. *)
Theorem resources_in_document_order (spec : json) (m : SpecAnalysis) :
  analyze spec = Ok m ->
  map (fun r => (res_name r, res_schema r)) (resources m) = named_schemas spec
  /\ forall r, In r (resources m) -> List.NoDup (res_relationships r).
Proof.
  intros H. pose proof (analyze_resources_exact spec m H) as Hall. split.
  - induction Hall as [|[name schema] r xs rs Hone _ IH]; [reflexivity|].
    simpl. rewrite IH. destruct Hone as (-> & -> & _). reflexivity.
  - intros r Hr.
    destruct (Forall2_In_r _ _ _ r Hall Hr) as (entry & _ & _ & _ & _ & Hfind).
    unfold findSchemaRelationships in Hfind.
    apply bind_Ok in Hfind. destruct Hfind as (properties & _ & Hfind).
    apply bind_Ok in Hfind. destruct Hfind as (found & _ & Hfind).
    injection Hfind as <-. apply NoDup_unique.
Qed.

Lemma resources_in_document_order_witness :
  exists m,
    analyze linked_doc = Ok m
    /\ map res_name (resources m) = ["User"; "Team"]
    /\ forall r, In r (resources m) -> List.NoDup (res_relationships r).
Proof.
  eexists. split; [vm_compute; reflexivity|].
  destruct (resources_in_document_order linked_doc _
              ltac:(vm_compute; reflexivity)) as [Horder Hnodup].
  split; [|exact Hnodup].
  apply (f_equal (map fst)) in Horder. rewrite map_map in Horder.
  exact Horder.
Defined.

Lemma analyzeRelationships_appends (a a' : SpecAnalysis) :
  analyzeRelationships a = Ok a' ->
  exists rels,
    relationships a' = relationships a ++ rels
    /\ map (fun r => (rel_from r, rel_to r)) rels
       = related_pairs (resources a)
    /\ forall r, In r rels ->
         exists res,
           In res (resources a)
           /\ rel_from r = res_name res
           /\ In (rel_to r) (res_relationships res)
           /\ determineRelationshipType (res_schema res) (rel_to r)
              = Ok (rel_type r).
Proof.
  unfold analyzeRelationships, related_pairs. intros H.
  apply (foldM_collect relationships
           (fun res rels =>
              map (fun r => (rel_from r, rel_to r)) rels
              = map (fun t => (res_name res, t)) (res_relationships res)
              /\ forall r, In r rels ->
                   rel_from r = res_name res
                   /\ In (rel_to r) (res_relationships res)
                   /\ determineRelationshipType (res_schema res) (rel_to r)
                      = Ok (rel_type r))) in H.
  - destruct H as (blocks & Hblocks & Hall).
    exists (concat blocks). split; [exact Hblocks|].
    clear Hblocks. induction Hall as [|res rels rs bs [Hmap Hone] _ IH].
    + split; [reflexivity | intros r []].
    + destruct IH as [IHmap IHall]. simpl. split.
      * rewrite map_app, Hmap, IHmap. reflexivity.
      * intros r Hr. apply in_app_or in Hr. destruct Hr as [Hr|Hr].
        -- exists res. split; [left; reflexivity | apply Hone; exact Hr].
        -- destruct (IHall r Hr) as (res' & Hin & Hrest).
           exists res'. split; [right; exact Hin | exact Hrest].
  - intros s res s' _ Hstep. unfold relateResource in Hstep.
    apply (foldM_collect relationships
             (fun t rels =>
                exists r, rels = [r]
                  /\ rel_from r = res_name res /\ rel_to r = t
                  /\ determineRelationshipType (res_schema res) t
                     = Ok (rel_type r))) in Hstep.
    + destruct Hstep as (blocks & Hblocks & Hall).
      exists (concat blocks). split; [exact Hblocks|].
      clear Hblocks.
      induction Hall as [|t rels ts bs (r & -> & Hf & Ht & Hty) _ IH].
      * split; [reflexivity | intros r []].
      * destruct IH as [IHmap IHall]. simpl. split.
        -- rewrite IHmap, Hf, Ht. reflexivity.
        -- intros r' [<-|Hr'].
           ++ rewrite Ht. split; [exact Hf|]. split; [left; reflexivity|].
              exact Hty.
           ++ destruct (IHall r' Hr') as (Hf' & Hin' & Hty').
              split; [exact Hf'|]. split; [right; exact Hin' | exact Hty'].
    + intros t related t' _ Hone. unfold relate in Hone.
      apply bind_Ok in Hone. destruct Hone as (ty & Hty & Hone).
      injection Hone as <-. simpl. eexists. split; [reflexivity|].
      eexists. split; [reflexivity|]. simpl. auto.
Qed.

(** X7. The relationship records of the model are exactly the pairs of a
    resource and a name of its relationship list: one record per pair, in
    the order of the resources and of their lists. *)
Theorem relationships_are_related_pairs (spec : json) (m : SpecAnalysis) :
  analyze spec = Ok m ->
  map (fun r => (rel_from r, rel_to r)) (relationships m)
  = related_pairs (resources m).
Proof.
  intros H. analyze_facts H.
  destruct (analyzeRelationships_appends _ _ Hrels) as (rels & Hrels' & Hmap & _).
  replace (relationships m) with rels.
  - rewrite Hmap. f_equal. congruence.
  - replace (relationships a3) with (@nil ResourceRelationship) in Hrels'
      by congruence.
    simpl in Hrels'. congruence.
Qed.

Lemma relationships_are_related_pairs_witness :
  exists m,
    analyze linked_doc = Ok m
    /\ map (fun r => (rel_from r, rel_to r)) (relationships m)
       = [("User", "Team"); ("Team", "User")].
Proof.
  eexists. split; [vm_compute; reflexivity|].
  rewrite (relationships_are_related_pairs linked_doc _
             ltac:(vm_compute; reflexivity)).
  reflexivity.
Defined.

(** ** Relationship types *)

Lemma findM_None {X : Type} (p : X -> result bool) (xs : list X) :
  findM p xs = Ok None -> forall x, In x xs -> p x = Ok false.
Proof.
  induction xs as [|x rest IH]; simpl; [intros _ y []|].
  intros H. apply bind_Ok in H. destruct H as ([|] & Hx & H);
    [discriminate H|].
  intros y [<-|Hy]; [exact Hx | apply IH; assumption].
Qed.

Lemma findM_Some {X : Type} (p : X -> result bool) (xs : list X) (x : X) :
  findM p xs = Ok (Some x) ->
  exists before after,
    xs = before ++ x :: after
    /\ (forall y, In y before -> p y = Ok false)
    /\ p x = Ok true.
Proof.
  induction xs as [|y rest IH]; simpl; [discriminate|].
  intros H. apply bind_Ok in H. destruct H as ([|] & Hy & H).
  - injection H as <-. exists [], rest. split; [reflexivity|].
    split; [intros z [] | exact Hy].
  - destruct (IH H) as (before & after & -> & Hbefore & Hx).
    exists (y :: before), after. split; [reflexivity|].
    split; [|exact Hx]. intros z [<-|Hz]; [exact Hy | apply Hbefore; exact Hz].
Qed.

Lemma entries_or_else (j : json) :
  entries (or_else (Some j) (JObj [])) = entries j.
Proof.
  destruct j as [| [|] | n | s | l | kvs]; try reflexivity.
  - unfold or_else. simpl. destruct (Z.eqb n 0); reflexivity.
  - destruct s; reflexivity.
Qed.

Lemma refersTo_referenced (t propName ref : string) (propSchema : json) :
  prop propSchema "$ref" = Some (JStr ref)
  \/ (is_string "array" (prop propSchema "type") = true
      /\ get_opt (prop propSchema "items") "$ref" = Some (JStr ref)) ->
  includes t ref = true ->
  refersTo t (propName, propSchema) <> Ok false.
Proof.
  intros Href Hinc. unfold refersTo.
  assert (Hnn : propSchema <> JNull).
  { intros ->. destruct Href as [F|[F _]]; discriminate F. }
  rewrite !(get_not_null propSchema) by exact Hnn. simpl bind.
  destruct Href as [-> | [_ Hitems]].
  - simpl. rewrite Hinc. simpl. discriminate.
  - destruct (includes_opt (prop propSchema "$ref") t) as [direct|e];
      simpl; [|discriminate].
    destruct (is_true direct); [discriminate|].
    rewrite Hitems. simpl. rewrite Hinc. simpl. discriminate.
Qed.

(** X8. The type of a relationship record is read off the name of the
    first property of the source schema, in document order, whose direct
    or items reference contains the target name: such a property always
    exists, so the type is never many_to_many and is unknown only when
    that property's name is the empty string. *)
Theorem relationship_type_from_property (spec : json) (m : SpecAnalysis)
  (r : ResourceRelationship) :
  analyze spec = Ok m ->
  In r (relationships m) ->
  exists schema properties before propName propSchema after,
    In (rel_from r, schema) (named_schemas spec)
    /\ prop schema "properties" = Some properties
    /\ entries properties = before ++ (propName, propSchema) :: after
    /\ (forall entry, In entry before -> refersTo (rel_to r) entry = Ok false)
    /\ refersTo (rel_to r) (propName, propSchema) = Ok true
    /\ rel_type r = type_of_property_name propName
    /\ rel_type r <> many_to_many
    /\ (rel_type r = unknown -> propName = "").
Proof.
  intros H Hr. pose proof (analyze_resources_exact spec m H) as Hres.
  analyze_facts H.
  destruct (analyzeRelationships_appends _ _ Hrels) as (rels & Hrels' & _ & Hall).
  assert (Hin : In r rels).
  { replace (relationships a3) with (@nil ResourceRelationship) in Hrels'
      by congruence.
    simpl in Hrels'. replace rels with (relationships m) by congruence.
    exact Hr. }
  destruct (Hall r Hin) as (res & Hres_in & Hfrom & Hto & Htype).
  assert (Hres_in' : In res (resources m)) by congruence.
  destruct (Forall2_In_r _ _ _ res Hres Hres_in')
    as ([name schema] & Hnamed & Hname & Hschema & _ & Hfind).
  simpl in Hname, Hschema, Hfind. rewrite Hname, Hschema in *.
  destruct (findSchemaRelationships_sound _ _ _ Hfind _ Hto)
    as (_ & properties & pn & ps & ref & Hprops & Hentry & Href & Hmatch).
  apply match_schema_ref_includes in Hmatch.
  unfold determineRelationshipType in Htype.
  assert (Hnn : schema <> JNull) by (intros ->; discriminate Hprops).
  rewrite (get_not_null schema "properties" Hnn), Hprops in Htype.
  cbn [bind] in Htype. rewrite entries_or_else in Htype.
  apply bind_Ok in Htype. destruct Htype as (found & Hfound & Htype).
  destruct found as [[propName propSchema]|].
  - destruct (findM_Some _ _ _ Hfound) as (before & after & Hsplit & Hbefore & Hhere).
    exists schema, properties, before, propName, propSchema, after.
    split; [rewrite Hfrom; exact Hnamed|].
    split; [exact Hprops|]. split; [exact Hsplit|].
    split; [exact Hbefore|]. split; [exact Hhere|].
    assert (Hty : rel_type r = type_of_property_name propName).
    { unfold type_of_property_name.
      destruct (String.eqb propName ""); [congruence|].
      destruct (endsWith "Id" propName || endsWith "_id" propName);
        [congruence|].
      destruct (endsWith "s" propName || endsWith "List" propName);
        congruence. }
    split; [exact Hty|]. rewrite Hty. unfold type_of_property_name.
    destruct (String.eqb propName "") eqn:Hempty.
    + apply String.eqb_eq in Hempty. split; [discriminate | auto].
    + destruct (endsWith "Id" propName || endsWith "_id" propName);
        [split; discriminate|].
      destruct (endsWith "s" propName || endsWith "List" propName);
        split; discriminate.
  - exfalso. apply (refersTo_referenced (rel_to r) pn ref ps Href Hmatch).
    apply (findM_None _ _ Hfound). exact Hentry.
Qed.

Lemma relationship_type_from_property_witness :
  exists m r,
    analyze linked_doc = Ok m /\ In r (relationships m)
    /\ rel_from r = "Team" /\ rel_type r = belongs_to.
Proof.
  eexists. eexists. split; [vm_compute; reflexivity|].
  split; [right; left; reflexivity|]. split; [reflexivity|].
  edestruct (relationship_type_from_property linked_doc)
    as (schema & properties & before & propName & propSchema & after
        & _ & _ & _ & _ & _ & Hty & _);
    [vm_compute; reflexivity | right; left; reflexivity |].
  reflexivity.
Defined.

(** ** Grouping by resource *)

Lemma assoc_group_push (r r' : string) (e : AnalyzedEndpoint)
  (g : list (string * list AnalyzedEndpoint)) :
  assoc r' (group_push r e g) =
  if String.eqb r' r
  then Some (match assoc r g with
             | Some group => group ++ [e]
             | None => [e]
             end)
  else assoc r' g.
Proof.
  induction g as [|[k group] rest IH]; simpl.
  - destruct (String.eqb r' r); reflexivity.
  - destruct (String.eqb r k) eqn:Hrk; simpl.
    + apply String.eqb_eq in Hrk. subst k.
      destruct (String.eqb r' r); reflexivity.
    + destruct (String.eqb r' k) eqn:Hr'k.
      * apply String.eqb_eq in Hr'k. subst k.
        rewrite String.eqb_sym, Hrk. reflexivity.
      * exact IH.
Qed.

Lemma assoc_None_keys {V : Type} (k : string) (kvs : list (string * V)) :
  assoc k kvs = None -> ~ In k (map fst kvs).
Proof.
  induction kvs as [|[k' v] rest IH]; simpl; [tauto|].
  destruct (String.eqb k k') eqn:Hk; [discriminate|].
  apply String.eqb_neq in Hk. intros H [Heq|Hin]; [congruence|].
  apply (IH H Hin).
Qed.

Lemma assoc_Some_In {V : Type} (k : string) (v : V)
  (kvs : list (string * V)) :
  assoc k kvs = Some v -> In (k, v) kvs.
Proof.
  induction kvs as [|[k' v'] rest IH]; simpl; [discriminate|].
  destruct (String.eqb k k') eqn:Hk.
  - apply String.eqb_eq in Hk. intros H. injection H as <-. left. congruence.
  - intros H. right. apply IH. exact H.
Qed.

Lemma In_assoc_NoDup {V : Type} (k : string) (v : V)
  (kvs : list (string * V)) :
  List.NoDup (map fst kvs) -> In (k, v) kvs -> assoc k kvs = Some v.
Proof.
  induction kvs as [|[k' v'] rest IH]; simpl; [intros _ []|].
  intros Hnd Hin. inversion Hnd as [|? ? Hnot Hrest]; subst.
  destruct Hin as [Heq|Hin].
  - injection Heq as -> ->. rewrite String.eqb_refl. reflexivity.
  - destruct (String.eqb k k') eqn:Hk.
    + apply String.eqb_eq in Hk. subst k'. exfalso. apply Hnot.
      apply (in_map fst) in Hin. exact Hin.
    + apply IH; assumption.
Qed.

Lemma keys_group_push (r : string) (e : AnalyzedEndpoint)
  (g : list (string * list AnalyzedEndpoint)) :
  map fst (group_push r e g) =
  match assoc r g with
  | Some _ => map fst g
  | None => map fst g ++ [r]
  end.
Proof.
  induction g as [|[k group] rest IH]; simpl; [reflexivity|].
  destruct (String.eqb r k); simpl; [reflexivity|].
  rewrite IH. destruct (assoc r rest); reflexivity.
Qed.

Lemma group_of_snoc (r : string) (es : list AnalyzedEndpoint)
  (e : AnalyzedEndpoint) :
  group_of r (es ++ [e]) = group_of r es ++ (if in_group r e then [e] else []).
Proof. unfold group_of. rewrite List.filter_app. reflexivity. Qed.

Lemma group_step_keeps (es : list AnalyzedEndpoint) (e : AnalyzedEndpoint)
  (g : list (string * list AnalyzedEndpoint)) :
  groups_of es g -> groups_of (es ++ [e]) (group_step g e).
Proof.
  intros [Hnd Hassoc]. unfold group_step.
  destruct (resourceMatch (path e)) as [r|] eqn:Hmatch.
  - split.
    + rewrite keys_group_push. destruct (assoc r g) eqn:Hr; [exact Hnd|].
      apply List.NoDup_app; [exact Hnd | repeat constructor; intros [] |].
      intros k Hk [<-|[]]. apply (assoc_None_keys _ _ Hr Hk).
    + intros r'. rewrite assoc_group_push, group_of_snoc.
      unfold in_group. rewrite Hmatch, (String.eqb_sym r r').
      destruct (String.eqb r' r) eqn:Hr.
      * apply String.eqb_eq in Hr. subst r'. rewrite Hassoc.
        destruct (group_of r es); reflexivity.
      * rewrite app_nil_r. apply Hassoc.
  - split; [exact Hnd|]. intros r'. rewrite group_of_snoc.
    unfold in_group. rewrite Hmatch, app_nil_r. apply Hassoc.
Qed.

Lemma groupByResource_groups (es : list AnalyzedEndpoint) :
  groups_of es (groupByResource es).
Proof.
  assert (Hgen : forall rest done g,
             groups_of done g ->
             groups_of (done ++ rest) (fold_left group_step rest g)).
  { induction rest as [|e rest IH]; intros done g Hg; simpl.
    - rewrite app_nil_r. exact Hg.
    - replace (done ++ e :: rest) with ((done ++ [e]) ++ rest)
        by (rewrite <- app_assoc; reflexivity).
      apply IH. apply group_step_keeps. exact Hg. }
  apply (Hgen es [] []). split; [constructor | reflexivity].
Qed.

(** ** Workflows *)

Lemma detectCRUDPatterns_groups (es : list AnalyzedEndpoint) :
  detectCRUDPatterns es
  = flat_map (fun '(r, group) =>
                if covers_crud group then [crudWorkflow r] else [])
             (groupByResource es).
Proof. reflexivity. Qed.

Lemma crudWorkflow_inj (r r' : string) :
  crudWorkflow r = crudWorkflow r' -> r = r'.
Proof.
  intros H.
  apply (f_equal (fun w => match steps w with
                           | s :: _ => step_endpoint s
                           | [] => None
                           end)) in H.
  simpl in H. injection H as H. exact H.
Qed.

Lemma covers_crud_nil : covers_crud [] = false.
Proof. reflexivity. Qed.

Lemma In_detectCRUDPatterns (w : WorkflowPattern)
  (es : list AnalyzedEndpoint) :
  In w (detectCRUDPatterns es) <->
  exists r, w = crudWorkflow r /\ covers_crud (group_of r es) = true.
Proof.
  destruct (groupByResource_groups es) as [Hnd Hassoc].
  rewrite detectCRUDPatterns_groups, in_flat_map. split.
  - intros ([r group] & Hin & Hw).
    destruct (covers_crud group) eqn:Hcov; [|destruct Hw].
    destruct Hw as [<-|[]]. exists r. split; [reflexivity|].
    apply (In_assoc_NoDup _ _ _ Hnd) in Hin. rewrite Hassoc in Hin.
    destruct (group_of r es) as [|e0 rest]; [discriminate Hin|].
    injection Hin as <-. exact Hcov.
  - intros (r & -> & Hcov). exists (r, group_of r es). split.
    + apply assoc_Some_In. rewrite Hassoc.
      destruct (group_of r es); [discriminate Hcov | reflexivity].
    + rewrite Hcov. left. reflexivity.
Qed.

Lemma in_group_iff (r : string) (e : AnalyzedEndpoint) :
  in_group r e = true <-> resourceMatch (path e) = Some r.
Proof.
  unfold in_group. destruct (resourceMatch (path e)) as [r'|].
  - rewrite String.eqb_eq. split; congruence.
  - split; discriminate.
Qed.

Lemma covers_crud_iff (r : string) (es : list AnalyzedEndpoint) :
  covers_crud (group_of r es) = true <->
  forall verb, In verb ["GET"; "POST"; "PUT"; "DELETE"] ->
    exists e, In e es /\ resourceMatch (path e) = Some r /\ method e = verb.
Proof.
  assert (Hone : forall verb,
             string_in verb (map method (group_of r es)) = true <->
             exists e, In e es /\ resourceMatch (path e) = Some r
                       /\ method e = verb).
  { intros verb. rewrite string_in_In, in_map_iff. unfold group_of. split.
    - intros (e & Hm & Hin). apply filter_In in Hin. destruct Hin as [Hin Hg].
      apply in_group_iff in Hg. exists e. auto.
    - intros (e & Hin & Hg & Hm). exists e. split; [exact Hm|].
      apply filter_In. split; [exact Hin | apply in_group_iff; exact Hg]. }
  unfold covers_crud. rewrite !andb_true_iff, !Hone. split.
  - intros [[[Hg Hp] Hu] Hd] verb [<-|[<-|[<-|[<-|[]]]]]; assumption.
  - intros H. repeat split; apply H; simpl; auto.
Qed.

Lemma length_append (s t : string) :
  String.length (String.append s t) = (String.length s + String.length t)%nat.
Proof. induction s as [|c s IH]; simpl; [reflexivity | rewrite IH; reflexivity]. Qed.

Lemma append_inj_l (r r' s : string) :
  String.append r s = String.append r' s -> r = r'.
Proof.
  revert r'. induction r as [|c r IH]; intros [|c' r'] H; simpl in H.
  - reflexivity.
  - apply (f_equal String.length) in H. simpl in H.
    rewrite length_append in H. lia.
  - apply (f_equal String.length) in H. simpl in H.
    rewrite length_append in H. lia.
  - injection H as -> H. f_equal. apply IH. exact H.
Qed.

Ltac crud_name_differs H :=
  repeat match type of H with
         | String.append ?r _ = _ =>
             let tail := fresh "tail" in
             destruct r as [|? tail];
             [discriminate H | simpl in H; injection H as _ H]
         end;
  match type of H with
  | String.append ?r _ = _ => destruct r; simpl in H; discriminate H
  end.

Lemma crud_name_not_fixed (r : string) :
  ~ In (String.append r "_crud") ["authentication"; "pagination"; "fileUpload"].
Proof.
  intros [H|[H|[H|[]]]]; symmetry in H; crud_name_differs H.
Qed.

Lemma NoDup_crud_names (g : list (string * list AnalyzedEndpoint)) :
  List.NoDup (map fst g) ->
  List.NoDup (map wf_name
                (flat_map (fun '(r, group) =>
                             if covers_crud group then [crudWorkflow r] else [])
                          g)).
Proof.
  induction g as [|[r group] rest IH]; simpl; [constructor|].
  intros Hnd. inversion Hnd as [|? ? Hnot Hrest]; subst.
  destruct (covers_crud group); simpl; [|apply IH; exact Hrest].
  constructor; [|apply IH; exact Hrest].
  intros Hin. apply in_map_iff in Hin. destruct Hin as (w & Hname & Hin).
  apply in_flat_map in Hin. destruct Hin as ([r' group'] & Hin' & Hw).
  destruct (covers_crud group'); [|destruct Hw].
  destruct Hw as [<-|[]]. simpl in Hname. apply append_inj_l in Hname.
  subst r'. apply Hnot. apply (in_map fst) in Hin'. exact Hin'.
Qed.

Lemma detectWorkflows_emits_all (a a' : SpecAnalysis) :
  detectWorkflows a = Ok a' ->
  exists paginated uploads,
    hasPaginationPattern (endpoints a) = Ok paginated
    /\ hasFileUploadPattern (endpoints a) = Ok uploads
    /\ workflows a'
       = workflows a ++ emitted_workflows (endpoints a) paginated uploads
    /\ hasPrompts a'
       = if (0 <? List.length (workflows a'))%nat then true else hasPrompts a.
Proof.
  unfold detectWorkflows, emitted_workflows, push_workflow. intros H.
  destruct a as [tools res prompts samp ctx errs es rs ws rels eps caps].
  cbn [endpoints workflows set_workflows hasPrompts] in *.
  destruct (hasAuthenticationFlow es);
    cbn [endpoints workflows set_workflows] in H;
    (apply bind_Ok in H; destruct H as (paginated & Hpag & H);
     exists paginated;
     destruct paginated;
     cbn [endpoints workflows set_workflows] in H;
     apply bind_Ok in H; destruct H as (uploads & Hup & H);
     exists uploads; (split; [exact Hpag|]); (split; [exact Hup|]);
     destruct uploads;
     cbn [endpoints workflows set_workflows] in H;
     match type of H with
     | (if ?c then _ else _) = _ => destruct c eqn:Hany
     end;
     injection H as <-;
     cbn [workflows set_workflows set_hasPrompts hasPrompts];
     rewrite <- ?app_assoc; simpl app; rewrite ?app_nil_r;
     rewrite <- ?app_assoc in Hany; simpl app in Hany;
     rewrite ?app_nil_r in Hany; rewrite ?Hany; split; reflexivity).
Qed.

Lemma determineMCPFeatures_capabilities (a : SpecAnalysis) :
  capabilities (determineMCPFeatures a) = capabilities a.
Proof.
  unfold determineMCPFeatures.
  repeat match goal with
         | |- context [if ?c then _ else _] => destruct c
         end; reflexivity.
Qed.

(** What a successful [analyze] says about its workflows. *)
Lemma analyze_workflows (spec : json) (m : SpecAnalysis) :
  analyze spec = Ok m ->
  exists paginated uploads,
    hasPaginationPattern (endpoints m) = Ok paginated
    /\ hasFileUploadPattern (endpoints m) = Ok uploads
    /\ workflows m = emitted_workflows (endpoints m) paginated uploads
    /\ hasPrompts m = (0 <? List.length (workflows m))%nat.
Proof.
  intros H. analyze_facts H.
  destruct (detectWorkflows_emits_all _ _ Hflows)
    as (paginated & uploads & Hpag & Hup & Hw & Hprompts).
  exists paginated, uploads.
  replace (endpoints m) with (endpoints a2) by congruence.
  replace (workflows m) with (workflows a3) by congruence.
  replace (hasPrompts m) with (hasPrompts a3) by congruence.
  replace (workflows a2) with (@nil WorkflowPattern) in Hw by congruence.
  replace (hasPrompts a2) with false in Hprompts by congruence.
  simpl in Hw. repeat split; try assumption.
  rewrite Hprompts. destruct (0 <? List.length (workflows a3))%nat; reflexivity.
Qed.

(** X9. [hasPrompts] is true exactly when the model has at least one
    workflow. *)
Theorem hasPrompts_iff_workflows (spec : json) (m : SpecAnalysis) :
  analyze spec = Ok m ->
  (hasPrompts m = true <-> workflows m <> []).
Proof.
  intros H.
  destruct (analyze_workflows spec m H) as (_ & _ & _ & _ & _ & Hprompts).
  rewrite Hprompts. destruct (workflows m); simpl.
  - split; [discriminate | congruence].
  - split; [discriminate | reflexivity].
Qed.

Lemma hasPrompts_iff_workflows_witness :
  exists m,
    analyze widgets_doc = Ok m
    /\ (hasPrompts m = true <-> workflows m <> []).
Proof.
  eexists. split; [vm_compute; reflexivity|].
  apply (hasPrompts_iff_workflows widgets_doc). vm_compute. reflexivity.
Defined.

Lemma In_emitted_workflows (w : WorkflowPattern)
  (es : list AnalyzedEndpoint) (paginated uploads : bool) :
  In w (emitted_workflows es paginated uploads) <->
  In w (detectCRUDPatterns es)
  \/ (hasAuthenticationFlow es = true
      /\ w = {| wf_name := "authentication"; wf_type := "auth";
                steps := buildAuthWorkflow es |})
  \/ (paginated = true
      /\ w = {| wf_name := "pagination"; wf_type := "navigation";
                steps := buildPaginationWorkflow es |})
  \/ (uploads = true
      /\ w = {| wf_name := "fileUpload"; wf_type := "multipart";
                steps := buildFileUploadWorkflow es |}).
Proof.
  unfold emitted_workflows. rewrite !in_app_iff.
  destruct (hasAuthenticationFlow es), paginated, uploads; simpl;
    intuition (try discriminate; try congruence; auto).
Qed.

(** X10. The names of the workflows of a model are pairwise different, and
    every workflow has its fixed number of steps: five for a workflow of
    type crud, four for any other. *)
Theorem workflow_names_unique (spec : json) (m : SpecAnalysis) :
  analyze spec = Ok m ->
  List.NoDup (map wf_name (workflows m))
  /\ forall w, In w (workflows m) ->
       List.length (steps w)
       = if String.eqb (wf_type w) "crud" then 5%nat else 4%nat.
Proof.
  intros H.
  destruct (analyze_workflows spec m H)
    as (paginated & uploads & _ & _ & Hw & _).
  rewrite Hw. split.
  - unfold emitted_workflows. rewrite map_app.
    apply List.NoDup_app.
    + rewrite detectCRUDPatterns_groups. apply NoDup_crud_names.
      apply groupByResource_groups.
    + destruct (hasAuthenticationFlow (endpoints m)), paginated, uploads;
        simpl; repeat constructor; simpl; intuition discriminate.
    + intros name Hcrud Hfixed.
      apply in_map_iff in Hcrud. destruct Hcrud as (w & <- & Hin).
      apply In_detectCRUDPatterns in Hin. destruct Hin as (r & -> & _).
      apply (crud_name_not_fixed r). simpl wf_name in Hfixed.
      destruct (hasAuthenticationFlow (endpoints m)), paginated, uploads;
        simpl in Hfixed; simpl; intuition.
  - intros w Hin. apply In_emitted_workflows in Hin.
    destruct Hin as [Hin|[[_ ->]|[[_ ->]|[_ ->]]]]; try reflexivity.
    apply In_detectCRUDPatterns in Hin. destruct Hin as (r & -> & _).
    reflexivity.
Qed.

Lemma workflow_names_unique_witness :
  exists m,
    analyze widgets_doc = Ok m
    /\ map wf_name (workflows m) = ["widgets_crud"; "authentication"]
    /\ List.NoDup (map wf_name (workflows m)).
Proof.
  eexists. split; [vm_compute; reflexivity|]. split; [reflexivity|].
  apply (workflow_names_unique widgets_doc). vm_compute. reflexivity.
Defined.

(** X11. A crud workflow for a resource is in the model exactly when the
    endpoints whose path starts with that resource's segment carry, taken
    together over all such paths, the methods GET, POST, PUT and DELETE;
    and every workflow of type crud is the five-step skeleton of some
    resource. *)
Theorem crud_workflow_iff (spec : json) (m : SpecAnalysis) :
  analyze spec = Ok m ->
  (forall r,
     In (crudWorkflow r) (workflows m) <->
     forall verb, In verb ["GET"; "POST"; "PUT"; "DELETE"] ->
       exists e, In e (endpoints m)
                 /\ resourceMatch (path e) = Some r /\ method e = verb)
  /\ (forall w, In w (workflows m) -> wf_type w = "crud" ->
        exists r, w = crudWorkflow r).
Proof.
  intros H.
  destruct (analyze_workflows spec m H)
    as (paginated & uploads & _ & _ & Hw & _).
  rewrite Hw. split.
  - intros r. rewrite <- covers_crud_iff, In_emitted_workflows. split.
    + intros [Hin|[[_ F]|[[_ F]|[_ F]]]]; try discriminate F.
      apply In_detectCRUDPatterns in Hin. destruct Hin as (r' & Heq & Hcov).
      apply crudWorkflow_inj in Heq. subst r'. exact Hcov.
    + intros Hcov. left. apply In_detectCRUDPatterns. exists r. auto.
  - intros w Hin Hty. apply In_emitted_workflows in Hin.
    destruct Hin as [Hin|[[_ ->]|[[_ ->]|[_ ->]]]]; try discriminate Hty.
    apply In_detectCRUDPatterns in Hin. destruct Hin as (r & -> & _).
    exists r. reflexivity.
Qed.

Lemma crud_workflow_iff_witness :
  exists m,
    analyze widgets_doc = Ok m /\ In (crudWorkflow "widgets") (workflows m).
Proof.
  eexists. split; [vm_compute; reflexivity|].
  destruct (crud_workflow_iff widgets_doc _ ltac:(vm_compute; reflexivity))
    as [Hiff _].
  apply Hiff. intros verb [<-|[<-|[<-|[<-|[]]]]].
  - eexists. split; [left; reflexivity|]. split; reflexivity.
  - eexists. split; [right; left; reflexivity|]. split; reflexivity.
  - eexists. split; [do 3 right; left; reflexivity|]. split; reflexivity.
  - eexists. split; [do 4 right; left; reflexivity|]. split; reflexivity.
Defined.

(** ** Flags *)

Lemma get_Ok (j : json) (k : string) (v : value) :
  get (Some j) k = Ok v -> v = prop j k.
Proof.
  destruct j; unfold get; intros H; try discriminate H;
    injection H as <-; reflexivity.
Qed.

Lemma someM_Ok_iff {X : Type} (p : X -> result bool) (q : X -> bool)
  (xs : list X) (b : bool) :
  (forall x r, In x xs -> p x = Ok r -> r = q x) ->
  someM p xs = Ok b ->
  (b = true <-> exists x, In x xs /\ q x = true).
Proof.
  intros Hpq H. destruct b.
  - split; [intros _ | reflexivity].
    destruct (someM_true p xs H) as (x & Hx & Hp).
    exists x. split; [exact Hx|]. symmetry. apply (Hpq x true Hx Hp).
  - split; [discriminate|]. intros (x & Hx & Hq).
    pose proof (someM_false p xs H x Hx) as Hp.
    rewrite <- (Hpq x false Hx Hp) in Hq. discriminate Hq.
Qed.

Lemma analyzePaths_scans (spec : json) (a a' : SpecAnalysis) :
  analyzePaths spec a = Ok a' -> besides_scans a' = besides_scans a.
Proof.
  unfold analyzePaths. intros H. inv_bind.
  apply (foldM_frame besides_scans) in H; [exact H|].
  intros s [p pathItem] s' Hitem. unfold scanPathItem in Hitem. inv_bind.
  apply (foldM_frame besides_scans) in Hitem; [exact Hitem|].
  intros t [meth op] t' Hop. unfold scanOperation in Hop. inv_bind; reflexivity.
Qed.

Lemma analyzeSchemas_scans (spec : json) (a a' : SpecAnalysis) :
  analyzeSchemas spec a = Ok a' -> besides_scans a' = besides_scans a.
Proof.
  unfold analyzeSchemas. intros H. inv_bind.
  apply (foldM_frame besides_scans) in H; [exact H|].
  intros s [name schema] s' Hs. unfold scanSchema in Hs. inv_bind. reflexivity.
Qed.

Lemma detectWorkflows_scans (a a' : SpecAnalysis) :
  detectWorkflows a = Ok a' -> besides_scans a' = besides_scans a.
Proof.
  unfold detectWorkflows. intros H. inv_bind;
    repeat match goal with
           | |- context [if ?c then _ else _] => destruct c
           end; reflexivity.
Qed.

Lemma analyzeRelationships_scans (a a' : SpecAnalysis) :
  analyzeRelationships a = Ok a' -> besides_scans a' = besides_scans a.
Proof.
  unfold analyzeRelationships. generalize (resources a) as rs. intros rs H.
  apply (foldM_frame besides_scans) in H; [exact H|].
  intros s r s' Hr. unfold relateResource in Hr.
  apply (foldM_frame besides_scans) in Hr; [exact Hr|].
  intros t related t' Ht. unfold relate in Ht. inv_bind. reflexivity.
Qed.

Lemma detectErrorPatterns_scans (a a' : SpecAnalysis) :
  detectErrorPatterns a = Ok a' -> besides_scans a' = besides_scans a.
Proof.
  unfold detectErrorPatterns. generalize (endpoints a) as es. intros es H.
  apply (foldM_frame besides_scans) in H; [exact H|].
  intros s e s' He. unfold scanEndpointErrors in He. inv_bind.
  apply (foldM_frame besides_scans) in He; [exact He|].
  intros t [code response] t' Ht. unfold scanResponse in Ht.
  inv_bind; reflexivity.
Qed.

Lemma analyzeCapabilities_flags (spec : json) (a a' : SpecAnalysis) :
  analyzeCapabilities spec a = Ok a' ->
  hasPaginationPattern (endpoints a) = Ok (hasPagination (capabilities a'))
  /\ hasBatchOperations (capabilities a')
     = existsb (fun e => includes "batch" (path e) || includes "bulk" (path e))
               (endpoints a)
  /\ hasWebhooks (capabilities a')
     = (truthy (prop spec "webhooks")
        || existsb (fun e => includes "webhook" (path e)) (endpoints a))
  /\ (hasAsyncOperations (capabilities a') = true <->
      exists e, In e (endpoints a) /\ declares_202 e = true)
  /\ hasAuthentication (capabilities a')
     = truthy (get_opt (prop spec "components") "securitySchemes")
  /\ (hasRateLimiting (capabilities a') = true <->
      exists e, In e (endpoints a) /\ declares_rate_limit e = true)
  /\ requiresStrictValidation (capabilities a')
     = requiresStrictValidation (capabilities a)
  /\ hasTestMode (capabilities a') = hasTestMode (capabilities a)
  /\ optional_flags a' = optional_flags a.
Proof.
  unfold analyzeCapabilities. intros H.
  apply bind_Ok in H. destruct H as (pagination & Hpag & H).
  apply bind_Ok in H. destruct H as (hooks & Hhooks & H).
  apply bind_Ok in H. destruct H as (async & Hasync & H).
  apply bind_Ok in H. destruct H as (components & Hcomp & H).
  apply bind_Ok in H. destruct H as (rate & Hrate & H).
  injection H as <-. simpl.
  apply get_Ok in Hhooks. apply get_Ok in Hcomp. subst hooks components.
  split; [exact Hpag|]. split; [reflexivity|]. split; [reflexivity|].
  split; [|split; [reflexivity|split; [|auto]]].
  - apply (someM_Ok_iff _ declares_202 _ _) in Hasync; [exact Hasync|].
    intros e r _ He. apply bind_Ok in He. destruct He as (responses & Hr & He).
    apply get_Ok in Hr. subst responses. injection He as <-. reflexivity.
  - apply (someM_Ok_iff _ declares_rate_limit _ _) in Hrate; [exact Hrate|].
    intros e r _ He. apply bind_Ok in He. destruct He as (responses & Hr & He).
    apply get_Ok in Hr. subst responses. unfold declares_rate_limit.
    destruct r.
    + symmetry. apply existsb_exists.
      destruct (someM_true _ _ He) as (x & Hx & Hp). exists x.
      split; [exact Hx|]. unfold hasRateLimitHeader in Hp.
      apply bind_Ok in Hp. destruct Hp as (headers & Hh & Hp).
      apply get_Ok in Hh. subst headers. injection Hp as Hp. exact Hp.
    + symmetry. apply not_true_is_false. intros Hex.
      apply existsb_exists in Hex. destruct Hex as (x & Hx & Hq).
      pose proof (someM_false _ _ He x Hx) as Hp.
      unfold hasRateLimitHeader in Hp.
      apply bind_Ok in Hp. destruct Hp as (headers & Hh & Hp).
      apply get_Ok in Hh. subst headers. injection Hp as Hp.
      unfold rate_limited_response in Hq. rewrite Hp in Hq. discriminate Hq.
Qed.

(** The state after the five scans, and what the last two phases make of
    it. *)
Lemma analyze_flags (spec : json) (m : SpecAnalysis) :
  analyze spec = Ok m ->
  exists a6,
    m = determineMCPFeatures a6
    /\ optional_flags a6 = (None, None, None)
    /\ endpoints a6 = endpoints m
    /\ workflows a6 = workflows m
    /\ relationships a6 = relationships m
    /\ errorPatterns a6 = errorPatterns m
    /\ capabilities a6 = capabilities m
    /\ exists a5,
         analyzeCapabilities spec a5 = Ok a6
         /\ endpoints a5 = endpoints m
         /\ capabilities a5 = initial_capabilities.
Proof.
  intros H. apply analyze_stages in H.
  destruct H as (a1 & a2 & a3 & a4 & a5 & a6 & H1 & H2 & H3 & H4 & H5 & H6 & ->).
  pose proof (analyzePaths_scans _ _ _ H1) as S1.
  pose proof (analyzeSchemas_scans _ _ _ H2) as S2.
  pose proof (detectWorkflows_scans _ _ H3) as S3.
  pose proof (analyzeRelationships_scans _ _ H4) as S4.
  pose proof (detectErrorPatterns_scans _ _ H5) as S5.
  assert (S : besides_scans a5 = besides_scans initial_analysis) by congruence.
  unfold besides_scans in S.
  pose proof (f_equal fst S) as Sflags. pose proof (f_equal snd S) as Scaps.
  simpl in Sflags, Scaps.
  pose proof (analyzeCapabilities_flags _ _ _ H6) as (_ & _ & _ & _ & _ & _ & _ & _ & F6).
  pose proof (analyzeCapabilities_frame _ _ _ H6) as B6.
  pose proof (determineMCPFeatures_frame a6) as B7.
  unfold besides_flags in B6, B7.
  injection B6 as ? ? ? ? ? ? ? ?. injection B7 as ? ? ? ? ? ? ? ?.
  exists a6. split; [reflexivity|].
  split; [rewrite F6, Sflags; reflexivity|].
  repeat (split; [congruence|]).
  split; [symmetry; apply determineMCPFeatures_capabilities|].
  exists a5. split; [exact H6|]. split; [congruence | exact Scaps].
Qed.

Lemma hasFileUploadPattern_iff (es : list AnalyzedEndpoint) (b : bool) :
  hasFileUploadPattern es = Ok b ->
  (b = true <-> exists e, In e es /\ declares_multipart e = true).
Proof.
  unfold hasFileUploadPattern. apply someM_Ok_iff.
  intros e r _ He. apply bind_Ok in He. destruct He as (body & Hb & He).
  apply get_Ok in Hb. subst body. injection He as <-. reflexivity.
Qed.

(** X12. The model has a workflow named "authentication" exactly when the
    path of some endpoint contains "auth", "login" or "token", and a
    workflow named "fileUpload" exactly when the request body of some
    operation declares the multipart/form-data media type; they have the
    types auth and multipart. *)
Theorem fixed_workflows_iff (spec : json) (m : SpecAnalysis) :
  analyze spec = Ok m ->
  ((exists w, In w (workflows m) /\ wf_name w = "authentication") <->
   exists e, In e (endpoints m) /\ auth_path e = true)
  /\ ((exists w, In w (workflows m) /\ wf_name w = "fileUpload") <->
      exists e, In e (endpoints m) /\ declares_multipart e = true)
  /\ (forall w, In w (workflows m) ->
        (wf_name w = "authentication" -> wf_type w = "auth")
        /\ (wf_name w = "fileUpload" -> wf_type w = "multipart")).
Proof.
  intros H.
  destruct (analyze_workflows spec m H)
    as (paginated & uploads & _ & Hup & Hw & _).
  apply hasFileUploadPattern_iff in Hup. rewrite Hw.
  assert (Hcrud : forall w n,
             In w (detectCRUDPatterns (endpoints m)) -> wf_name w = n ->
             ~ In n ["authentication"; "pagination"; "fileUpload"]).
  { intros w n Hin <-. apply In_detectCRUDPatterns in Hin.
    destruct Hin as (r & -> & _). apply crud_name_not_fixed. }
  split; [|split].
  - rewrite <- existsb_exists.
    change (existsb auth_path (endpoints m))
      with (hasAuthenticationFlow (endpoints m)).
    split.
    + intros (w & Hin & Hname). apply In_emitted_workflows in Hin.
      destruct Hin as [Hin|[[Hauth _]|[[_ ->]|[_ ->]]]];
        [|exact Hauth|discriminate Hname|discriminate Hname].
      exfalso. apply (Hcrud w _ Hin Hname). simpl. auto.
    + intros Hauth. eexists. split.
      * apply In_emitted_workflows. right. left. split; [exact Hauth|].
        reflexivity.
      * reflexivity.
  - rewrite <- Hup. split.
    + intros (w & Hin & Hname). apply In_emitted_workflows in Hin.
      destruct Hin as [Hin|[[_ ->]|[[_ ->]|[Hu _]]]];
        [|discriminate Hname|discriminate Hname|exact Hu].
      exfalso. apply (Hcrud w _ Hin Hname). simpl. auto.
    + intros Hu. eexists. split.
      * apply In_emitted_workflows. do 3 right. split; [exact Hu|].
        reflexivity.
      * reflexivity.
  - intros w Hin. apply In_emitted_workflows in Hin.
    destruct Hin as [Hin|[[_ ->]|[[_ ->]|[_ ->]]]]; simpl;
      try (split; intros F; try discriminate F; reflexivity).
    split; intros Hname; exfalso; apply (Hcrud w _ Hin Hname); simpl; auto.
Qed.

Lemma fixed_workflows_iff_witness :
  exists m,
    analyze uploads_doc = Ok m
    /\ exists w, In w (workflows m) /\ wf_name w = "fileUpload".
Proof.
  eexists. split; [vm_compute; reflexivity|].
  destruct (fixed_workflows_iff uploads_doc _ ltac:(vm_compute; reflexivity))
    as (_ & Hupload & _).
  apply Hupload. eexists. split; [left; reflexivity | reflexivity].
Defined.

Lemma isPaginationParameter_Ok (p : json) (b : bool) :
  isPaginationParameter p = Ok b ->
  exists s, prop p "name" = Some (JStr s)
            /\ b = string_in (toLowerCase s)
                             ["page"; "limit"; "offset"; "cursor"].
Proof.
  unfold isPaginationParameter. intros H.
  apply bind_Ok in H. destruct H as (name & Hname & H).
  apply get_Ok in Hname. subst name.
  destruct (prop p "name") as [[| | |s| |]|]; try discriminate H.
  injection H as <-. exists s. auto.
Qed.

Lemma hasPaginationParameters_iff (op : json) (b : bool) :
  hasPaginationParameters op = Ok b ->
  (b = true <-> has_pagination_parameter op).
Proof.
  unfold hasPaginationParameters, has_pagination_parameter. intros H.
  apply bind_Ok in H. destruct H as (parameters & Hp & H).
  apply get_Ok in Hp. subst parameters.
  destruct (or_else (prop op "parameters") (JArr []))
    as [| | | |params|] eqn:Hor; try discriminate H.
  destruct b.
  - split; [intros _ | reflexivity].
    destruct (someM_true _ _ H) as (p & Hin & Hp).
    apply isPaginationParameter_Ok in Hp. destruct Hp as (s & Hname & Hs).
    exists params, p, s. repeat split; try assumption.
    apply string_in_In. symmetry. exact Hs.
  - split; [discriminate|].
    intros (params' & p & s & Heq & Hin & Hname & Hs).
    injection Heq as <-.
    pose proof (someM_false _ _ H p Hin) as Hp.
    apply isPaginationParameter_Ok in Hp. destruct Hp as (s' & Hname' & Hs').
    rewrite Hname in Hname'. injection Hname' as <-.
    apply string_in_In in Hs. congruence.
Qed.

(** X13. The pagination capability and the pagination workflow agree:
    [hasPagination] is true exactly when the model has a workflow named
    "pagination", and exactly when some endpoint's operation has a
    parameter whose name is page, limit, offset or cursor in any case. *)
Theorem pagination_flag_and_workflow (spec : json) (m : SpecAnalysis) :
  analyze spec = Ok m ->
  (hasPagination (capabilities m) = true <-> pagination_workflows m <> [])
  /\ (hasPagination (capabilities m) = true <->
      exists e, In e (endpoints m) /\ has_pagination_parameter (operation e)).
Proof.
  intros H.
  destruct (pagination_workflow_shape spec m H) as (paginated & Hpag & Hshape).
  destruct (analyze_flags spec m H)
    as (a6 & _ & _ & _ & _ & _ & _ & Hcaps & a5 & H6 & He5 & _).
  destruct (analyzeCapabilities_flags _ _ _ H6) as (Hflag & _).
  rewrite He5, Hpag, Hcaps in Hflag. injection Hflag as Hflag.
  rewrite <- Hflag, Hshape. split.
  - destruct paginated; split; try discriminate; try reflexivity; congruence.
  - unfold hasPaginationPattern in Hpag. destruct paginated.
    + split; [intros _ | reflexivity].
      destruct (someM_true _ _ Hpag) as (e & Hin & Hp).
      exists e. split; [exact Hin|].
      apply (hasPaginationParameters_iff _ _ Hp). reflexivity.
    + split; [discriminate|]. intros (e & Hin & Hp).
      pose proof (someM_false _ _ Hpag e Hin) as Hf.
      apply (hasPaginationParameters_iff _ _ Hf) in Hp. exact Hp.
Qed.

Lemma pagination_flag_and_workflow_witness :
  exists m,
    analyze uploads_doc = Ok m
    /\ hasPagination (capabilities m) = true
    /\ pagination_workflows m <> [].
Proof.
  eexists. split; [vm_compute; reflexivity|]. split; [reflexivity|].
  apply (pagination_flag_and_workflow uploads_doc);
    [vm_compute; reflexivity | reflexivity].
Defined.

Lemma analyze_capabilities (spec : json) (m : SpecAnalysis) :
  analyze spec = Ok m ->
  (hasAsyncOperations (capabilities m) = true <->
   exists e, In e (endpoints m) /\ declares_202 e = true)
  /\ requiresStrictValidation (capabilities m) = None
  /\ hasTestMode (capabilities m) = None.
Proof.
  intros H.
  destruct (analyze_flags spec m H)
    as (a6 & _ & _ & _ & _ & _ & _ & Hcaps & a5 & H6 & He5 & Hc5).
  destruct (analyzeCapabilities_flags _ _ _ H6)
    as (_ & _ & _ & Hasync & _ & _ & Hstrict & Htest & _).
  rewrite Hcaps, He5 in *. rewrite Hc5 in Hstrict, Htest.
  split; [exact Hasync|]. split; assumption.
Qed.

(** X14. Each of the other capability flags is true exactly when its
    evidence is in the document: a path containing "batch" or "bulk"; a
    truthy webhooks section or a path containing "webhook"; an operation
    with a 202 response; a truthy [components.securitySchemes], an empty
    object included; a response with one of the two rate-limit headers.
    [analyze] itself never sets [requiresStrictValidation] or
    [hasTestMode]. *)
Theorem capability_flags_evidence (spec : json) (m : SpecAnalysis) :
  analyze spec = Ok m ->
  (hasBatchOperations (capabilities m) = true <->
   exists e, In e (endpoints m)
             /\ (includes "batch" (path e) || includes "bulk" (path e)) = true)
  /\ (hasWebhooks (capabilities m) = true <->
      truthy (prop spec "webhooks") = true
      \/ exists e, In e (endpoints m) /\ includes "webhook" (path e) = true)
  /\ (hasAsyncOperations (capabilities m) = true <->
      exists e, In e (endpoints m) /\ declares_202 e = true)
  /\ (hasAuthentication (capabilities m) = true <->
      truthy (get_opt (prop spec "components") "securitySchemes") = true)
  /\ (hasRateLimiting (capabilities m) = true <->
      exists e, In e (endpoints m) /\ declares_rate_limit e = true)
  /\ requiresStrictValidation (capabilities m) = None
  /\ hasTestMode (capabilities m) = None.
Proof.
  intros H.
  destruct (analyze_flags spec m H)
    as (a6 & _ & _ & _ & _ & _ & _ & Hcaps & a5 & H6 & He5 & Hc5).
  destruct (analyzeCapabilities_flags _ _ _ H6)
    as (_ & Hbatch & Hhooks & Hasync & Hauth & Hrate & Hstrict & Htest & _).
  rewrite Hcaps, He5 in *. rewrite Hc5 in Hstrict, Htest.
  split; [rewrite Hbatch, existsb_exists; reflexivity|].
  split; [rewrite Hhooks, orb_true_iff, existsb_exists; reflexivity|].
  split; [exact Hasync|]. split; [rewrite Hauth; reflexivity|].
  split; [exact Hrate|]. split; assumption.
Qed.

Lemma capability_flags_evidence_witness :
  exists m,
    analyze uploads_doc = Ok m
    /\ hasAuthentication (capabilities m) = true
    /\ hasBatchOperations (capabilities m) = true.
Proof.
  eexists. split; [vm_compute; reflexivity|].
  destruct (capability_flags_evidence uploads_doc _
              ltac:(vm_compute; reflexivity))
    as (Hbatch & _ & _ & Hauth & _).
  split; [apply Hauth; reflexivity|].
  apply Hbatch. eexists. split; [left; reflexivity | reflexivity].
Defined.

(** X15. The three advisory flags are set to true or left absent, never
    false: [requiresSampling] is true when the model has more than two
    workflows or the async capability, [requiresContextManagement] when it
    has more than three relationships, [requiresErrorIntelligence] when it
    has more than five error patterns. In particular one operation with a
    202 response is enough for [requiresSampling]. *)
Theorem advisory_flags (spec : json) (m : SpecAnalysis) :
  analyze spec = Ok m ->
  requiresSampling m
  = (if (2 <? List.length (workflows m))%nat
        || hasAsyncOperations (capabilities m)
     then Some true else None)
  /\ requiresContextManagement m
     = (if (3 <? List.length (relationships m))%nat then Some true else None)
  /\ requiresErrorIntelligence m
     = (if (5 <? List.length (errorPatterns m))%nat then Some true else None)
  /\ ((exists e, In e (endpoints m) /\ declares_202 e = true) ->
      requiresSampling m = Some true).
Proof.
  intros H.
  destruct (analyze_capabilities spec m H) as (Hasync & _).
  destruct (analyze_flags spec m H)
    as (a6 & Hm & Hflags & _ & Hw & Hr & He & Hc & _).
  assert (Hthree :
    requiresSampling m
    = (if (2 <? List.length (workflows m))%nat
          || hasAsyncOperations (capabilities m)
       then Some true else None)
    /\ requiresContextManagement m
       = (if (3 <? List.length (relationships m))%nat then Some true else None)
    /\ requiresErrorIntelligence m
       = (if (5 <? List.length (errorPatterns m))%nat then Some true else None)).
  { rewrite <- Hw, <- Hr, <- He, <- Hc, Hm.
    unfold optional_flags in Hflags. injection Hflags as Hs Hcm Hei.
    unfold determineMCPFeatures.
    destruct ((2 <? List.length (workflows a6))%nat
              || hasAsyncOperations (capabilities a6));
      cbn [relationships set_requiresSampling];
      destruct (3 <? List.length (relationships a6))%nat;
      cbn [errorPatterns set_requiresSampling set_requiresContextManagement];
      destruct (5 <? List.length (errorPatterns a6))%nat;
      cbn; rewrite ?Hs, ?Hcm, ?Hei; repeat split. }
  destruct Hthree as (Hs & Hcm & Hei).
  repeat (split; [assumption|]).
  intros Hex. apply Hasync in Hex. rewrite Hs, Hex, orb_true_r. reflexivity.
Qed.

Lemma advisory_flags_witness :
  exists m,
    analyze uploads_doc = Ok m
    /\ requiresSampling m = Some true
    /\ requiresErrorIntelligence m = None.
Proof.
  eexists. split; [vm_compute; reflexivity|].
  destruct (advisory_flags uploads_doc _ ltac:(vm_compute; reflexivity))
    as (_ & _ & Herr & Hasync).
  split; [|exact Herr].
  apply Hasync. eexists. split; [left; reflexivity | reflexivity].
Defined.

(** ** Error patterns *)

Lemma isRecoverableError_Ok (code : string) (response : json)
  (r : option bool) :
  isRecoverableError code response = Ok r -> r = recoverable_of code response.
Proof.
  unfold isRecoverableError, recoverable_of.
  destruct (string_in code ["429"; "503"; "504"]).
  - intros H. injection H as <-. reflexivity.
  - intros H. apply bind_Ok in H. destruct H as (d & Hd & H).
    apply get_Ok in Hd. subst d.
    apply bind_Ok in H. destruct H as (low & Hlow & H). injection H as <-.
    destruct (prop response "description") as [[| | |s| |]|];
      simpl in Hlow; try discriminate Hlow; injection Hlow as <-; reflexivity.
Qed.

Lemma scanResponse_appends (e : AnalyzedEndpoint) (s s' : SpecAnalysis)
  (entry : string * json) :
  scanResponse e s entry = Ok s' ->
  errorPatterns s'
  = errorPatterns s
    ++ (if is_error_status (fst entry)
        then [error_pattern_of e (fst entry) (snd entry)]
        else []).
Proof.
  destruct entry as [code response]. unfold scanResponse, is_error_status.
  simpl. destruct (startsWith "4" code || startsWith "5" code).
  - intros H. apply bind_Ok in H. destruct H as (d & Hd & H).
    apply get_Ok in Hd. subst d.
    apply bind_Ok in H. destruct H as (r & Hr & H).
    apply isRecoverableError_Ok in Hr. subst r. injection H as <-.
    reflexivity.
  - intros H. injection H as <-. rewrite app_nil_r. reflexivity.
Qed.

Lemma scanResponses_append (e : AnalyzedEndpoint)
  (rs : list (string * json)) (s s' : SpecAnalysis) :
  foldM (scanResponse e) rs s = Ok s' ->
  errorPatterns s'
  = errorPatterns s
    ++ map (fun entry => error_pattern_of e (fst entry) (snd entry))
           (List.filter (fun entry => is_error_status (fst entry)) rs).
Proof.
  revert s. induction rs as [|entry rest IH]; intros s H; simpl in H.
  - injection H as <-. simpl. rewrite app_nil_r. reflexivity.
  - apply bind_Ok in H. destruct H as (s1 & H1 & H).
    rewrite (IH s1 H), (scanResponse_appends e s s1 entry H1). simpl.
    destruct (is_error_status (fst entry)); simpl;
      rewrite <- app_assoc; reflexivity.
Qed.

Lemma detectErrorPatterns_appends (a a' : SpecAnalysis) :
  detectErrorPatterns a = Ok a' ->
  errorPatterns a'
  = errorPatterns a
    ++ map (fun '(e, code, response) => error_pattern_of e code response)
           (error_entries (endpoints a)).
Proof.
  unfold detectErrorPatterns, error_entries.
  generalize (endpoints a) as es. intros es. revert a.
  induction es as [|e rest IH]; intros a H; simpl in H.
  - injection H as <-. simpl. rewrite app_nil_r. reflexivity.
  - apply bind_Ok in H. destruct H as (s1 & H1 & H).
    unfold scanEndpointErrors in H1.
    apply bind_Ok in H1. destruct H1 as (responses & Hr & H1).
    apply get_Ok in Hr. subst responses.
    rewrite (IH s1 H), (scanResponses_append e _ a s1 H1). simpl.
    rewrite map_app, map_map, <- app_assoc. f_equal. f_equal.
    apply map_ext. intros [code response]. reflexivity.
Qed.

(** X16. The error patterns of the model are the responses of the
    endpoints whose status key starts with 4 or 5, one for one and in
    order; each carries that key, "<METHOD> <path>" of its endpoint and
    the response description or the empty string, and it is recoverable
    for 429, 503 and 504, else when the description contains "retry" in
    any case (left absent when there is no description). *)
Theorem error_patterns_exact (spec : json) (m : SpecAnalysis) :
  analyze spec = Ok m ->
  errorPatterns m
  = map (fun '(e, code, response) => error_pattern_of e code response)
        (error_entries (endpoints m)).
Proof.
  intros H. analyze_facts H.
  pose proof (detectErrorPatterns_appends _ _ Herrs) as Happ.
  replace (errorPatterns m) with (errorPatterns a5) by congruence.
  replace (endpoints m) with (endpoints a4) by congruence.
  rewrite Happ.
  replace (errorPatterns a4) with (@nil ErrorPattern) by congruence.
  reflexivity.
Qed.

Lemma error_patterns_exact_witness :
  exists m,
    analyze uploads_doc = Ok m
    /\ map (fun p => (statusCode p, err_endpoint p, recoverable p))
           (errorPatterns m)
       = [("429", "POST /bulk/files", Some true);
          ("500", "POST /bulk/files", Some true)].
Proof.
  eexists. split; [vm_compute; reflexivity|].
  rewrite (error_patterns_exact uploads_doc _ ltac:(vm_compute; reflexivity)).
  reflexivity.
Defined.

(** ** Complexity, further *)

(** X17. For an operation whose parameters, when present, are an array of
    n entries, the complexity score lies between 1 + n/3 and 4 + n/3
    (integer division), and is exactly 1 + n/3 when there is no request
    body and at most three response entries. *)
Theorem complexity_bounds (op : json) :
  op <> JNull ->
  parameters_typed op ->
  exists c,
    calculateComplexity op = Ok (Num c)
    /\ 1 + parameter_count op / 3 <= c <= 4 + parameter_count op / 3
    /\ (truthy (prop op "requestBody") = false ->
        (responseCount op <= 3)%nat ->
        c = 1 + parameter_count op / 3).
Proof.
  intros Hnn Htyped. unfold calculateComplexity, responseCount.
  rewrite !(get_not_null op) by exact Hnn. cbn [bind].
  assert (Hcount : ToNumber (prop (or_else (prop op "parameters") (JArr []))
                                  "length") = Ok (Num (parameter_count op))).
  { unfold parameter_count.
    destruct Htyped as [-> | [params ->]]; reflexivity. }
  rewrite Hcount. cbn [bind floor_div3 add].
  set (n := parameter_count op / 3).
  destruct (truthy (prop op "requestBody")) eqn:Hbody.
  - destruct (get_truthy _ "content" Hbody) as (content & Hcontent).
    unfold getRequestBodySchema. rewrite Hcontent. cbn [bind].
    match goal with
    | |- context [bind (if ?c then _ else _) _] => destruct c
    end; cbn [bind add];
      destruct (3 <? _)%nat; cbn [add]; eexists;
      (split; [reflexivity|]); (split; [lia|]); intros F; discriminate F.
  - cbn [bind]. destruct (3 <? _)%nat eqn:Hresp; cbn [add]; eexists;
      (split; [reflexivity|]); (split; [lia|]); intros _ Hfew.
    + apply Nat.ltb_lt in Hresp. lia.
    + reflexivity.
Qed.

Lemma complexity_bounds_witness :
  calculateComplexity op_four_responses = Ok (Num 3).
Proof.
  destruct (complexity_bounds op_four_responses ltac:(discriminate)
              (or_intror (ex_intro _ _ eq_refl)))
    as (c & Hc & _).
  rewrite Hc. vm_compute in Hc. injection Hc as <-. reflexivity.
Defined.

(** X18. When [parameters] is not an array but a non-zero number, the
    boolean true or an object without a [length] key, the length read off
    it is undefined and the complexity score is NaN. *)
Theorem complexity_not_a_number (op : json) :
  op <> JNull ->
  (exists n, n <> 0 /\ prop op "parameters" = Some (JNum n))
  \/ prop op "parameters" = Some (JBool true)
  \/ (exists kvs, prop op "parameters" = Some (JObj kvs)
                  /\ assoc "length" kvs = None) ->
  calculateComplexity op = Ok NaN.
Proof.
  intros Hnn Hp. unfold calculateComplexity.
  rewrite !(get_not_null op) by exact Hnn. cbn [bind].
  assert (Hcount : ToNumber (prop (or_else (prop op "parameters") (JArr []))
                                  "length") = Ok NaN).
  { destruct Hp as [(n & Hn & ->) | [-> | (kvs & -> & Hlen)]].
    - unfold or_else. simpl. apply Z.eqb_neq in Hn. rewrite Hn. reflexivity.
    - reflexivity.
    - simpl. rewrite Hlen. reflexivity. }
  rewrite Hcount. cbn [bind floor_div3 add].
  destruct (truthy (prop op "requestBody")) eqn:Hbody.
  - destruct (get_truthy _ "content" Hbody) as (content & Hcontent).
    unfold getRequestBodySchema. rewrite Hcontent. cbn [bind].
    match goal with
    | |- context [bind (if ?c then _ else _) _] => destruct c
    end; cbn [bind add]; destruct (3 <? _)%nat; reflexivity.
  - cbn [bind]. destruct (3 <? _)%nat; reflexivity.
Qed.

Lemma complexity_not_a_number_witness :
  calculateComplexity counted_parameters_op = Ok NaN.
Proof.
  apply (complexity_not_a_number counted_parameters_op); [discriminate|].
  left. exists 5. split; [lia | reflexivity].
Defined.

(** ** Null entries *)

Lemma foldM_fails {S X : Type} (body : S -> X -> result S) (xs : list X)
  (x : X) :
  In x xs -> (forall s, exists e, body s x = Fail e) ->
  forall st, exists e, foldM body xs st = Fail e.
Proof.
  intros Hin Hx. induction xs as [|y rest IH]; [destruct Hin|].
  intros st. simpl. destruct Hin as [->|Hin].
  - destruct (Hx st) as (e & ->). exists e. reflexivity.
  - destruct (body st y) as [s1|e]; simpl; [apply IH; exact Hin|].
    exists e. reflexivity.
Qed.

Lemma bind_fails {A B : Type} (m : result A) (k : A -> result B) :
  (forall a, m = Ok a -> exists e, k a = Fail e) ->
  exists e, bind m k = Fail e.
Proof.
  intros Hk. destruct m as [a|e]; simpl; [apply Hk; reflexivity|].
  exists e. reflexivity.
Qed.

(** X19. A null entry makes [analyze] throw instead of being skipped: a
    path whose item is null, a named schema that is null, or a null
    property of a schema. *)
Theorem null_entries_rejected (spec : json) :
  (exists p, In (p, JNull) (entries (or_else (prop spec "paths") (JObj []))))
  \/ (exists name, In (name, JNull) (named_schemas spec))
  \/ (exists name schema properties propName,
        In (name, schema) (named_schemas spec)
        /\ prop schema "properties" = Some properties
        /\ truthy (Some properties) = true
        /\ In (propName, JNull) (entries properties)) ->
  exists e, analyze spec = Fail e.
Proof.
  intros Hnull. unfold analyze.
  assert (Hschemas : forall a,
             (exists name, In (name, JNull) (named_schemas spec))
             \/ (exists name schema properties propName,
                   In (name, schema) (named_schemas spec)
                   /\ prop schema "properties" = Some properties
                   /\ truthy (Some properties) = true
                   /\ In (propName, JNull) (entries properties)) ->
             exists e, analyzeSchemas spec a = Fail e).
  { intros a Hs. unfold analyzeSchemas. apply bind_fails.
    intros schemas Hsch. rewrite (schemas_of_entries _ _ Hsch).
    destruct Hs as [(name & Hin) | (name & schema & properties & pn
                                    & Hin & Hprops & Htruthy & Hpn)].
    - apply (foldM_fails _ _ _ Hin). intros s. exists TypeError. reflexivity.
    - apply (foldM_fails _ _ _ Hin). intros s. unfold scanSchema.
      apply bind_fails. intros related Hfind. exfalso.
      unfold findSchemaRelationships in Hfind.
      assert (Hnn : schema <> JNull) by (intros ->; discriminate Hprops).
      rewrite (get_not_null schema "properties" Hnn), Hprops in Hfind.
      cbn [bind] in Hfind. rewrite Htruthy in Hfind.
      apply bind_Ok in Hfind. destruct Hfind as (found & Hfold & _).
      rewrite entries_or_else in Hfold.
      destruct (foldM_fails (scanProperty name) _ _ Hpn
                  (fun s => ex_intro _ TypeError eq_refl) []) as (e & He).
      rewrite He in Hfold. discriminate Hfold. }
  apply bind_fails. intros a1 Hpaths.
  destruct Hnull as [(p & Hin) | Hs].
  - exfalso. unfold analyzePaths in Hpaths.
    apply bind_Ok in Hpaths. destruct Hpaths as (paths & Hget & Hfold).
    apply get_Ok in Hget. subst paths.
    destruct (foldM_fails scanPathItem _ _ Hin
                (fun s => ex_intro _ TypeError eq_refl) initial_analysis)
      as (e & He).
    rewrite He in Hfold. discriminate Hfold.
  - apply bind_fails. intros a2 Hsch.
    destruct (Hschemas a1 Hs) as (e & He). rewrite He in Hsch.
    discriminate Hsch.
Qed.

Lemma null_entries_rejected_witness :
  exists e, analyze empty_item_doc = Fail e.
Proof.
  apply (null_entries_rejected empty_item_doc).
  left. exists "/health". left. reflexivity.
Defined.

(** ** Typed documents are analyzed *)

Lemma foldM_total {S X : Type} (P : S -> Prop) (body : S -> X -> result S)
  (xs : list X) :
  (forall s x, In x xs -> P s -> exists s', body s x = Ok s' /\ P s') ->
  forall st, P st -> exists st', foldM body xs st = Ok st' /\ P st'.
Proof.
  induction xs as [|x rest IH]; intros Hbody st Hst; simpl.
  - exists st. auto.
  - destruct (Hbody st x (or_introl eq_refl) Hst) as (s1 & -> & Hs1). simpl.
    apply IH; [|exact Hs1]. intros s y Hy. apply Hbody. right. exact Hy.
Qed.

Lemma someM_total {X : Type} (p : X -> result bool) (xs : list X) :
  (forall x, In x xs -> exists b, p x = Ok b) -> exists b, someM p xs = Ok b.
Proof.
  induction xs as [|x rest IH]; intros Hp; simpl; [eauto|].
  destruct (Hp x (or_introl eq_refl)) as ([|] & ->); simpl; [eauto|].
  apply IH. intros y Hy. apply Hp. right. exact Hy.
Qed.

Lemma findM_total {X : Type} (p : X -> result bool) (xs : list X) :
  (forall x, In x xs -> exists b, p x = Ok b) -> exists r, findM p xs = Ok r.
Proof.
  induction xs as [|x rest IH]; intros Hp; simpl; [eauto|].
  destruct (Hp x (or_introl eq_refl)) as ([|] & ->); simpl; [eauto|].
  apply IH. intros y Hy. apply Hp. right. exact Hy.
Qed.

Lemma typed_operation_inv (op : json) :
  typed_operation op = true ->
  op <> JNull
  /\ optional_string (prop op "summary") = true
  /\ typed_parameters (prop op "parameters") = true
  /\ typed_responses (prop op "responses") = true.
Proof.
  destruct op; simpl; try discriminate. intros H.
  apply andb_prop in H. destruct H as [H Hr].
  apply andb_prop in H. destruct H as [Hs Hp].
  repeat split; try assumption. discriminate.
Qed.

Lemma summary_lower_total (op : json) :
  op <> JNull -> optional_string (prop op "summary") = true ->
  exists r, summary_lower op = Ok r.
Proof.
  intros Hnn Hs. unfold summary_lower.
  rewrite (get_not_null op "summary" Hnn). cbn [bind].
  destruct (prop op "summary") as [[| | |s| |]|]; try discriminate Hs;
    simpl; eauto.
Qed.

Lemma calculateComplexity_total (op : json) :
  op <> JNull -> typed_parameters (prop op "parameters") = true ->
  exists c, calculateComplexity op = Ok c.
Proof.
  intros Hnn Hp. unfold calculateComplexity.
  rewrite !(get_not_null op) by exact Hnn. cbn [bind].
  assert (Hcount : exists n,
             ToNumber (prop (or_else (prop op "parameters") (JArr []))
                            "length") = Ok n).
  { destruct (prop op "parameters") as [[| | | |ps|]|];
      try discriminate Hp; simpl; eauto. }
  destruct Hcount as (n & ->). cbn [bind].
  destruct (truthy (prop op "requestBody")) eqn:Hbody.
  - destruct (get_truthy _ "content" Hbody) as (content & Hcontent).
    unfold getRequestBodySchema. rewrite Hcontent. cbn [bind].
    match goal with
    | |- context [bind (if ?c then _ else _) _] => destruct c
    end; cbn [bind]; destruct (3 <? _)%nat; eauto.
  - cbn [bind]. destruct (3 <? _)%nat; eauto.
Qed.

Lemma scanOperation_total (p : string) (s : SpecAnalysis)
  (entry : string * json) :
  (negb (isOperation (snd entry)) || typed_operation (snd entry)) = true ->
  Forall (fun e => typed_operation (operation e) = true) (endpoints s) ->
  exists s', scanOperation p s entry = Ok s'
             /\ Forall (fun e => typed_operation (operation e) = true)
                       (endpoints s').
Proof.
  destruct entry as [key op]. simpl. intros Hop Hs. unfold scanOperation.
  destruct (isOperation op); [|eauto]. simpl in Hop.
  destruct (typed_operation_inv op Hop) as (Hnn & Hsum & Hpar & _).
  destruct (summary_lower_total op Hnn Hsum) as (low & Hlow).
  assert (Hact : exists act, isActionEndpoint key op = Ok act).
  { unfold isActionEndpoint. destruct (string_in _ _); [eauto|].
    rewrite Hlow. simpl. eauto. }
  assert (Hres : exists res, isResourceEndpoint key op = Ok res).
  { unfold isResourceEndpoint, hasSideEffects.
    destruct (String.eqb _ _); [|eauto]. rewrite Hlow. simpl. eauto. }
  destruct Hact as (act & ->). destruct Hres as (res & ->).
  destruct (calculateComplexity_total op Hnn Hpar) as (c & ->). cbn [bind].
  destruct (is_true act || gt c 2); eexists; (split; [reflexivity|]);
    simpl; apply Forall_app; (split; [exact Hs|]);
    constructor; [exact Hop | constructor | exact Hop | constructor].
Qed.

Lemma analyzePaths_total (spec : json) (a : SpecAnalysis) :
  spec <> JNull ->
  typed_paths (prop spec "paths") = true ->
  Forall (fun e => typed_operation (operation e) = true) (endpoints a) ->
  exists a', analyzePaths spec a = Ok a'
             /\ Forall (fun e => typed_operation (operation e) = true)
                       (endpoints a').
Proof.
  intros Hnn Hpaths Ha. unfold analyzePaths.
  rewrite (get_not_null spec "paths" Hnn). cbn [bind].
  apply foldM_total; [|exact Ha].
  intros s [p item] Hin Hs.
  assert (Hitem : typed_path_item item = true).
  { destruct (prop spec "paths") as [[| | | | |items]|];
      try discriminate Hpaths; simpl in Hin; try contradiction.
    simpl in Hpaths. rewrite forallb_forall in Hpaths.
    apply (Hpaths (p, item) Hin). }
  unfold scanPathItem. destruct item as [| | | | |kvs];
    try discriminate Hitem. simpl.
  apply foldM_total; [|exact Hs].
  intros t entry Hentry Ht. apply scanOperation_total; [|exact Ht].
  simpl in Hitem. rewrite forallb_forall in Hitem. apply Hitem. exact Hentry.
Qed.

Lemma optional_string_truthy (v : value) :
  optional_string v = true -> truthy v = true ->
  exists s, v = Some (JStr s).
Proof.
  destruct v as [[| | |s| |]|]; simpl; try discriminate; eauto.
Qed.

Lemma scanProperty_total (name : string) (acc : list string)
  (entry : string * json) :
  typed_property (snd entry) = true ->
  exists acc', scanProperty name acc entry = Ok acc'.
Proof.
  destruct entry as [pn ps]. simpl. intros Hp. unfold scanProperty.
  destruct ps as [| | | | |kvs]; try discriminate Hp.
  unfold typed_property in Hp. apply andb_prop in Hp.
  destruct Hp as [Href Hitems]. cbn [bind].
  assert (Hfirst : exists l,
             (if truthy (prop (JObj kvs) "$ref")
              then let* refName := extractRefName (prop (JObj kvs) "$ref") in
                   Ok (push_ref name refName acc)
              else Ok acc) = Ok l).
  { destruct (truthy (prop (JObj kvs) "$ref")) eqn:Ht; [|eauto].
    destruct (optional_string_truthy _ Href Ht) as (s & ->). simpl. eauto. }
  destruct Hfirst as (l & ->). cbn [bind].
  destruct (is_string "array" (prop (JObj kvs) "type")); [|eauto].
  destruct (truthy (get_opt (prop (JObj kvs) "items") "$ref")) eqn:Ht;
    [|eauto].
  destruct (optional_string_truthy _ Hitems Ht) as (s & ->). simpl. eauto.
Qed.

Lemma typed_schema_properties (schema : json) :
  typed_schema schema = true ->
  schema <> JNull
  /\ forall entry,
       In entry (entries (or_else (prop schema "properties") (JObj []))) ->
       typed_property (snd entry) = true.
Proof.
  destruct schema as [| | | | |kvs]; try discriminate. intros H.
  split; [discriminate|]. unfold typed_schema in H.
  destruct (prop (JObj kvs) "properties") as [[| | | | |props]|];
    try discriminate H; simpl; [|intros ? []].
  rewrite forallb_forall in H. exact H.
Qed.

Lemma findSchemaRelationships_total (name : string) (schema : json) :
  typed_schema schema = true ->
  exists related, findSchemaRelationships name schema = Ok related.
Proof.
  intros Hs. destruct (typed_schema_properties schema Hs) as (Hnn & Hprops).
  unfold findSchemaRelationships.
  rewrite (get_not_null schema "properties" Hnn). cbn [bind].
  destruct (truthy (prop schema "properties")); [|simpl; eauto].
  destruct (foldM_total (fun _ => True) (scanProperty name)
              (entries (or_else (prop schema "properties") (JObj []))))
    with (st := @nil string) as (l & -> & _); [|exact I|simpl; eauto].
  intros acc entry Hin _.
  destruct (scanProperty_total name acc entry (Hprops entry Hin)) as (l & ->).
  eauto.
Qed.

Lemma typed_named_schemas (spec : json) :
  typed_schemas (get_opt (prop spec "components") "schemas") = true ->
  forall entry, In entry (named_schemas spec) ->
                typed_schema (snd entry) = true.
Proof.
  unfold named_schemas. intros H.
  destruct (get_opt (prop spec "components") "schemas")
    as [[| | | | |ss]|]; try discriminate H; simpl; try (intros ? []).
  simpl in H. rewrite forallb_forall in H. exact H.
Qed.

Lemma analyzeSchemas_total (spec : json) (a : SpecAnalysis) :
  spec <> JNull ->
  typed_schemas (get_opt (prop spec "components") "schemas") = true ->
  Forall (fun r => typed_schema (res_schema r) = true) (resources a) ->
  exists a', analyzeSchemas spec a = Ok a'
             /\ Forall (fun r => typed_schema (res_schema r) = true)
                       (resources a').
Proof.
  intros Hnn Hs Ha. unfold analyzeSchemas, schemas_of.
  rewrite (get_not_null spec "components" Hnn). cbn [bind].
  fold (named_schemas spec).
  apply foldM_total; [|exact Ha].
  intros s [name schema] Hin Hrs. unfold scanSchema.
  pose proof (typed_named_schemas spec Hs _ Hin) as Hschema.
  destruct (findSchemaRelationships_total name schema Hschema)
    as (related & ->).
  eexists. split; [reflexivity|]. simpl.
  apply Forall_app. split; [exact Hrs|]. constructor; [exact Hschema|].
  constructor.
Qed.

Lemma isPaginationParameter_total (p : json) :
  named_parameter p = true -> exists b, isPaginationParameter p = Ok b.
Proof.
  unfold named_parameter, isPaginationParameter. intros H.
  assert (Hnn : p <> JNull) by (intros ->; discriminate H).
  rewrite (get_not_null p "name" Hnn). cbn [bind].
  destruct (prop p "name") as [[| | |s| |]|]; try discriminate H. eauto.
Qed.

Lemma hasPaginationParameters_total (op : json) :
  typed_operation op = true -> exists b, hasPaginationParameters op = Ok b.
Proof.
  intros Hop. destruct (typed_operation_inv op Hop) as (Hnn & _ & Hpar & _).
  unfold hasPaginationParameters.
  rewrite (get_not_null op "parameters" Hnn). cbn [bind].
  destruct (prop op "parameters") as [[| | | |ps|]|]; try discriminate Hpar;
    simpl; [|eauto].
  apply someM_total. intros p Hin. apply isPaginationParameter_total.
  simpl in Hpar. rewrite forallb_forall in Hpar. apply Hpar. exact Hin.
Qed.

Lemma hasPaginationPattern_total (es : list AnalyzedEndpoint) :
  Forall (fun e => typed_operation (operation e) = true) es ->
  exists b, hasPaginationPattern es = Ok b.
Proof.
  intros Hes. unfold hasPaginationPattern. apply someM_total.
  intros e Hin. apply hasPaginationParameters_total.
  rewrite List.Forall_forall in Hes. apply Hes. exact Hin.
Qed.

Lemma hasFileUploadPattern_total (es : list AnalyzedEndpoint) :
  Forall (fun e => typed_operation (operation e) = true) es ->
  exists b, hasFileUploadPattern es = Ok b.
Proof.
  intros Hes. unfold hasFileUploadPattern. apply someM_total.
  intros e Hin. rewrite List.Forall_forall in Hes.
  destruct (typed_operation_inv _ (Hes e Hin)) as (Hnn & _).
  rewrite (get_not_null _ "requestBody" Hnn). simpl. eauto.
Qed.

Lemma detectWorkflows_total (a : SpecAnalysis) :
  Forall (fun e => typed_operation (operation e) = true) (endpoints a) ->
  exists a', detectWorkflows a = Ok a'.
Proof.
  intros Hes. unfold detectWorkflows, push_workflow.
  destruct a as [tools res prompts samp ctx errs es rs ws rels eps caps].
  cbn [endpoints workflows set_workflows] in *.
  destruct (hasPaginationPattern_total es Hes) as (pag & Hpag).
  destruct (hasFileUploadPattern_total es Hes) as (up & Hup).
  destruct (hasAuthenticationFlow es);
    cbn [endpoints workflows set_workflows]; rewrite Hpag; cbn [bind];
    destruct pag; cbn [endpoints workflows set_workflows];
    rewrite Hup; cbn [bind]; destruct up;
    match goal with
    | |- exists _, (if ?c then _ else _) = _ => destruct c; eauto
    end.
Qed.

Lemma includes_opt_total (v : value) (x : string) :
  optional_string v = true -> exists r, includes_opt v x = Ok r.
Proof. destruct v as [[| | |s| |]|]; simpl; try discriminate; eauto. Qed.

Lemma refersTo_total (relatedResource : string) (entry : string * json) :
  typed_property (snd entry) = true ->
  exists b, refersTo relatedResource entry = Ok b.
Proof.
  destruct entry as [pn ps]. simpl. intros Hp. unfold refersTo.
  destruct ps as [| | | | |kvs]; try discriminate Hp.
  unfold typed_property in Hp. apply andb_prop in Hp.
  destruct Hp as [Href Hitems]. cbn [bind].
  destruct (includes_opt_total _ relatedResource Href) as (direct & ->).
  cbn [bind]. destruct (is_true direct); [eauto|].
  destruct (includes_opt_total _ relatedResource Hitems) as (via & ->).
  cbn [bind]. eauto.
Qed.

Lemma determineRelationshipType_total (schema : json)
  (relatedResource : string) :
  typed_schema schema = true ->
  exists t, determineRelationshipType schema relatedResource = Ok t.
Proof.
  intros Hs. destruct (typed_schema_properties schema Hs) as (Hnn & Hprops).
  unfold determineRelationshipType.
  rewrite (get_not_null schema "properties" Hnn). cbn [bind].
  destruct (findM_total (refersTo relatedResource)
              (entries (or_else (prop schema "properties") (JObj []))))
    as (found & ->).
  { intros entry Hin. apply refersTo_total. apply Hprops. exact Hin. }
  cbn [bind]. destruct found as [[propName ?]|]; [|eauto].
  repeat match goal with
         | |- context [if ?c then _ else _] => destruct c
         end; eauto.
Qed.

Lemma analyzeRelationships_total (a : SpecAnalysis) :
  Forall (fun r => typed_schema (res_schema r) = true) (resources a) ->
  exists a', analyzeRelationships a = Ok a'.
Proof.
  intros Hrs. unfold analyzeRelationships.
  destruct (foldM_total (fun _ => True) relateResource (resources a))
    with (st := a) as (a' & Ha' & _); [|exact I|eauto].
  intros s r Hin _. unfold relateResource.
  destruct (foldM_total (fun _ => True) (relate r) (res_relationships r))
    with (st := s) as (s' & Hs' & _); [|exact I|eauto].
  intros t related _ _. unfold relate.
  rewrite List.Forall_forall in Hrs.
  destruct (determineRelationshipType_total (res_schema r) related
              (Hrs r Hin)) as (type & ->).
  simpl. eauto.
Qed.

Lemma typed_responses_entries (op : json) :
  typed_responses (prop op "responses") = true ->
  forall entry,
    In entry (entries (or_else (prop op "responses") (JObj []))) ->
    typed_response (snd entry) = true.
Proof.
  intros H. destruct (prop op "responses") as [[| | | | |rs]|];
    try discriminate H; simpl; [|intros ? []].
  simpl in H. rewrite forallb_forall in H. exact H.
Qed.

Lemma isRecoverableError_total (statusCode : string) (response : json) :
  typed_response response = true ->
  exists r, isRecoverableError statusCode response = Ok r.
Proof.
  intros Hr. unfold isRecoverableError.
  destruct (string_in statusCode _); [eauto|].
  destruct response as [| | | | |kvs]; try discriminate Hr.
  unfold typed_response in Hr. cbn [prop] in Hr. cbn [get prop bind].
  destruct (assoc "description" kvs) as [[| | |s| |]|];
    try discriminate Hr; simpl; eauto.
Qed.

Lemma scanResponse_total (endpoint : AnalyzedEndpoint) (s : SpecAnalysis)
  (entry : string * json) :
  typed_response (snd entry) = true ->
  exists s', scanResponse endpoint s entry = Ok s'.
Proof.
  destruct entry as [code response]. simpl. intros Hr. unfold scanResponse.
  destruct (startsWith "4" code || startsWith "5" code); [|eauto].
  destruct (isRecoverableError_total code response Hr) as (r & ->).
  destruct response as [| | | | |kvs]; try discriminate Hr.
  simpl. eauto.
Qed.

Lemma detectErrorPatterns_total (a : SpecAnalysis) :
  Forall (fun e => typed_operation (operation e) = true) (endpoints a) ->
  exists a', detectErrorPatterns a = Ok a'.
Proof.
  intros Hes. unfold detectErrorPatterns.
  destruct (foldM_total (fun _ => True) scanEndpointErrors (endpoints a))
    with (st := a) as (a' & Ha' & _); [|exact I|eauto].
  intros s e Hin _. unfold scanEndpointErrors.
  rewrite List.Forall_forall in Hes.
  destruct (typed_operation_inv _ (Hes e Hin)) as (Hnn & _ & _ & Hresp).
  rewrite (get_not_null _ "responses" Hnn). cbn [bind].
  destruct (foldM_total (fun _ => True) (scanResponse e)
              (entries (or_else (prop (operation e) "responses") (JObj []))))
    with (st := s) as (s' & Hs' & _); [|exact I|eauto].
  intros t entry Hentry _.
  destruct (scanResponse_total e t entry
              (typed_responses_entries _ Hresp entry Hentry)) as (t' & ->).
  eauto.
Qed.

Lemma hasRateLimitHeader_total (r : json) :
  typed_response r = true -> exists b, hasRateLimitHeader r = Ok b.
Proof.
  destruct r; try discriminate. intros _. unfold hasRateLimitHeader.
  simpl. eauto.
Qed.

Lemma analyzeCapabilities_total (spec : json) (a : SpecAnalysis) :
  spec <> JNull ->
  Forall (fun e => typed_operation (operation e) = true) (endpoints a) ->
  exists a', analyzeCapabilities spec a = Ok a'.
Proof.
  intros Hspec Hes. unfold analyzeCapabilities.
  rewrite List.Forall_forall in Hes.
  destruct (someM_total (fun e => hasPaginationParameters (operation e))
              (endpoints a)) as (pagination & ->).
  { intros e Hin. apply hasPaginationParameters_total. apply Hes, Hin. }
  cbn [bind]. rewrite !(get_not_null spec) by exact Hspec. cbn [bind].
  destruct (someM_total
              (fun e => let* responses := get (Some (operation e)) "responses"
                        in Ok (is_defined (get_opt responses "202")))
              (endpoints a)) as (async & ->).
  { intros e Hin. destruct (typed_operation_inv _ (Hes e Hin)) as (Hnn & _).
    rewrite (get_not_null _ "responses" Hnn). simpl. eauto. }
  cbn [bind].
  destruct (someM_total
              (fun e => let* responses := get (Some (operation e)) "responses"
                        in someM hasRateLimitHeader
                             (map snd (entries (or_else responses
                                                        (JObj [])))))
              (endpoints a)) as (limited & ->).
  { intros e Hin.
    destruct (typed_operation_inv _ (Hes e Hin)) as (Hnn & _ & _ & Hresp).
    rewrite (get_not_null _ "responses" Hnn). cbn [bind].
    apply someM_total. intros r Hr. apply in_map_iff in Hr.
    destruct Hr as (entry & <- & Hentry).
    apply hasRateLimitHeader_total.
    apply (typed_responses_entries _ Hresp entry Hentry). }
  cbn [bind]. eauto.
Qed.

Lemma typed_document_inv (spec : json) :
  typed_document spec = true ->
  spec <> JNull
  /\ typed_paths (prop spec "paths") = true
  /\ typed_schemas (get_opt (prop spec "components") "schemas") = true.
Proof.
  destruct spec; try discriminate. unfold typed_document. intros H.
  apply andb_prop in H. destruct H as [Hp Hs].
  repeat split; try assumption. discriminate.
Qed.

(** X23. The analysis of a typed document returns a model, it throws
    nothing: a document object whose paths, when present, map to path
    item objects in which every operation-like entry is an object with a
    string summary (or none), an array of parameters with string names (or
    none) and response objects with string descriptions (or none), and
    whose component schemas, when present, are objects whose properties
    are objects with string reference pointers. Every other part of the
    document is free. *)
Theorem typed_document_is_analyzed (spec : json) :
  typed_document spec = true -> exists model, analyze spec = Ok model.
Proof.
  intros Hdoc. destruct (typed_document_inv spec Hdoc) as (Hnn & Hp & Hs).
  unfold analyze.
  destruct (analyzePaths_total spec initial_analysis Hnn Hp)
    as (a1 & E1 & Hes1); [constructor|].
  rewrite E1. cbn [bind].
  destruct (analyzeSchemas_total spec a1 Hnn Hs) as (a2 & E2 & Hrs2).
  { apply analyzePaths_frame in E1. apply (f_equal fst) in E1.
    unfold besides_paths in E1. simpl in E1.
    do 4 apply (f_equal fst) in E1. simpl in E1. rewrite E1. constructor. }
  rewrite E2. cbn [bind].
  assert (Hes2 : endpoints a2 = endpoints a1).
  { apply analyzeSchemas_frame in E2. unfold besides_schemas in E2.
    congruence. }
  destruct (detectWorkflows_total a2) as (a3 & E3);
    [rewrite Hes2; exact Hes1|].
  rewrite E3. cbn [bind].
  apply detectWorkflows_frame in E3. unfold besides_workflows in E3.
  assert (Hes3 : endpoints a3 = endpoints a2) by congruence.
  assert (Hrs3 : resources a3 = resources a2) by congruence.
  destruct (analyzeRelationships_total a3) as (a4 & E4);
    [rewrite Hrs3; exact Hrs2|].
  rewrite E4. cbn [bind].
  apply analyzeRelationships_frame in E4. unfold besides_relationships in E4.
  assert (Hes4 : endpoints a4 = endpoints a3) by congruence.
  destruct (detectErrorPatterns_total a4) as (a5 & E5);
    [rewrite Hes4, Hes3, Hes2; exact Hes1|].
  rewrite E5. cbn [bind].
  apply detectErrorPatterns_frame in E5. unfold besides_errors in E5.
  assert (Hes5 : endpoints a5 = endpoints a4) by congruence.
  destruct (analyzeCapabilities_total spec a5 Hnn) as (a6 & E6);
    [rewrite Hes5, Hes4, Hes3, Hes2; exact Hes1|].
  rewrite E6. cbn [bind]. eauto.
Qed.

Lemma typed_document_is_analyzed_witness :
  typed_document orders_doc = true
  /\ exists model, analyze orders_doc = Ok model.
Proof.
  split; [reflexivity|]. apply (typed_document_is_analyzed orders_doc).
  reflexivity.
Defined.

(** ** Roots without a name *)

Lemma someM_fails {X : Type} (p : X -> result bool) (before after : list X)
  (x : X) (e : failure) :
  (forall y, In y before -> p y = Ok false) -> p x = Fail e ->
  someM p (before ++ x :: after) = Fail e.
Proof.
  intros Hbefore Hx. induction before as [|y rest IH]; simpl.
  - rewrite Hx. reflexivity.
  - rewrite (Hbefore y (or_introl eq_refl)). simpl. apply IH.
    intros z Hz. apply Hbefore. right. exact Hz.
Qed.

Lemma isTestRoot_plain (r : json) :
  plain_root r = true -> isTestRoot r = Ok false.
Proof.
  unfold plain_root, isTestRoot. intros H.
  assert (Hnn : r <> JNull) by (intros ->; discriminate H).
  rewrite (get_not_null r "name" Hnn). cbn [bind].
  destruct (prop r "name") as [[| | |s| |]|]; try discriminate H.
  apply negb_true_iff in H. rewrite H. reflexivity.
Qed.

Lemma isTestRoot_nameless (r : json) :
  prop r "name" = None -> isTestRoot r = Fail TypeError.
Proof.
  intros H. unfold isTestRoot. destruct r; try reflexivity;
    unfold get; cbn [bind]; rewrite H; reflexivity.
Qed.

(** X24. The context overlay throws a TypeError on a root without a name:
    when the roots of the context are an array in which a root that has no
    name comes after roots whose names are strings without "test", the
    call throws, although the analysis of the document itself returned;
    the roots after the nameless one are not looked at. *)
Theorem nameless_root_throws (context spec : json) (h : list SpecAnalysis)
  (before after : list json) (r : json) (m : SpecAnalysis) :
  analyze spec = Ok m ->
  prop context "roots" = Some (JArr (before ++ r :: after)) ->
  forallb plain_root before = true ->
  prop r "name" = None ->
  fst (analyzeWithContext context spec h) = Fail TypeError.
Proof.
  intros Hm Hroots Hbefore Hr.
  assert (Hnn : context <> JNull) by (intros ->; discriminate Hroots).
  assert (Htest : hasTestRoot context = Fail TypeError).
  { unfold hasTestRoot. rewrite (get_not_null context "roots" Hnn).
    cbn [bind]. rewrite Hroots. apply someM_fails.
    - intros y Hy. apply isTestRoot_plain.
      rewrite forallb_forall in Hbefore. apply Hbefore. exact Hy.
    - apply isTestRoot_nameless. exact Hr. }
  unfold analyzeWithContext, analyze_call. rewrite Hm.
  rewrite (get_not_null context "environment" Hnn). rewrite Htest.
  reflexivity.
Qed.

Lemma nameless_root_throws_witness :
  fst (analyzeWithContext nameless_root_context orders_doc [])
  = Fail TypeError.
Proof.
  eapply (nameless_root_throws nameless_root_context orders_doc []
            [JObj [("uri", JStr "file:///srv/api"); ("name", JStr "api")]]
            [JObj [("uri", JStr "file:///srv/test"); ("name", JStr "test")]]
            (JObj [("uri", JStr "file:///srv/data")])).
  - vm_compute. reflexivity.
  - reflexivity.
  - reflexivity.
  - reflexivity.
Defined.

(** * The context manager *)

Module ContextManagerFacts.
Import ContextManager.

Lemma trackOperation_step (history : list string) (operation : string) :
  let history' := trackOperation history operation in
  (List.length history' <= 100)%nat
  /\ (List.length history' = S (List.length history)
      \/ List.length history' = 50%nat)
  /\ exists dropped, history ++ [operation] = dropped ++ history'.
Proof.
  unfold trackOperation, slice_last. cbv zeta.
  destruct (100 <? List.length (history ++ [operation]))%nat eqn:Hlong.
  - apply Nat.ltb_lt in Hlong. rewrite length_skipn.
    rewrite length_app in *. simpl in *.
    split; [lia|]. split; [right; lia|].
    exists (firstn (List.length history + 1 - 50) (history ++ [operation])).
    symmetry. apply firstn_skipn.
  - apply Nat.ltb_ge in Hlong. rewrite length_app in *. simpl in *.
    split; [lia|]. split; [left; lia|]. exists []. reflexivity.
Qed.

(** X20. The operation history never grows beyond 100 entries: after
    any run of [trackOperation] from any history, it has at most 100
    entries and at least the 50 most recent ones (all of them when there
    are fewer), and it is a suffix of everything tracked, so its last
    entry is the last operation. *)
Theorem history_bounded (history operations : list string) :
  let history' := fold_left trackOperation operations history in
  (operations <> [] -> (List.length history' <= 100)%nat)
  /\ (Nat.min 50 (List.length (history ++ operations))
      <= List.length history')%nat
  /\ exists dropped, history ++ operations = dropped ++ history'.
Proof.
  cbv zeta. revert history.
  induction operations as [|op rest IH]; intros history; cbn [fold_left].
  - split; [congruence|]. rewrite app_nil_r.
    split; [apply Nat.le_min_r|]. exists []. reflexivity.
  - destruct (trackOperation_step history op)
      as (Hbound & Hlen & dropped & Hdrop). cbv zeta in *.
    destruct (IH (trackOperation history op))
      as (IHbound & IHmin & dropped' & Hdrop').
    split; [|split].
    + intros _. destruct rest as [|op' rest'];
        [exact Hbound | apply IHbound; discriminate].
    + rewrite length_app in *. cbn [List.length] in *.
      destruct Hlen as [Hlen|Hlen]; rewrite Hlen in IHmin.
      * replace (List.length history + S (List.length rest))%nat
          with (S (List.length history) + List.length rest)%nat by lia.
        exact IHmin.
      * etransitivity; [apply Nat.le_min_l|].
        etransitivity; [|exact IHmin].
        apply Nat.min_glb; lia.
    + exists (dropped ++ dropped').
      replace (history ++ op :: rest) with ((history ++ [op]) ++ rest)
        by (rewrite <- app_assoc; reflexivity).
      rewrite Hdrop, <- !app_assoc, Hdrop'. reflexivity.
Qed.

Lemma history_bounded_witness :
  (List.length (fold_left trackOperation ["read"; "update"]
                          (repeat "list" 100)) <= 100)%nat.
Proof.
  apply (history_bounded (repeat "list" 100) ["read"; "update"]).
  discriminate.
Defined.

Lemma has_iff (env : string) (context : APIContext) :
  has env (environments context) = true <->
  exists key, endsWith "_env" key = true
              /\ In (key, JStr env) (metadata context).
Proof.
  unfold has, environments. rewrite existsb_exists. split.
  - intros (v & Hin & Hv). apply in_map_iff in Hin.
    destruct Hin as ([key v'] & Hsnd & Hin). simpl in Hsnd. subst v'.
    apply filter_In in Hin. destruct Hin as [Hin Hkey]. simpl in Hkey.
    destruct v as [| | |s| |]; simpl in Hv; try discriminate Hv.
    apply String.eqb_eq in Hv. subst s. exists key. auto.
  - intros (key & Hkey & Hin). exists (JStr env). split.
    + apply in_map_iff. exists (key, JStr env). split; [reflexivity|].
      apply filter_In. auto.
    + simpl. apply String.eqb_refl.
Qed.

(** X21. The detected environment is one of production, staging,
    development, local and unknown. It is production exactly when some
    metadata entry whose key ends in "_env" holds "production",
    wherever that entry stands; staging exactly when none holds
    "production" and one holds "staging"; and the roots, the metadata
    and the history are left as they were. *)
Theorem environment_priority (context : APIContext) :
  let detected := detectEnvironment context in
  In (environment detected)
     ["production"; "staging"; "development"; "local"; "unknown"]
  /\ (environment detected = "production" <->
      exists key, endsWith "_env" key = true
                  /\ In (key, JStr "production") (metadata context))
  /\ (environment detected = "staging" <->
      (~ exists key, endsWith "_env" key = true
                     /\ In (key, JStr "production") (metadata context))
      /\ exists key, endsWith "_env" key = true
                     /\ In (key, JStr "staging") (metadata context))
  /\ roots detected = roots context
  /\ metadata detected = metadata context
  /\ operationHistory detected = operationHistory context.
Proof.
  cbv zeta. rewrite <- !has_iff. unfold detectEnvironment. simpl.
  destruct (has "production" (environments context));
    [|destruct (has "staging" (environments context));
      [|destruct (has "development" (environments context));
        [|destruct (existsb _ (roots context))]]];
    simpl; intuition (try discriminate; auto).
Qed.

Lemma environment_priority_witness :
  environment (detectEnvironment two_environments) = "production".
Proof.
  apply (environment_priority two_environments).
  exists "https://api.example.com_env". split; [reflexivity|].
  right. right. left. reflexivity.
Defined.

Lemma typed_context_value (context : APIContext) :
  typed_context (context_value context).
Proof.
  unfold typed_context, context_value. eexists. eexists.
  split; [reflexivity|]. split; [reflexivity|].
  induction (roots context) as [|r rest IH]; [reflexivity | exact IH].
Qed.

Lemma existsb_named_test (rs : list Root) :
  existsb named_test
          (map (fun r => JObj [("uri", JStr (uri r)); ("name", JStr (name r))])
               rs)
  = existsb (fun r => includes "test" (name r)) rs.
Proof.
  induction rs as [|r rest IH]; [reflexivity|].
  simpl. rewrite IH. reflexivity.
Qed.

(** X22. Detection and re-analysis compose: when some "_env" metadata
    entry holds "production", [analyzeWithContext] on the context that
    [detectEnvironment] produces returns, whenever [analyze] returns, a
    model with [requiresStrictValidation] true; its [hasTestMode] is
    true exactly when the name of some root contains "test". *)
Theorem production_context_is_strict (context : APIContext) (spec : json)
  (h : heap) (m : SpecAnalysis) :
  (exists key, endsWith "_env" key = true
               /\ In (key, JStr "production") (metadata context)) ->
  analyze spec = Ok m ->
  exists a h' m',
    analyzeWithContext (context_value (detectEnvironment context)) spec h
    = (Ok a, h')
    /\ h' !! a = Some m'
    /\ requiresStrictValidation (capabilities m') = Some true
    /\ (hasTestMode (capabilities m') = Some true <->
        exists r, In r (roots context) /\ includes "test" (name r) = true).
Proof.
  intros Hprod Hm.
  destruct (analyze_capabilities spec m Hm) as (_ & _ & Htest).
  assert (Henv : environment (detectEnvironment context) = "production").
  { unfold detectEnvironment. simpl.
    apply has_iff in Hprod. rewrite Hprod. reflexivity. }
  unfold analyzeWithContext, analyze_call. rewrite Hm.
  rewrite (hasTestRoot_typed _ (typed_context_value _)).
  unfold roots_of, context_value at 1 2. cbn [get prop assoc String.eqb
    Ascii.eqb Bool.eqb is_production is_string roots detectEnvironment].
  pose proof (existsb_named_test (roots context)) as Hnames.
  assert (Hbase : (h ++ [m]) !! List.length h = Some m)
    by (apply list_lookup_middle; reflexivity).
  pose proof (write_capabilities_at (List.length h)
                (set_requiresStrictValidation true) _ _ Hbase) as Hstrict.
  destruct (String.eqb (environment (detectEnvironment context))
                       "production") eqn:Heq;
    [|rewrite Henv in Heq; discriminate Heq].
  destruct (existsb named_test _) eqn:Hnt.
  - eexists. eexists. eexists. split; [reflexivity|].
    split; [apply (write_capabilities_at _ _ _ _ Hstrict)|].
    split; [reflexivity|]. rewrite <- existsb_exists, <- Hnames.
    split; reflexivity.
  - eexists. eexists. eexists. split; [reflexivity|].
    split; [exact Hstrict|]. split; [reflexivity|].
    rewrite <- existsb_exists, <- Hnames. simpl. rewrite Htest.
    split; discriminate.
Qed.

Lemma production_context_is_strict_witness :
  exists a h' m',
    analyzeWithContext (context_value (detectEnvironment two_environments))
                       paginated_doc []
    = (Ok a, h')
    /\ h' !! a = Some m'
    /\ requiresStrictValidation (capabilities m') = Some true.
Proof.
  edestruct (production_context_is_strict two_environments paginated_doc [])
    as (a & h' & m' & Hcall & Hlook & Hstrict & _).
  - exists "https://api.example.com_env". split; [reflexivity|].
    right. right. left. reflexivity.
  - vm_compute. reflexivity.
  - exists a, h', m'. auto.
Defined.
End ContextManagerFacts.
